(** * Sustaining Audit: a shallow embedding of [sustaining_audit_app.py]

    The Flask application keeps four SQL tables (Category, ChecklistItem,
    Audit, AuditItem), an upload folder for photos, and serves a handful of
    request handlers.  This development embeds the handlers as functions in a
    small state-and-exception monad over the persisted state and proves
    properties of them.

    Conventions of the embedding:
    - a Python [str] is a Rocq [string]; its characters stand for the code
      points below 256, and the character classes ([str.isspace], the
      regular expression of [secure_filename]) are the Python ones restricted
      to that range;
    - a Python [int] is a [Z]; an SQLite [INTEGER] is a [Z] within 64 bits:
      the driver raises [OverflowError] when it is handed any other integer,
      as the value of a column or as the key of a lookup;
    - a nullable column or an absent form field is an [option];
    - a table is the list of its rows in insertion order; queries are list
      functions; a primary key is assigned as SQLite does for an
      [INTEGER PRIMARY KEY] column (largest key in the table plus one);
    - the SQLAlchemy session is a working copy of the tables: a flush sends
      the rows it has added to the database, which is where their integers
      are bound; [commit] flushes and publishes the working copy; the end of
      a request discards what was not committed; a commit expires the loaded
      objects, so that the first attribute read of each one afterwards
      reloads it, and the reload flushes first;
    - float arithmetic of the percentage computation is carried out in [Q],
      and a division by zero raises [ZeroDivisionError]. *)

From Stdlib Require Import ZArith QArith String Ascii List Bool Lia.
From Stdlib Require Import Permutation Sorted DecimalString DecimalZ DecimalPos.
From Stdlib Require DecimalFacts.
Import ListNotations.

#[local] Open Scope string_scope.
#[local] Open Scope Z_scope.

(* ================================================================== *)
(** * Python strings and integers *)
(* ================================================================== *)

Module Py.

(** Code point of a character. *)
Definition ord (c : ascii) : Z := Z.of_N (N_of_ascii c).

Definition between (lo hi : Z) (c : ascii) : bool :=
  (lo <=? ord c) && (ord c <=? hi).

(** [str.isspace] on one character: TAB..CR, FS..US, SPACE, NEL, NBSP. *)
Definition isspace (c : ascii) : bool :=
  between 9 13 c || between 28 32 c || (ord c =? 133) || (ord c =? 160).

Definition isdigit (c : ascii) : bool := between 48 57 c.
Definition isupper (c : ascii) : bool := between 65 90 c.
Definition islower (c : ascii) : bool := between 97 122 c.
Definition is_ascii (c : ascii) : bool := ord c <? 128.

(** Truthiness of a string: [if s:]. *)
Definition truthy (s : string) : bool :=
  match s with EmptyString => false | String _ _ => true end.

Fixpoint str_filter (p : ascii -> bool) (s : string) : string :=
  match s with
  | EmptyString => EmptyString
  | String c r => if p c then String c (str_filter p r) else str_filter p r
  end.

Fixpoint str_map (f : ascii -> ascii) (s : string) : string :=
  match s with
  | EmptyString => EmptyString
  | String c r => String (f c) (str_map f r)
  end.

Fixpoint str_forall (p : ascii -> bool) (s : string) : bool :=
  match s with
  | EmptyString => true
  | String c r => p c && str_forall p r
  end.

(** [s.lstrip(chars)], [s.rstrip(chars)], [s.strip(chars)], the set of
    characters given as a predicate. *)
Fixpoint lstrip (p : ascii -> bool) (s : string) : string :=
  match s with
  | EmptyString => EmptyString
  | String c r => if p c then lstrip p r else s
  end.

Fixpoint rstrip (p : ascii -> bool) (s : string) : string :=
  match s with
  | EmptyString => EmptyString
  | String c r =>
      match rstrip p r with
      | EmptyString => if p c then EmptyString else String c EmptyString
      | String d r' => String c (String d r')
      end
  end.

Definition strip_chars (p : ascii -> bool) (s : string) : string :=
  rstrip p (lstrip p s).

(** [s.strip()]. *)
Definition strip (s : string) : string := strip_chars isspace s.

(** [s.split()]: the maximal runs of non-whitespace characters. *)
Definition cons_word (w : string) (ws : list string) : list string :=
  match w with EmptyString => ws | String _ _ => w :: ws end.

Fixpoint split_aux (s : string) : string * list string :=
  match s with
  | EmptyString => (EmptyString, [])
  | String c r =>
      let (w, ws) := split_aux r in
      if isspace c then (EmptyString, cons_word w ws) else (String c w, ws)
  end.

Definition split (s : string) : list string :=
  let (w, ws) := split_aux s in cons_word w ws.

(** [sep.join(ws)]. *)
Fixpoint join (sep : string) (ws : list string) : string :=
  match ws with
  | [] => EmptyString
  | [w] => w
  | w :: rest => w ++ sep ++ join sep rest
  end.

(** [s.replace(old, new)] for a one-character [old]. *)
Definition replace_char (old new : ascii) (s : string) : string :=
  str_map (fun c => if Ascii.eqb c old then new else c) s.

(** [s.split(".")[0]]: the text before the first occurrence of [sep]. *)
Fixpoint first_segment (sep : ascii) (s : string) : string :=
  match s with
  | EmptyString => EmptyString
  | String c r => if Ascii.eqb c sep then EmptyString
                  else String c (first_segment sep r)
  end.

(** [s.upper()] on ASCII text. *)
Definition upper_char (c : ascii) : ascii :=
  if islower c then ascii_of_N (N_of_ascii c - 32) else c.

Definition upper (s : string) : string := str_map upper_char s.

(** [str(n)] and the [{n}] of an f-string, for an integer. *)
Definition str_of_int (n : Z) : string := NilZero.string_of_int (Z.to_int n).

(** The blanks that [int] skips at both ends of its argument: those of C's
    [isspace], and NEL and NBSP, which it reads as a space.  Unlike
    [str.isspace] it does not take FS..US for blanks. *)
Definition int_space (c : ascii) : bool :=
  between 9 13 c || (ord c =? 32) || (ord c =? 133) || (ord c =? 160).

(** [sys.get_int_max_str_digits()] as the interpreter sets it: [int] refuses
    a numeral with more digits. *)
Definition max_str_digits : Z := 4300.

(** [int(s)]: the blanks at both ends are dropped; what is left is a
    numeral of no more than [max_str_digits] digits: an optional sign, then
    decimal digits, single underscores being allowed between two digits.
    [None] stands for [ValueError]. *)
Fixpoint int_digits (s : string) (acc : Z) (after_digit : bool) : option Z :=
  match s with
  | EmptyString => if after_digit then Some acc else None
  | String c r =>
      if isdigit c then int_digits r (10 * acc + (ord c - 48)) true
      else if Ascii.eqb c "_" then
        (if after_digit then int_digits r acc false else None)
      else None
  end.

Definition int_numeral (t : string) : option Z :=
  match t with
  | String "+" r => int_digits r 0 false
  | String "-" r => option_map Z.opp (int_digits r 0 false)
  | r => int_digits r 0 false
  end.

Definition int (s : string) : option Z :=
  let t := strip_chars int_space s in
  if max_str_digits <? Z.of_nat (String.length (str_filter isdigit t))
  then None
  else int_numeral t.

End Py.

(* ================================================================== *)
(** * The data model *)
(* ================================================================== *)

(** A calendar date, as the [Date] column holds it. *)
Record date := { year : Z; month : Z; day : Z }.

Definition date_leb (d e : date) : bool :=
  (year d <? year e)
  || ((year d =? year e)
      && ((month d <? month e)
          || ((month d =? month e) && (day d <=? day e)))).

Module Category.
Record t := { id : Z; name : string }.
End Category.

Module ChecklistItem.
Record t := { id : Z; category_id : Z; text : string;
                original_spec : option string }.
End ChecklistItem.

Module Audit.
Record t := { id : Z; vendor : string; audit_date : date;
                audit_area : string; created_at : string }.
End Audit.

Module AuditItem.
Record t := { id : Z; audit_id : Z; checklist_item_id : Z;
                score : option Z; record : option string;
                photo_filename : option string }.
End AuditItem.

(** The four tables. *)
Record DB := {
  categories : list Category.t;
  checklist_items : list ChecklistItem.t;
  audits : list Audit.t;
  audit_items : list AuditItem.t }.

(** An uploaded file, as [request.files] holds it. *)
Record FileStorage := { filename : string; content : string }.

Inductive http_method := GET | POST.

Record Request := {
  method : http_method;
  form : list (string * string);
  files : list (string * FileStorage) }.

(** What outlives a request: the committed tables, the upload folder (file
    name and content) and the flashed messages waiting to be shown. *)
Record Site := {
  tables : DB;
  uploads : list (string * string);
  flashes : list string }.

(** The state of a request in progress: the site and the session's working
    copy of the tables. *)
Record World := { site : Site; session : DB }.

Inductive os_kind := posix | nt.

(** What the handlers take from their platform.  [fromisoformat] is
    [datetime.fromisoformat(s).date()], [None] standing for [ValueError];
    [nfkd_ascii] is [unicodedata.normalize("NFKD", s)] followed by
    [.encode("ascii", "ignore").decode("ascii")]; [save_denied] and
    [remove_denied] tell for which paths the file system refuses a write or
    a removal; [utcnow] is the clock, rendered as [%Y%m%d%H%M%S]. *)
Record Platform := {
  fromisoformat : string -> option date;
  nfkd_ascii : string -> string;
  os_name : os_kind;
  save_denied : string -> bool;
  remove_denied : string -> bool;
  utcnow : string }.

(* ================================================================== *)
(** * Requests as computations *)
(* ================================================================== *)

Inductive exn :=
| ValueError
| AttributeError
| OSError
| OverflowError        (* the database driver, on an integer it cannot bind *)
| ZeroDivisionError
| BadRequestKeyError   (* [request.form[k]] on a missing key *)
| NotFound.            (* [abort(404)], raised by [get_or_404] *)

Inductive result (A : Type) :=
| Return (a : A)
| Raise (e : exn).
Arguments Return {A} a.
Arguments Raise {A} e.

Definition M (A : Type) : Type := World -> result A * World.

Definition ret {A} (a : A) : M A := fun w => (Return a, w).

Definition bind {A B} (c : M A) (k : A -> M B) : M B :=
  fun w => match c w with
           | (Return a, w') => k a w'
           | (Raise e, w') => (Raise e, w')
           end.

Definition raise {A} (e : exn) : M A := fun w => (Raise e, w).

Declare Scope flask_scope.
Delimit Scope flask_scope with flask.
Notation "x <- c ;; k" := (bind c (fun x => k))
  (at level 61, c at next level, right associativity) : flask_scope.
Notation "c ;; k" := (bind c (fun _ => k))
  (at level 61, right associativity) : flask_scope.
#[local] Open Scope flask_scope.

(** [try: c  except: pass]. *)
Definition try_pass (c : M unit) : M unit :=
  fun w => match c w with
           | (Return u, w') => (Return u, w')
           | (Raise _, w') => (Return tt, w')
           end.

Definition of_option {A} (e : exn) (o : option A) : M A :=
  match o with Some a => ret a | None => raise e end.

(** [for x in l: body]. *)
Fixpoint for_each {A} (l : list A) (body : A -> M unit) : M unit :=
  match l with
  | [] => ret tt
  | x :: r => body x ;; for_each r body
  end.

(** A loop that updates local variables, gathered in [acc]. *)
Fixpoint for_fold {A S} (l : list A) (acc : S) (body : S -> A -> M S) : M S :=
  match l with
  | [] => ret acc
  | x :: r => acc' <- body acc x ;; for_fold r acc' body
  end.

(** A loop that appends one element per pass. *)
Fixpoint for_map {A B} (l : list A) (body : A -> M B) : M (list B) :=
  match l with
  | [] => ret []
  | x :: r => y <- body x ;; ys <- for_map r body ;; ret (y :: ys)
  end.

(** ** The session *)

Definition query {A} (q : DB -> A) : M A := fun w => (Return (q (session w)), w).

Definition session_update (f : DB -> DB) : M unit :=
  fun w => (Return tt, {| site := site w; session := f (session w) |}).

(** SQLite holds an [INTEGER] in 64 bits, and its driver refuses to bind a
    Python [int] outside that range: it raises [OverflowError]. *)
Definition fits_int64 (n : Z) : bool :=
  (-9223372036854775808 <=? n) && (n <=? 9223372036854775807).

(** [Model.query.get(i)]: the row of key [i], [None] when the table has
    none.  The key is bound as a parameter of the [SELECT], and the driver
    raises [OverflowError] on a key outside 64 bits.  A table of the
    database holds no row under such a key, so the refusal is placed where
    the lookup finds no row: on the tables that SQLite can hold this is the
    same as refusing the key before the lookup. *)
Definition query_get {A} (row_of : Z -> DB -> option A) (i : Z)
  : M (option A) :=
  fun w => match row_of i (session w) with
           | Some r => (Return (Some r), w)
           | None => if fits_int64 i then (Return None, w)
                     else (Raise OverflowError, w)
           end.

(** The rows of a table that the session holds and the database has not
    been sent: [db.session.add] puts a row after the rows of its table, so
    they are the rows after the committed ones. *)
Definition unsent {A} (committed working : list A) : list A :=
  skipn (length committed) working.

(** An optional integer that the driver can bind. *)
Definition bindable_opt (o : option Z) : bool :=
  match o with Some n => fits_int64 n | None => true end.

(** The driver can bind the integers that the request has put into the
    unsent rows: the [category_id] of a checklist item and the [score] of an
    audit item.  The other integers of a row are keys that the database
    handed out. *)
Definition bindable (w : World) : bool :=
  forallb (fun c => fits_int64 (ChecklistItem.category_id c))
          (unsent (checklist_items (tables (site w)))
                  (checklist_items (session w)))
  && forallb (fun ai => bindable_opt (AuditItem.score ai))
             (unsent (audit_items (tables (site w)))
                     (audit_items (session w))).

Arguments bindable : simpl never.

(** The session sends its unsent rows to the database.  This happens inside
    [commit], and before the session reads from the database while it holds
    unsent rows (autoflush). *)
Definition flush : M unit :=
  fun w => if bindable w then (Return tt, w) else (Raise OverflowError, w).

(** [db.session.commit()]: the unsent rows are sent, then the transaction is
    committed. *)
Definition commit : M unit :=
  fun w => if bindable w
           then (Return tt,
                 {| site := {| tables := session w;
                               uploads := uploads (site w);
                               flashes := flashes (site w) |};
                    session := session w |})
           else (Raise OverflowError, w).

(** [flash(msg)]. *)
Definition flash (msg : string) : M unit :=
  fun w => (Return tt,
            {| site := {| tables := tables (site w);
                          uploads := uploads (site w);
                          flashes := (flashes (site w) ++ [msg])%list |};
               session := session w |}).

(** ** The upload folder *)

Fixpoint file_put (path data : string) (fs : list (string * string))
  : list (string * string) :=
  match fs with
  | [] => [(path, data)]
  | (p, d) :: r => if String.eqb p path then (path, data) :: r
                   else (p, d) :: file_put path data r
  end.

Definition file_exists (path : string) (fs : list (string * string)) : bool :=
  existsb (fun pd => String.eqb (fst pd) path) fs.

Definition file_delete (path : string) (fs : list (string * string))
  : list (string * string) :=
  filter (fun pd => negb (String.eqb (fst pd) path)) fs.

Definition set_uploads (fs : list (string * string)) (w : World) : World :=
  {| site := {| tables := tables (site w); uploads := fs;
                flashes := flashes (site w) |};
     session := session w |}.

(** ** The request *)

Fixpoint lookup {V} (k : string) (l : list (string * V)) : option V :=
  match l with
  | [] => None
  | (k', v) :: r => if String.eqb k' k then Some v else lookup k r
  end.

(** [k in request.form]. *)
Definition form_has (rq : Request) (k : string) : bool :=
  match lookup k (form rq) with Some _ => true | None => false end.

(** [request.form[k]]. *)
Definition form_item (rq : Request) (k : string) : M string :=
  of_option BadRequestKeyError (lookup k (form rq)).

(** [request.form.get(k)]. *)
Definition form_get (rq : Request) (k : string) : option string :=
  lookup k (form rq).

(** [int(s)]. *)
Definition py_int (s : string) : M Z := of_option ValueError (Py.int s).

(** ** Responses *)

Module AuditRow.
Record t := { No : Z; Category : string; Checking_Item : string;
                Score : option Z; Record_ : string; Vendor : string;
                Audit_Date : date; Audit_Area : string }.
End AuditRow.

Module MilRow.
Record t := { No : Z; Checking_item : string; Category : string;
                Record_ : string; Status : string; Action : string;
                Vendor_DRI : string; Due_Date : string; Closed_date : string;
                Remark : string }.
End MilRow.

(** One [{'sum': .., 'count': ..}] of [category_scores]. *)
Record tally := { sum : Z; count : Z }.

(** One [<li>] of the audits page: the audit, the percentage of each
    category in the order of the dictionary, and the total.  The page prints
    the percentages with one decimal. *)
Record audit_entry := {
  entry_audit : Audit.t;
  entry_categories : list (string * Q);
  entry_total : Q }.

Inductive page :=
| HomePage
| ChecklistPage (cats : list Category.t) (items : list ChecklistItem.t)
| AuditsPage (entries : list audit_entry)
| NewAuditPage (items : list (ChecklistItem.t * string)).

Inductive response :=
| Html (messages : list string) (p : page)          (* a rendered page *)
| Redirect (location : string)
| SendAuditFile (path : string) (rows : list AuditRow.t)  (* send_file *)
| SendMilFile (path : string) (rows : list MilRow.t)
| Status (code : Z).                                (* an error response *)

(** The response Flask gives for an exception that leaves a handler. *)
Definition status_of (e : exn) : Z :=
  match e with
  | NotFound => 404
  | BadRequestKeyError => 400
  | ValueError | AttributeError | OSError
  | OverflowError | ZeroDivisionError => 500
  end.

Section Handlers.

Variable P : Platform.

(** [photo.save(os.path.join(UPLOAD_FOLDER, path))]. *)
Definition photo_save (path : string) (photo : FileStorage) : M unit :=
  fun w => if save_denied P path then (Raise OSError, w)
           else (Return tt,
                 set_uploads (file_put path (content photo) (uploads (site w))) w).

(** [os.remove(os.path.join(UPLOAD_FOLDER, path))]. *)
Definition os_remove (path : string) : M unit :=
  fun w => if file_exists path (uploads (site w)) && negb (remove_denied P path)
           then (Return tt, set_uploads (file_delete path (uploads (site w))) w)
           else (Raise OSError, w).


(** ** Queries *)

(** Stable insertion sort: the rows of a query with [ORDER BY]. *)
Fixpoint insert_by {A} (le : A -> A -> bool) (x : A) (l : list A) : list A :=
  match l with
  | [] => [x]
  | y :: r => if le x y then x :: y :: r else y :: insert_by le x r
  end.

Definition order_by {A} (le : A -> A -> bool) (l : list A) : list A :=
  fold_right (insert_by le) [] l.

(** The key SQLite gives to a new row. *)
Definition next_id (ids : list Z) : Z := 1 + fold_right Z.max 0 ids.

(** [Category.query.filter_by(name=name).first()]. *)
Definition category_by_name (n : string) (d : DB) : option Category.t :=
  find (fun c => String.eqb (Category.name c) n) (categories d).

(** [Category.query.order_by(Category.name).all()]. *)
Definition categories_by_name (d : DB) : list Category.t :=
  order_by (fun a b => String.leb (Category.name a) (Category.name b))
           (categories d).

(** [ChecklistItem.query.order_by(ChecklistItem.id).all()]. *)
Definition checklist_items_by_id (d : DB) : list ChecklistItem.t :=
  order_by (fun a b => ChecklistItem.id a <=? ChecklistItem.id b)
           (checklist_items d).

(** The checklist item of key [i], the category of key [i]. *)
Definition get_checklist_item (i : Z) (d : DB) : option ChecklistItem.t :=
  find (fun c => ChecklistItem.id c =? i) (checklist_items d).

Definition get_category (i : Z) (d : DB) : option Category.t :=
  find (fun c => Category.id c =? i) (categories d).

(** The audit of key [i]. *)
Definition get_audit (i : Z) (d : DB) : option Audit.t :=
  find (fun a => Audit.id a =? i) (audits d).

(** [Audit.query.order_by(Audit.audit_date.desc()).all()]. *)
Definition audits_by_date_desc (d : DB) : list Audit.t :=
  order_by (fun a b => date_leb (Audit.audit_date b) (Audit.audit_date a))
           (audits d).

(** [a.audit_items], the rows of the relationship. *)
Definition audit_items_of (a : Z) (d : DB) : list AuditItem.t :=
  filter (fun ai => AuditItem.audit_id ai =? a) (audit_items d).

(** The SQL comparison that [AuditItem.score != 3] stands for.  SQLAlchemy
    turns the Python expression into the SQL text [audit_item.score != ?];
    on a [NULL] score SQL evaluates it to unknown ([None] here), and a
    [WHERE] clause keeps the rows on which its condition is true. *)
Definition sql_ne (x : option Z) (v : Z) : option bool :=
  match x with
  | None => None
  | Some s => Some (negb (s =? v))
  end.

Definition sql_where (c : option bool) : bool :=
  match c with Some true => true | _ => false end.

(** [AuditItem.query.filter(AuditItem.score!=3).order_by(AuditItem.id).all()]. *)
Definition mil_query (d : DB) : list AuditItem.t :=
  order_by (fun a b => AuditItem.id a <=? AuditItem.id b)
    (filter (fun ai => sql_where (sql_ne (AuditItem.score ai) 3))
            (audit_items d)).

(** Attribute access through a relationship: [ai.checklist_item.text] and
    the like raise [AttributeError] when the referenced row is missing. *)
Definition attr {A B} (o : option A) (f : A -> B) : M B :=
  match o with
  | Some a => ret (f a)
  | None => raise AttributeError
  end.

(** [ai.checklist_item.category.name]. *)
Definition category_name_of (ai : AuditItem.t) : M string :=
  ci <- query (get_checklist_item (AuditItem.checklist_item_id ai)) ;;
  cat_id <- attr ci ChecklistItem.category_id ;;
  cat <- query (get_category cat_id) ;;
  attr cat Category.name.

(** [ai.checklist_item.text]. *)
Definition item_text_of (ai : AuditItem.t) : M string :=
  ci <- query (get_checklist_item (AuditItem.checklist_item_id ai)) ;;
  attr ci ChecklistItem.text.

(** [i.category.name] for a checklist item. *)
Definition item_category_name (i : ChecklistItem.t) : M string :=
  cat <- query (get_category (ChecklistItem.category_id i)) ;;
  attr cat Category.name.

(** ** Updates of the session *)

(** [db.session.add(Category(name=name))]. *)
Definition add_category (n : string) : M unit :=
  session_update (fun d =>
    {| categories :=
         (categories d ++
          [ {| Category.id := next_id (map Category.id (categories d));
               Category.name := n |} ])%list;
       checklist_items := checklist_items d;
       audits := audits d;
       audit_items := audit_items d |}).

(** [db.session.add(ChecklistItem(category_id=.., text=.., original_spec=..))]. *)
Definition add_checklist_item (c : Z) (t : string) (o : option string) : M unit :=
  session_update (fun d =>
    {| categories := categories d;
       checklist_items :=
         (checklist_items d ++
          [ {| ChecklistItem.id :=
                 next_id (map ChecklistItem.id (checklist_items d));
               ChecklistItem.category_id := c;
               ChecklistItem.text := t;
               ChecklistItem.original_spec := o |} ])%list;
       audits := audits d;
       audit_items := audit_items d |}).

(** [item.text = t; item.original_spec = o] on the row of key [i]. *)
Definition set_item_fields (i : Z) (t : string) (o : option string)
  (c : ChecklistItem.t) : ChecklistItem.t :=
  if ChecklistItem.id c =? i
  then {| ChecklistItem.id := ChecklistItem.id c;
          ChecklistItem.category_id := ChecklistItem.category_id c;
          ChecklistItem.text := t;
          ChecklistItem.original_spec := o |}
  else c.

Definition update_checklist_item (i : Z) (t : string) (o : option string)
  : M unit :=
  session_update (fun d =>
    {| categories := categories d;
       checklist_items := map (set_item_fields i t o) (checklist_items d);
       audits := audits d;
       audit_items := audit_items d |}).

(** [db.session.add(audit)] for a new [Audit]; the result is [audit.id]. *)
Definition add_audit (v : string) (dt : date) (area : string) : M Z :=
  i <- query (fun d => next_id (map Audit.id (audits d))) ;;
  session_update (fun d =>
    {| categories := categories d;
       checklist_items := checklist_items d;
       audits :=
         (audits d ++
          [ {| Audit.id := i; Audit.vendor := v; Audit.audit_date := dt;
               Audit.audit_area := area; Audit.created_at := utcnow P |} ])%list;
       audit_items := audit_items d |}) ;;
  ret i.

(** [db.session.add(AuditItem(..))]. *)
Definition add_audit_item (a c : Z) (sc : option Z) (rec : option string)
  (photo : option string) : M unit :=
  session_update (fun d =>
    {| categories := categories d;
       checklist_items := checklist_items d;
       audits := audits d;
       audit_items :=
         (audit_items d ++
          [ {| AuditItem.id := next_id (map AuditItem.id (audit_items d));
               AuditItem.audit_id := a;
               AuditItem.checklist_item_id := c;
               AuditItem.score := sc;
               AuditItem.record := rec;
               AuditItem.photo_filename := photo |} ])%list |}).

(** [db.session.delete(ai)]. *)
Definition delete_audit_item (ai : AuditItem.t) : M unit :=
  session_update (fun d =>
    {| categories := categories d;
       checklist_items := checklist_items d;
       audits := audits d;
       audit_items :=
         filter (fun x => negb (AuditItem.id x =? AuditItem.id ai))
                (audit_items d) |}).

(** [db.session.delete(audit)]. *)
Definition delete_audit_row (a : Audit.t) : M unit :=
  session_update (fun d =>
    {| categories := categories d;
       checklist_items := checklist_items d;
       audits := filter (fun x => negb (Audit.id x =? Audit.id a)) (audits d);
       audit_items := audit_items d |}).

(** ** [secure_filename] of werkzeug *)

(** [werkzeug.utils.secure_filename] is library code; it is embedded here
    step by step as the library defines it: the name is normalised to NFKD
    and restricted to ASCII; each path separator of the platform is replaced
    by a space; the name is split at whitespace and joined with underscores;
    the characters outside [A-Za-z0-9_.-] are removed; dots and underscores
    are stripped from both ends; on Windows a name whose part before the
    first dot is a device name gets an underscore in front. *)

(** The characters kept by the pattern [[^A-Za-z0-9_.-]] of
    [_filename_ascii_strip_re]. *)
Definition filename_char (c : ascii) : bool :=
  Py.isupper c || Py.islower c || Py.isdigit c
  || Ascii.eqb c "_" || Ascii.eqb c "." || Ascii.eqb c "-".

Definition dot_or_underscore (c : ascii) : bool :=
  Ascii.eqb c "." || Ascii.eqb c "_".

(** [_windows_device_files]. *)
Definition windows_device_files : list string :=
  ["CON"; "PRN"; "AUX"; "NUL";
   "COM0"; "COM1"; "COM2"; "COM3"; "COM4";
   "COM5"; "COM6"; "COM7"; "COM8"; "COM9";
   "LPT0"; "LPT1"; "LPT2"; "LPT3"; "LPT4";
   "LPT5"; "LPT6"; "LPT7"; "LPT8"; "LPT9"].

(** [os.sep] and [os.path.altsep]. *)
Definition os_seps (o : os_kind) : list ascii :=
  match o with
  | posix => ["/"%char]
  | nt => ["\"%char; "/"%char]
  end.

Definition secure_filename (name : string) : string :=
  let name := nfkd_ascii P name in
  let name :=
    fold_left (fun n sep => Py.replace_char sep " "%char n)
              (os_seps (os_name P)) name in
  let name :=
    Py.strip_chars dot_or_underscore
      (Py.str_filter filename_char (Py.join "_" (Py.split name))) in
  match os_name P with
  | nt =>
      if Py.truthy name
         && existsb (String.eqb (Py.upper (Py.first_segment "."%char name)))
                    windows_device_files
      then "_" ++ name
      else name
  | posix => name
  end.

(** [f"{audit.id}_{item.id}_{photo.filename}"]. *)
Definition photo_name (audit_id item_id : Z) (original : string) : string :=
  Py.str_of_int audit_id ++ "_" ++ Py.str_of_int item_id ++ "_" ++ original.

(** The name under which a photo is stored. *)
Definition stored_photo_name (audit_id item_id : Z) (original : string)
  : string :=
  secure_filename (photo_name audit_id item_id original).

(** One request: the session starts from the committed tables and what it
    did not commit is dropped at the end. *)
Definition serve (h : M response) (s : Site) : response * Site :=
  match h {| site := s; session := tables s |} with
  | (Return r, w) => (r, site w)
  | (Raise e, w) => (Status (status_of e), site w)
  end.

(** [render_template_string(BASE_TEMPLATE, content=..)]: the page shows the
    flashed messages, which [get_flashed_messages()] takes off the list. *)
Definition render (p : page) : M response :=
  fun w => (Return (Html (flashes (site w)) p),
            {| site := {| tables := tables (site w);
                          uploads := uploads (site w);
                          flashes := [] |};
               session := session w |}).

(** ** Home *)

Definition home : M response := render HomePage.

(** ** Checklist *)

(** [x or ''] for an optional string. *)
Definition or_empty (o : option string) : string :=
  match o with Some s => s | None => "" end.

Definition checklist_page : M response :=
  cats <- query categories_by_name ;;
  items <- query checklist_items_by_id ;;
  render (ChecklistPage cats items).

Definition checklist (rq : Request) : M response :=
  match method rq with
  | POST =>
      if form_has rq "category_name" then
        raw <- form_item rq "category_name" ;;
        let name := Py.strip raw in
        existing <- query (category_by_name name) ;;
        (if Py.truthy name
            && match existing with None => true | Some _ => false end
         then add_category name ;; commit ;; flash "Category added"
         else flash "Category exists or empty") ;;
        ret (Redirect "/checklist")
      else if form_has rq "item_id" then
        raw <- form_item rq "item_id" ;;
        i <- py_int raw ;;
        item <- query_get get_checklist_item i ;;
        t <- form_item rq "item_text" ;;
        match item with
        | None => raise AttributeError
        | Some it =>
            update_checklist_item (ChecklistItem.id it) t
              (Some (match form_get rq "original_spec" with
                     | Some o => o
                     | None => ""
                     end)) ;;
            commit ;;
            flash "Checklist item updated" ;;
            ret (Redirect "/checklist")
        end
      else if form_has rq "item_text" then
        raw <- form_item rq "category_id" ;;
        category_id <- py_int raw ;;
        raw_text <- form_item rq "item_text" ;;
        let text := Py.strip raw_text in
        let original_spec :=
          Py.strip (match form_get rq "original_spec" with
                    | Some o => o
                    | None => ""
                    end) in
        (if Py.truthy text
         then add_checklist_item category_id text (Some original_spec) ;;
              commit ;; flash "Checklist item added"
         else ret tt) ;;
        ret (Redirect "/checklist")
      else checklist_page
  | GET => checklist_page
  end.

(** ** Audits list *)

(** The dictionary [category_scores], in insertion order. *)
Definition dict_has (k : string) (d : list (string * tally)) : bool :=
  existsb (fun kv => String.eqb (fst kv) k) d.

(** [d[k] = v] for a key that is not in [d]. *)
Definition dict_add (k : string) (v : tally) (d : list (string * tally))
  : list (string * tally) := (d ++ [(k, v)])%list.

(** [d[k][..] += ..]: the entry of [k] is changed in place. *)
Definition dict_modify (k : string) (f : tally -> tally)
  (d : list (string * tally)) : list (string * tally) :=
  map (fun kv => if String.eqb (fst kv) k then (fst kv, f (snd kv)) else kv) d.

(** The local variables of the loop over [a.audit_items]. *)
Record locals := {
  category_scores : list (string * tally);
  total_score : Z;
  total_items : Z }.

(** The body of the loop, once [cat] is known. *)
Definition tally_item (cat : string) (score : option Z) (st : locals) : locals :=
  let cs := category_scores st in
  let cs := if dict_has cat cs then cs
            else dict_add cat {| sum := 0; count := 0 |} cs in
  let cs := match score with
            | Some s =>
                dict_modify cat
                  (fun t => {| sum := sum t + s; count := count t |}) cs
            | None => cs
            end in
  let cs := dict_modify cat
              (fun t => {| sum := sum t; count := count t + 1 |}) cs in
  {| category_scores := cs;
     total_score := match score with
                    | Some s => total_score st + s
                    | None => total_score st
                    end;
     total_items := total_items st + 1 |}.

(** [a / b] on two integers: the quotient, [ZeroDivisionError] when [b]
    is 0. *)
Definition true_div (a b : Z) : M Q :=
  if b =? 0 then raise ZeroDivisionError
  else ret (inject_Z a / inject_Z b)%Q.

(** [(s / (n*3) * 100) if n else 0]. *)
Definition percentage (s n : Z) : M Q :=
  if negb (n =? 0)
  then q <- true_div s (n * 3) ;; ret (q * inject_Z 100)%Q
  else ret 0%Q.

Definition audit_entry_of (a : Audit.t) : M audit_entry :=
  items <- query (audit_items_of (Audit.id a)) ;;
  st <- for_fold items
          {| category_scores := []; total_score := 0; total_items := 0 |}
          (fun st ai =>
             cat <- category_name_of ai ;;
             ret (tally_item cat (AuditItem.score ai) st)) ;;
  cats <- for_map (category_scores st)
            (fun kv =>
               pct <- percentage (sum (snd kv)) (count (snd kv)) ;;
               ret (fst kv, pct)) ;;
  total_pct <- percentage (total_score st) (total_items st) ;;
  ret {| entry_audit := a;
         entry_categories := cats;
         entry_total := total_pct |}.

Definition audits_list : M response :=
  audits <- query audits_by_date_desc ;;
  entries <- for_map audits audit_entry_of ;;
  render (AuditsPage entries).

(** ** New audit *)

(** The body of the loop over the checklist items, once [item] is loaded. *)
Definition store_item (rq : Request) (audit_id : Z) (item : ChecklistItem.t)
  : M unit :=
  let key := Py.str_of_int (ChecklistItem.id item) in
  let score := form_get rq ("score_" ++ key) in
  let record := form_get rq ("record_" ++ key) in
  let photo := lookup ("photo_" ++ key) (files rq) in
  stored <-
    match photo with
    | Some ph =>
        if Py.truthy (filename ph) then
          let name :=
            stored_photo_name audit_id (ChecklistItem.id item) (filename ph) in
          photo_save name ph ;; ret (Some name)
        else ret None
    | None => ret None
    end ;;
  sc <-
    match score with
    | Some s => if Py.truthy s then (n <- py_int s ;; ret (Some n))
                else ret None
    | None => ret None
    end ;;
  add_audit_item audit_id (ChecklistItem.id item) sc record stored.

(** The body of the loop.  The commit before the loop has expired the
    checklist items; the first read of [item.id] loads [item] again, and the
    session flushes before it reads from the database. *)
Definition record_item (rq : Request) (audit_id : Z) (item : ChecklistItem.t)
  : M unit :=
  flush ;; store_item rq audit_id item.

Definition new_audit (rq : Request) : M response :=
  _ <- query categories_by_name ;;
  items <- query checklist_items_by_id ;;
  match method rq with
  | POST =>
      vendor <- form_item rq "vendor" ;;
      raw_date <- form_item rq "audit_date" ;;
      audit_date <- of_option ValueError (fromisoformat P raw_date) ;;
      audit_area <- form_item rq "audit_area" ;;
      audit_id <- add_audit vendor audit_date audit_area ;;
      commit ;;
      for_each items (record_item rq audit_id) ;;
      commit ;;
      flash "Audit created successfully!" ;;
      ret (Redirect "/audits")
  | GET =>
      rows <- for_map items
                (fun i => c <- item_category_name i ;; ret (i, c)) ;;
      render (NewAuditPage rows)
  end.

(** ** Delete audit *)

(** [Audit.query.get_or_404(audit_id)]. *)
Definition get_or_404 (audit_id : Z) : M Audit.t :=
  a <- query_get get_audit audit_id ;;
  of_option NotFound a.

Definition delete_audit (audit_id : Z) : M response :=
  audit <- get_or_404 audit_id ;;
  items <- query (audit_items_of (Audit.id audit)) ;;
  for_each items
    (fun ai =>
       (if Py.truthy (or_empty (AuditItem.photo_filename ai))
        then try_pass (os_remove (or_empty (AuditItem.photo_filename ai)))
        else ret tt) ;;
       delete_audit_item ai) ;;
  delete_audit_row audit ;;
  commit ;;
  flash "Audit deleted successfully." ;;
  ret (Redirect "/audits").

(** ** Exports *)

(** [enumerate(l, start)]. *)
Fixpoint enumerate {A} (start : Z) (l : list A) : list (Z * A) :=
  match l with
  | [] => []
  | x :: r => (start, x) :: enumerate (start + 1) r
  end.

Definition export_audit (audit_id : Z) : M response :=
  audit <- get_or_404 audit_id ;;
  items <- query (audit_items_of (Audit.id audit)) ;;
  rows <- for_map (enumerate 1 items)
            (fun p =>
               let (idx, ai) := p in
               cat <- category_name_of ai ;;
               txt <- item_text_of ai ;;
               ret {| AuditRow.No := idx;
                      AuditRow.Category := cat;
                      AuditRow.Checking_Item := txt;
                      AuditRow.Score := AuditItem.score ai;
                      AuditRow.Record_ := or_empty (AuditItem.record ai);
                      AuditRow.Vendor := Audit.vendor audit;
                      AuditRow.Audit_Date := Audit.audit_date audit;
                      AuditRow.Audit_Area := Audit.audit_area audit |}) ;;
  ret (SendAuditFile
         ("audit_" ++ Py.str_of_int (Audit.id audit) ++ "_" ++ utcnow P
          ++ ".xlsx")
         rows).

(** ['Open' if ai.score is None or ai.score<3 else 'Closed']. *)
Definition mil_status (score : option Z) : string :=
  match score with
  | None => "Open"
  | Some s => if s <? 3 then "Open" else "Closed"
  end.

Definition mil_row (idx : Z) (ai : AuditItem.t) : M MilRow.t :=
  txt <- item_text_of ai ;;
  cat <- category_name_of ai ;;
  a <- query (get_audit (AuditItem.audit_id ai)) ;;
  vendor <- attr a Audit.vendor ;;
  ret {| MilRow.No := idx;
         MilRow.Checking_item := txt;
         MilRow.Category := cat;
         MilRow.Record_ := or_empty (AuditItem.record ai);
         MilRow.Status := mil_status (AuditItem.score ai);
         MilRow.Action := "";
         MilRow.Vendor_DRI := vendor;
         MilRow.Due_Date := "";
         MilRow.Closed_date := "";
         MilRow.Remark := "" |}.

Definition export_mil : M response :=
  q <- query mil_query ;;
  rows <- for_map (enumerate 1 q) (fun p => mil_row (fst p) (snd p)) ;;
  match rows with
  | [] => flash "No MIL items." ;; ret (Redirect "/")
  | _ :: _ =>
      ret (SendMilFile ("mil_export_" ++ utcnow P ++ ".xlsx") rows)
  end.

End Handlers.

(* ================================================================== *)
(** * A concrete platform and sample data *)
(* ================================================================== *)

(** A POSIX platform whose file system refuses nothing, whose date parser
    reads [YYYY-MM-DD], and whose normalisation drops the characters outside
    ASCII.  It is used to run the handlers on examples. *)
Definition digit_val (c : ascii) : option Z :=
  if Py.isdigit c then Some (Py.ord c - 48) else None.

Fixpoint number_of (s : string) (acc : Z) : option Z :=
  match s with
  | EmptyString => Some acc
  | String c r =>
      match digit_val c with
      | Some v => number_of r (10 * acc + v)
      | None => None
      end
  end.

Definition sample_fromisoformat (s : string) : option date :=
  if (String.length s =? 10)%nat
     && String.eqb (substring 4 1 s) "-" && String.eqb (substring 7 1 s) "-"
  then
    match number_of (substring 0 4 s) 0, number_of (substring 5 2 s) 0,
          number_of (substring 8 2 s) 0 with
    | Some y, Some m, Some d =>
        if (1 <=? m) && (m <=? 12) && (1 <=? d) && (d <=? 31)
        then Some {| year := y; month := m; day := d |}
        else None
    | _, _, _ => None
    end
  else None.

Definition sample_platform : Platform :=
  {| fromisoformat := sample_fromisoformat;
     nfkd_ascii := Py.str_filter Py.is_ascii;
     os_name := posix;
     save_denied := fun _ => false;
     remove_denied := fun _ => false;
     utcnow := "20240102030405" |}.

Definition windows_platform : Platform :=
  {| fromisoformat := sample_fromisoformat;
     nfkd_ascii := Py.str_filter Py.is_ascii;
     os_name := nt;
     save_denied := fun _ => false;
     remove_denied := fun _ => false;
     utcnow := "20240102030405" |}.

Definition empty_db : DB :=
  {| categories := []; checklist_items := []; audits := []; audit_items := [] |}.

Definition site_of (d : DB) : Site :=
  {| tables := d; uploads := []; flashes := [] |}.

(** One category with two checklist items. *)
Definition safety_db : DB :=
  {| categories := [ {| Category.id := 1; Category.name := "Safety" |} ];
     checklist_items :=
       [ {| ChecklistItem.id := 1; ChecklistItem.category_id := 1;
            ChecklistItem.text := "Exits are clear";
            ChecklistItem.original_spec := Some "" |};
         {| ChecklistItem.id := 2; ChecklistItem.category_id := 1;
            ChecklistItem.text := "Extinguishers checked";
            ChecklistItem.original_spec := Some "" |} ];
     audits := [];
     audit_items := [] |}.

Definition sample_audit : Audit.t :=
  {| Audit.id := 1; Audit.vendor := "Acme";
     Audit.audit_date := {| year := 2024; month := 1; day := 2 |};
     Audit.audit_area := "Line 1"; Audit.created_at := "20240102030405" |}.

Definition sample_item (i c : Z) (sc : option Z) : AuditItem.t :=
  {| AuditItem.id := i; AuditItem.audit_id := 1;
     AuditItem.checklist_item_id := c; AuditItem.score := sc;
     AuditItem.record := Some ""; AuditItem.photo_filename := None |}.

(** [safety_db] with one audit whose items carry the given scores. *)
Definition audited_db (s1 s2 : option Z) : DB :=
  {| categories := categories safety_db;
     checklist_items := checklist_items safety_db;
     audits := [sample_audit];
     audit_items := [sample_item 1 1 s1; sample_item 2 2 s2] |}.

(** The numeral ['0' * n]. *)
Fixpoint zeros (n : nat) : string :=
  match n with
  | O => EmptyString
  | S k => String "0" (zeros k)
  end.

(** [safety_db] audited twice: the audit stored first is the earlier one;
    a message of the last request is still waiting to be shown. *)
Definition later_audit : Audit.t :=
  {| Audit.id := 2; Audit.vendor := "Bolt";
     Audit.audit_date := {| year := 2024; month := 5; day := 6 |};
     Audit.audit_area := "Line 2"; Audit.created_at := "20240506070809" |}.

Definition later_item (i c : Z) (sc : option Z) : AuditItem.t :=
  {| AuditItem.id := i; AuditItem.audit_id := 2;
     AuditItem.checklist_item_id := c; AuditItem.score := sc;
     AuditItem.record := Some "seen"; AuditItem.photo_filename := None |}.

Definition dated_db : DB :=
  {| categories := categories safety_db;
     checklist_items := checklist_items safety_db;
     audits := [sample_audit; later_audit];
     audit_items := [sample_item 1 1 (Some 2); sample_item 2 2 (Some 3);
                     later_item 3 1 (Some 3); later_item 4 2 None] |}.

Definition dated_site : Site :=
  {| tables := dated_db; uploads := [];
     flashes := ["Audit created successfully!"] |}.

(** The MIL row of an item of [audited_db]. *)
Definition mil_sample_row (no : Z) (text status : string) : MilRow.t :=
  {| MilRow.No := no;
     MilRow.Checking_item := text;
     MilRow.Category := "Safety";
     MilRow.Record_ := "";
     MilRow.Status := status;
     MilRow.Action := "";
     MilRow.Vendor_DRI := "Acme";
     MilRow.Due_Date := "";
     MilRow.Closed_date := "";
     MilRow.Remark := "" |}.

Definition post (fields : list (string * string)) : Request :=
  {| method := POST; form := fields; files := [] |}.

(** Adding the category [Quality], with blanks around the name. *)
Definition quality_request : Request := post [("category_name", " Quality ")].

(** Emptying the text of checklist item 2. *)
Definition empty_text_request : Request :=
  post [("item_id", "2"); ("item_text", "")].

(** Editing checklist item 99, which does not exist in [safety_db]. *)
Definition unknown_item_request : Request :=
  post [("item_id", "99"); ("item_text", "New text")].

(** An audit whose score for item 1 is not a number. *)
Definition bad_score_request : Request :=
  post [("vendor", "Acme"); ("audit_date", "2024-05-06");
        ("audit_area", "Line 1"); ("score_1", "abc")].

(** One category with three items, audited once with the scores 3, 0 and
    none; and the same tables with a second audit that has no item. *)
Definition three_item_db : DB :=
  {| categories := [ {| Category.id := 1; Category.name := "Safety" |} ];
     checklist_items :=
       [ {| ChecklistItem.id := 1; ChecklistItem.category_id := 1;
            ChecklistItem.text := "Exits are clear";
            ChecklistItem.original_spec := Some "" |};
         {| ChecklistItem.id := 2; ChecklistItem.category_id := 1;
            ChecklistItem.text := "Extinguishers checked";
            ChecklistItem.original_spec := Some "" |};
         {| ChecklistItem.id := 3; ChecklistItem.category_id := 1;
            ChecklistItem.text := "Floor is dry";
            ChecklistItem.original_spec := None |} ];
     audits := [sample_audit];
     audit_items := [sample_item 1 1 (Some 3); sample_item 2 2 (Some 0);
                     sample_item 3 3 None] |}.

Definition empty_audit_db : DB :=
  {| categories := [ {| Category.id := 1; Category.name := "Safety" |} ];
     checklist_items := [];
     audits := [sample_audit];
     audit_items := [] |}.

(** An audit that scores item 1 and leaves item 2 without a score. *)
Definition partial_score_request : Request :=
  post [("vendor", "Acme"); ("audit_date", "2024-05-06");
        ("audit_area", "Line 1"); ("score_1", "2"); ("record_1", "ok");
        ("score_2", "")].

(* ================================================================== *)
(** * Vocabulary of the statements *)
(* ================================================================== *)

(** ** Computations and sites *)

(** A computation that leaves the state as it found it. *)
Definition pure_in {A} (c : M A) : Prop := forall w, snd (c w) = w.

(** The site with one more flashed message, with other tables, and the
    tables with one table replaced. *)
Definition with_flash (msg : string) (s : Site) : Site :=
  {| tables := tables s; uploads := uploads s;
     flashes := (flashes s ++ [msg])%list |}.

Definition with_tables (d : DB) (s : Site) : Site :=
  {| tables := d; uploads := uploads s; flashes := flashes s |}.

Definition with_categories (cs : list Category.t) (d : DB) : DB :=
  {| categories := cs; checklist_items := checklist_items d;
     audits := audits d; audit_items := audit_items d |}.

Definition with_checklist_items (l : list ChecklistItem.t) (d : DB) : DB :=
  {| categories := categories d; checklist_items := l;
     audits := audits d; audit_items := audit_items d |}.

(** ** Categories *)

(** The site once a page has shown the flashed messages. *)
Definition shown (s : Site) : Site :=
  {| tables := tables s; uploads := uploads s; flashes := [] |}.

(** The number of categories that carry a given name. *)
Definition named (n : string) (cs : list Category.t) : nat :=
  length (filter (fun c => String.eqb (Category.name c) n) cs).

Definition with_audit_items (l : list AuditItem.t) (d : DB) : DB :=
  {| categories := categories d; checklist_items := checklist_items d;
     audits := audits d; audit_items := l |}.

Definition with_audits (l : list Audit.t) (d : DB) : DB :=
  {| categories := categories d; checklist_items := checklist_items d;
     audits := l; audit_items := audit_items d |}.

(** ** Deleting an audit *)

(** A row of [l] has the key of [x]. *)
Definition key_in (l : list AuditItem.t) (x : AuditItem.t) : bool :=
  existsb (fun y => AuditItem.id x =? AuditItem.id y) l.

(** The site after a successful [delete_audit]. *)
Definition after_delete (i : Z) (fs : list (string * string)) (s : Site) : Site :=
  {| tables :=
       {| categories := categories (tables s);
          checklist_items := checklist_items (tables s);
          audits := filter (fun x => negb (Audit.id x =? i)) (audits (tables s));
          audit_items :=
            filter (fun x => negb (key_in (audit_items_of i (tables s)) x))
                   (audit_items (tables s)) |};
     uploads := fs;
     flashes := (flashes s ++ ["Audit deleted successfully."])%list |}.

(** ** Creating an audit *)

(** The text of a checklist item's key in the names of the form fields. *)
Definition item_key (item : ChecklistItem.t) : string :=
  Py.str_of_int (ChecklistItem.id item).

(** The score, the photo name and the whole row that [record_item] stores
    for a checklist item. *)
Definition submitted_score (rq : Request) (item : ChecklistItem.t) : option Z :=
  match form_get rq ("score_" ++ item_key item) with
  | Some s => if Py.truthy s then Py.int s else None
  | None => None
  end.

Definition submitted_photo (P : Platform) (rq : Request) (audit_id : Z)
  (item : ChecklistItem.t) : option string :=
  match lookup ("photo_" ++ item_key item) (files rq) with
  | Some ph =>
      if Py.truthy (filename ph)
      then Some (stored_photo_name P audit_id (ChecklistItem.id item)
                                   (filename ph))
      else None
  | None => None
  end.

(** The submitted score of the item, when there is one, is a number. *)
Definition score_parses (rq : Request) (item : ChecklistItem.t) : bool :=
  match form_get rq ("score_" ++ item_key item) with
  | Some s => if Py.truthy s
              then match Py.int s with Some _ => true | None => false end
              else true
  | None => true
  end.

(** The file system accepts the photo of the item, when there is one. *)
Definition photo_saves (P : Platform) (rq : Request) (audit_id : Z)
  (item : ChecklistItem.t) : bool :=
  match submitted_photo P rq audit_id item with
  | Some name => negb (save_denied P name)
  | None => true
  end.

(** The submitted score of the item, when there is one, is an integer that
    the database can hold. *)
Definition score_fits (rq : Request) (item : ChecklistItem.t) : bool :=
  bindable_opt (submitted_score rq item).

(** The pass of the loop for the item raises nothing, once the rows before
    it have been sent. *)
Definition item_read (P : Platform) (rq : Request) (audit_id : Z)
  (item : ChecklistItem.t) : bool :=
  score_parses rq item && photo_saves P rq audit_id item.

(** The pass of the loop for the item raises nothing and the database takes
    its row. *)
Definition item_accepted (P : Platform) (rq : Request) (audit_id : Z)
  (item : ChecklistItem.t) : bool :=
  item_read P rq audit_id item && score_fits rq item.

(** The session of [w] holds the committed tables and, after the committed
    audit items, the rows [rows]. *)
Definition holds_unsent (w : World) (rows : list AuditItem.t) : Prop :=
  checklist_items (session w) = checklist_items (tables (site w))
  /\ audit_items (session w) = (audit_items (tables (site w)) ++ rows)%list.

Definition new_row (P : Platform) (rq : Request) (audit_id : Z)
  (item : ChecklistItem.t) (key : Z) : AuditItem.t :=
  {| AuditItem.id := key;
     AuditItem.audit_id := audit_id;
     AuditItem.checklist_item_id := ChecklistItem.id item;
     AuditItem.score := submitted_score rq item;
     AuditItem.record := form_get rq ("record_" ++ item_key item);
     AuditItem.photo_filename := submitted_photo P rq audit_id item |}.

(** The rows that the loop of [new_audit] adds to the rows [existing]. *)
Fixpoint new_rows (P : Platform) (rq : Request) (audit_id : Z)
  (items : list ChecklistItem.t) (existing : list AuditItem.t)
  : list AuditItem.t :=
  match items with
  | [] => []
  | item :: r =>
      let row := new_row P rq audit_id item
                   (next_id (map AuditItem.id existing)) in
      row :: new_rows P rq audit_id r (existing ++ [row])%list
  end.

(** The header row of a new audit. *)
Definition new_audit_row (P : Platform) (d : DB) (vendor : string) (dt : date)
  (area : string) : Audit.t :=
  {| Audit.id := next_id (map Audit.id (audits d));
     Audit.vendor := vendor; Audit.audit_date := dt;
     Audit.audit_area := area; Audit.created_at := utcnow P |}.

(** ** Percentages *)

(** The category name of an audit item, read from the tables; [None] when
    a referenced row is missing. *)
Definition category_name_in (d : DB) (ai : AuditItem.t) : option string :=
  match get_checklist_item (AuditItem.checklist_item_id ai) d with
  | Some ci =>
      match get_category (ChecklistItem.category_id ci) d with
      | Some c => Some (Category.name c)
      | None => None
      end
  | None => None
  end.

(** The value of [(s / (n*3) * 100) if n else 0]. *)
Definition percent (s n : Z) : Q :=
  if n =? 0 then 0%Q
  else (inject_Z s / inject_Z (n * 3) * inject_Z 100)%Q.

(** An unscored item counts for 0. *)
Definition score_or_zero (o : option Z) : Z :=
  match o with Some v => v | None => 0 end.

Definition score_sum (scores : list (option Z)) : Z :=
  fold_right (fun o acc => score_or_zero o + acc) 0 scores.

(** The percentage as the specification words it, over the scores of the
    items concerned: the sum of the scores, unscored counting for 0, divided
    by three times the number of items, times 100; and 0 when there is no
    item. *)
Definition spec_percentage (scores : list (option Z)) : Q :=
  match scores with
  | [] => 0%Q
  | _ :: _ =>
      (inject_Z (score_sum scores)
       / inject_Z (Z.of_nat (length scores) * 3) * inject_Z 100)%Q
  end.

(** The item belongs to the category named [cat]; and the scores of the
    items of [items] that do. *)
Definition in_category (d : DB) (cat : string) (ai : AuditItem.t) : bool :=
  match category_name_in d ai with
  | Some c => String.eqb c cat
  | None => false
  end.

Definition scores_in (d : DB) (cat : string) (items : list AuditItem.t)
  : list (option Z) :=
  map AuditItem.score (filter (in_category d cat) items).

(** The loop over the items of one audit, as a function of the tables. *)
Fixpoint tally_items (d : DB) (items : list AuditItem.t) (st : locals)
  : option locals :=
  match items with
  | [] => Some st
  | ai :: r =>
      match category_name_in d ai with
      | Some c => tally_items d r (tally_item c (AuditItem.score ai) st)
      | None => None
      end
  end.

(** [d.get(k)]. *)
Definition dict_get (k : string) (d : list (string * tally)) : option tally :=
  option_map snd (find (fun kv => String.eqb (fst kv) k) d).

(** The dictionary entry that a category with these scores must have. *)
Definition tally_of (scores : list (option Z)) : option tally :=
  match scores with
  | [] => None
  | _ :: _ => Some {| sum := score_sum scores;
                      count := Z.of_nat (length scores) |}
  end.

(** After the items [done], the dictionary has one entry per category met,
    holding the sum and the number of the scores of that category, and the
    two counters hold the sum and the number of all scores. *)
Definition tally_inv (d : DB) (done : list AuditItem.t) (st : locals) : Prop :=
  NoDup (map fst (category_scores st))
  /\ (forall k, dict_get k (category_scores st) = tally_of (scores_in d k done))
  /\ total_score st = score_sum (map AuditItem.score done)
  /\ total_items st = Z.of_nat (length done).

(** ** Stored photo names *)

(** The characters of a printed integer. *)
Definition int_char (c : ascii) : bool := Py.isdigit c || Ascii.eqb c "-".

(** The characters of the prefix that [photo_name] puts before the original
    file name. *)
Definition prefix_char (c : ascii) : bool := int_char c || Ascii.eqb c "_".

(** [t] is empty or starts with [c]. *)
Definition headed (c : ascii) (t : string) : Prop :=
  t = "" \/ exists r, t = String c r.

(** The platform's normalisation leaves an ASCII character at the head of a
    string where it is. *)
Definition nfkd_keeps_ascii (P : Platform) : Prop :=
  forall c s, Py.is_ascii c = true ->
              nfkd_ascii P (String c s) = String c (nfkd_ascii P s).

(** ** Orders and exports *)

(** The order of [ORDER BY Category.name], of [ORDER BY id] and of
    [ORDER BY audit_date DESC]. *)
Definition name_le (a b : Category.t) : Prop :=
  String.leb (Category.name a) (Category.name b) = true.

Definition item_id_le (a b : ChecklistItem.t) : Prop :=
  ChecklistItem.id a <= ChecklistItem.id b.

Definition audit_item_id_le (a b : AuditItem.t) : Prop :=
  AuditItem.id a <= AuditItem.id b.

Definition date_ge (a b : Audit.t) : Prop :=
  date_leb (Audit.audit_date b) (Audit.audit_date a) = true.

(** A function on every element of a list, failing when it fails on one. *)
Fixpoint map_option {A B} (f : A -> option B) (l : list A) : option (list B) :=
  match l with
  | [] => Some []
  | x :: r =>
      match f x, map_option f r with
      | Some y, Some ys => Some (y :: ys)
      | _, _ => None
      end
  end.

(** The text of the checklist item of an audit item, read from the tables. *)
Definition item_text_in (d : DB) (ai : AuditItem.t) : option string :=
  option_map ChecklistItem.text
    (get_checklist_item (AuditItem.checklist_item_id ai) d).

(** The vendor of the audit of an audit item, read from the tables. *)
Definition vendor_in (d : DB) (ai : AuditItem.t) : option string :=
  option_map Audit.vendor (get_audit (AuditItem.audit_id ai) d).

(** The row of the audit export for the item [ai], numbered [idx]. *)
Definition audit_row_in (d : DB) (a : Audit.t) (p : Z * AuditItem.t)
  : option AuditRow.t :=
  match category_name_in d (snd p), item_text_in d (snd p) with
  | Some cat, Some txt =>
      Some {| AuditRow.No := fst p;
              AuditRow.Category := cat;
              AuditRow.Checking_Item := txt;
              AuditRow.Score := AuditItem.score (snd p);
              AuditRow.Record_ := or_empty (AuditItem.record (snd p));
              AuditRow.Vendor := Audit.vendor a;
              AuditRow.Audit_Date := Audit.audit_date a;
              AuditRow.Audit_Area := Audit.audit_area a |}
  | _, _ => None
  end.

(** The row of the MIL export for the item [ai], numbered [idx]. *)
Definition mil_row_in (d : DB) (p : Z * AuditItem.t) : option MilRow.t :=
  match item_text_in d (snd p), category_name_in d (snd p), vendor_in d (snd p)
  with
  | Some txt, Some cat, Some vendor =>
      Some {| MilRow.No := fst p;
              MilRow.Checking_item := txt;
              MilRow.Category := cat;
              MilRow.Record_ := or_empty (AuditItem.record (snd p));
              MilRow.Status := mil_status (AuditItem.score (snd p));
              MilRow.Action := "";
              MilRow.Vendor_DRI := vendor;
              MilRow.Due_Date := "";
              MilRow.Closed_date := "";
              MilRow.Remark := "" |}
  | _, _, _ => None
  end.

(** Every audit item of the list reaches a checklist item, a category and
    an audit. *)
Definition resolves (d : DB) (items : list AuditItem.t) : Prop :=
  forall ai, In ai items ->
    category_name_in d ai <> None /\ vendor_in d ai <> None.

(** ** The checklist handler as a function of the request and the site *)

Definition checklist_page_outcome (s : Site) : response * Site :=
  (Html (flashes s)
        (ChecklistPage (categories_by_name (tables s))
                       (checklist_items_by_id (tables s))),
   shown s).

Definition category_outcome (raw : string) (s : Site) : response * Site :=
  if Py.truthy (Py.strip raw)
     && match category_by_name (Py.strip raw) (tables s) with
        | None => true
        | Some _ => false
        end
  then (Redirect "/checklist",
        with_flash "Category added"
          (with_tables
             (with_categories
                (categories (tables s) ++
                 [ {| Category.id :=
                        next_id (map Category.id (categories (tables s)));
                      Category.name := Py.strip raw |} ])%list
                (tables s)) s))
  else (Redirect "/checklist", with_flash "Category exists or empty" s).

Definition update_outcome (rq : Request) (raw : string) (s : Site)
  : response * Site :=
  match Py.int raw with
  | None => (Status 500, s)
  | Some i =>
      match get_checklist_item i (tables s) with
      | None =>
          if fits_int64 i
          then match lookup "item_text" (form rq) with
               | None => (Status 400, s)
               | Some _ => (Status 500, s)
               end
          else (Status 500, s)
      | Some it =>
          match lookup "item_text" (form rq) with
          | None => (Status 400, s)
          | Some t =>
              (Redirect "/checklist",
               with_flash "Checklist item updated"
                 (with_tables
                    (with_checklist_items
                       (map (set_item_fields (ChecklistItem.id it) t
                               (Some (or_empty
                                        (lookup "original_spec" (form rq)))))
                            (checklist_items (tables s)))
                       (tables s)) s))
          end
      end
  end.

Definition add_item_outcome (rq : Request) (raw_t : string) (s : Site)
  : response * Site :=
  match lookup "category_id" (form rq) with
  | None => (Status 400, s)
  | Some raw_c =>
      match Py.int raw_c with
      | None => (Status 500, s)
      | Some c =>
          if Py.truthy (Py.strip raw_t)
          then if fits_int64 c
               then (Redirect "/checklist",
                     with_flash "Checklist item added"
                       (with_tables
                          (with_checklist_items
                             (checklist_items (tables s) ++
                              [ {| ChecklistItem.id :=
                                     next_id (map ChecklistItem.id
                                                  (checklist_items (tables s)));
                                   ChecklistItem.category_id := c;
                                   ChecklistItem.text := Py.strip raw_t;
                                   ChecklistItem.original_spec :=
                                     Some (Py.strip
                                             (or_empty
                                                (lookup "original_spec"
                                                        (form rq))))
                                |} ])%list
                             (tables s)) s))
               else (Status 500, s)
          else (Redirect "/checklist", s)
      end
  end.

Definition checklist_outcome (rq : Request) (s : Site) : response * Site :=
  match method rq with
  | GET => checklist_page_outcome s
  | POST =>
      match lookup "category_name" (form rq) with
      | Some raw => category_outcome raw s
      | None =>
          match lookup "item_id" (form rq) with
          | Some raw => update_outcome rq raw s
          | None =>
              match lookup "item_text" (form rq) with
              | Some raw_t => add_item_outcome rq raw_t s
              | None => checklist_page_outcome s
              end
          end
      end
  end.

(** ** Routes and invariants *)

(** The routes of the application: one constructor per [@app.route]. *)
Inductive call :=
| Home
| Checklist (rq : Request)
| AuditsList
| NewAudit (rq : Request)
| DeleteAudit (audit_id : Z)
| ExportAudit (audit_id : Z)
| ExportMil.

Definition handle (P : Platform) (c : call) : M response :=
  match c with
  | Home => home
  | Checklist rq => checklist rq
  | AuditsList => audits_list
  | NewAudit rq => new_audit P rq
  | DeleteAudit i => delete_audit P i
  | ExportAudit i => export_audit P i
  | ExportMil => export_mil P
  end.

(** The site after a sequence of requests, each served on the platform as
    it is at that moment. *)
Fixpoint after_calls (cs : list (Platform * call)) (s : Site) : Site :=
  match cs with
  | [] => s
  | (P, c) :: r => after_calls r (snd (serve (handle P c) s))
  end.

(** The primary keys of each table are pairwise distinct. *)
Definition keys_distinct (d : DB) : Prop :=
  NoDup (map Category.id (categories d))
  /\ NoDup (map ChecklistItem.id (checklist_items d))
  /\ NoDup (map Audit.id (audits d))
  /\ NoDup (map AuditItem.id (audit_items d)).

(** The category names are pairwise distinct, not empty, and without
    whitespace at either end. *)
Definition names_clean (d : DB) : Prop :=
  NoDup (map Category.name (categories d))
  /\ forall c, In c (categories d) ->
       Category.name c <> "" /\ Py.strip (Category.name c) = Category.name c.

(** Every audit item references a stored audit and a stored checklist
    item. *)
Definition refs_stored (d : DB) : Prop :=
  forall ai, In ai (audit_items d) ->
    get_audit (AuditItem.audit_id ai) d <> None
    /\ get_checklist_item (AuditItem.checklist_item_id ai) d <> None.

Definition db_inv (d : DB) : Prop :=
  keys_distinct d /\ names_clean d /\ refs_stored d.

(** An audit that scores item 1 with 7 and attaches a photo to item 2. *)
Definition photo_request : Request :=
  {| method := POST;
     form := [("vendor", "Acme"); ("audit_date", "2024-05-06");
              ("audit_area", "Line 1"); ("score_1", "7")];
     files := [("photo_2", {| filename := "my photo.jpg"; content := "JPEG" |})]
  |}.

(** A score is absent or one of 0, 1, 2, 3. *)
Definition score_in_range (o : option Z) : Prop :=
  match o with Some v => 0 <= v <= 3 | None => True end.

(** ** The form of a new audit *)

(** The entry of the new-audit form for the checklist item [i]: the item and
    the name of its category, [i.category.name]. *)
Definition form_row_in (d : DB) (i : ChecklistItem.t)
  : option (ChecklistItem.t * string) :=
  option_map (fun c => (i, Category.name c))
             (get_category (ChecklistItem.category_id i) d).

(** ** Photos *)

(** A site with a stored audit whose second item has a photo, and with a
    file in the upload folder that belongs to no audit. *)
Definition photo_site : Site :=
  {| tables :=
       {| categories := categories safety_db;
          checklist_items := checklist_items safety_db;
          audits := [sample_audit];
          audit_items :=
            [sample_item 1 1 (Some 7);
             {| AuditItem.id := 2; AuditItem.audit_id := 1;
                AuditItem.checklist_item_id := 2; AuditItem.score := None;
                AuditItem.record := None;
                AuditItem.photo_filename := Some "1_2_my_photo.jpg" |}] |};
     uploads := [("logo.png", "PNG"); ("1_2_my_photo.jpg", "JPEG")];
     flashes := [] |}.

(** The photo name of an audit item, when it has one, starts with the
    identifiers of its audit and of its checklist item. *)
Definition photo_tagged (ai : AuditItem.t) : Prop :=
  forall f, AuditItem.photo_filename ai = Some f ->
    exists t,
      f = Py.str_of_int (AuditItem.audit_id ai) ++ "_"
          ++ Py.str_of_int (AuditItem.checklist_item_id ai) ++ t
      /\ headed "_" t.

Definition photos_tagged (d : DB) : Prop :=
  forall ai, In ai (audit_items d) -> photo_tagged ai.

(** The audit and the checklist item that an audit item joins. *)
Definition item_ref (ai : AuditItem.t) : Z * Z :=
  (AuditItem.audit_id ai, AuditItem.checklist_item_id ai).

(** No two audit items join the same audit and checklist item. *)
Definition refs_distinct (d : DB) : Prop :=
  NoDup (map item_ref (audit_items d)).

Definition photo_inv (d : DB) : Prop :=
  db_inv d /\ photos_tagged d /\ refs_distinct d.

(** Every request of the sequence was served on a platform whose
    normalisation leaves ASCII in place. *)
Definition ascii_kept (cs : list (Platform * call)) : Prop :=
  Forall (fun pc => nfkd_keeps_ascii (fst pc)) cs.

(** A category, two checklist items, and two audits that each attach a
    photo to the second item. *)
Definition two_audits : list (Platform * call) :=
  [(sample_platform, Checklist (post [("category_name", "Safety")]));
   (sample_platform,
    Checklist (post [("category_id", "1"); ("item_text", "Floor dry")]));
   (sample_platform,
    Checklist (post [("category_id", "1"); ("item_text", "Exits free")]));
   (sample_platform, NewAudit photo_request);
   (sample_platform, NewAudit photo_request)].

(** An audit whose first item comes with a photo and with a score that is
    not a number. *)
Definition bad_score_photo_request : Request :=
  {| method := POST;
     form := [("vendor", "Acme"); ("audit_date", "2024-05-06");
              ("audit_area", "Line 1"); ("score_1", "good")];
     files := [("photo_1", {| filename := "floor.jpg"; content := "JPEG" |})]
  |}.

(* ================================================================== *)
(** * Properties *)
(* ================================================================== *)

Example py_int_samples :
  map Py.int [" 12 "; "+5"; "-07"; "1_000"; ""; "abc"; "1__0"; "3 "; "_3"]
  = [Some 12; Some 5; Some (-7); Some 1000; None; None; None; Some 3; None].
Proof. reflexivity. Qed.

(** [int] does not take a separator character (FS, U+001C) for a blank. *)
Example py_int_refuses_separator :
  Py.int (String (ascii_of_nat 28) "12") = None
  /\ Py.strip (String (ascii_of_nat 28) "12") = "12".
Proof. split; reflexivity. Qed.

(** [int] counts the digits of the numeral, leading zeros included. *)
Example py_int_refuses_long_numeral :
  Py.int (zeros 4300) = Some 0 /\ Py.int (zeros 4301) = None.
Proof. split; vm_compute; reflexivity. Qed.

Example py_split_sample :
  Py.join "_" (Py.split "  my  holiday photo.jpg ") = "my_holiday_photo.jpg".
Proof. reflexivity. Qed.

Example py_strip_sample :
  Py.strip_chars dot_or_underscore "._a.b_." = "a.b".
Proof. reflexivity. Qed.

Example secure_filename_samples :
  map (secure_filename sample_platform)
      ["My cool movie.mov"; "../../../etc/passwd"; "7_1_photo.jpg"; "7_1_."]
  = ["My_cool_movie.mov"; "etc_passwd"; "7_1_photo.jpg"; "7_1"].
Proof. reflexivity. Qed.

Example sample_fromisoformat_ok :
  sample_fromisoformat "2024-01-02"
  = Some {| year := 2024; month := 1; day := 2 |}.
Proof. reflexivity. Qed.

(** ** Sorting *)

Lemma insert_by_perm {A} (le : A -> A -> bool) x l :
  Permutation (insert_by le x l) (x :: l).
Proof.
  induction l as [|y r IH]; simpl.
  - apply Permutation_refl.
  - destruct (le x y).
    + apply Permutation_refl.
    + eapply perm_trans; [apply perm_skip, IH | apply perm_swap].
Qed.

Lemma order_by_perm {A} (le : A -> A -> bool) l :
  Permutation (order_by le l) l.
Proof.
  induction l as [|x r IH]; simpl.
  - apply perm_nil.
  - eapply perm_trans; [apply insert_by_perm | apply perm_skip, IH].
Qed.

Lemma order_by_In {A} (le : A -> A -> bool) l x :
  In x (order_by le l) <-> In x l.
Proof.
  split; apply Permutation_in;
    [apply order_by_perm | apply Permutation_sym, order_by_perm].
Qed.

Lemma order_by_length {A} (le : A -> A -> bool) l :
  length (order_by le l) = length l.
Proof. apply Permutation_length, order_by_perm. Qed.

Lemma bind_ret_l {A B} (a : A) (k : A -> M B) : bind (ret a) k = k a.
Proof. reflexivity. Qed.

(** ** Computations that leave the state alone *)

Lemma pure_ret {A} (a : A) : pure_in (ret a).
Proof. intro w; reflexivity. Qed.

Lemma pure_raise {A} e : pure_in (@raise A e).
Proof. intro w; reflexivity. Qed.

Lemma pure_query {A} (q : DB -> A) : pure_in (query q).
Proof. intro w; reflexivity. Qed.

Lemma pure_attr {A B} (o : option A) (f : A -> B) : pure_in (attr o f).
Proof. destruct o; intro w; reflexivity. Qed.

Lemma pure_of_option {A} e (o : option A) : pure_in (of_option e o).
Proof. destruct o; intro w; reflexivity. Qed.

Lemma pure_bind {A B} (c : M A) (k : A -> M B) :
  pure_in c -> (forall a, pure_in (k a)) -> pure_in (bind c k).
Proof.
  intros Hc Hk w. unfold bind.
  specialize (Hc w). destruct (c w) as [[a|e] w1]; simpl in *; subst.
  - apply Hk.
  - reflexivity.
Qed.

Lemma pure_for_map {A B} (body : A -> M B) l :
  (forall x, pure_in (body x)) -> pure_in (for_map l body).
Proof.
  intro Hb. induction l as [|x r IH]; simpl.
  - apply pure_ret.
  - apply pure_bind; [apply Hb|]. intro y.
    apply pure_bind; [apply IH|]. intro ys. apply pure_ret.
Qed.

Lemma pure_for_fold {A S} (body : S -> A -> M S) l :
  (forall s x, pure_in (body s x)) -> forall acc, pure_in (for_fold l acc body).
Proof.
  intro Hb. induction l as [|x r IH]; simpl; intro acc.
  - apply pure_ret.
  - apply pure_bind; [apply Hb|]. intro acc'. apply IH.
Qed.

(** What a state-preserving computation returns from [w]. *)
Lemma pure_run {A} (c : M A) w : pure_in c -> c w = (fst (c w), w).
Proof. intro H. specialize (H w). destruct (c w); simpl in *; congruence. Qed.

Lemma bind_pure_Return {A B} (c : M A) (k : A -> M B) w b w' :
  pure_in c -> bind c k w = (Return b, w') ->
  exists a, fst (c w) = Return a /\ k a w = (Return b, w').
Proof.
  intros Hc. unfold bind. rewrite (pure_run c w Hc).
  destruct (fst (c w)) as [a|e]; intro H.
  - exists a; split; [reflexivity | exact H].
  - discriminate.
Qed.

(** The results of a loop of state-preserving bodies, element by element. *)
Lemma for_map_pure_Return {A B} (body : A -> M B) :
  (forall x, pure_in (body x)) ->
  forall l w ys w',
    for_map l body w = (Return ys, w') ->
    w' = w /\ Forall2 (fun x y => fst (body x w) = Return y) l ys.
Proof.
  intro Hb. induction l as [|x r IH]; simpl; intros w ys w' H.
  - unfold ret in H. injection H as <- <-. split; [reflexivity | constructor].
  - apply bind_pure_Return in H; [|apply Hb].
    destruct H as (y & Hy & H).
    apply bind_pure_Return in H; [|apply pure_for_map, Hb].
    destruct H as (ys' & Hys & H).
    unfold ret in H. injection H as <- <-.
    destruct (IH w ys' w) as [_ IH'].
    { rewrite (pure_run _ w (pure_for_map body r Hb)), Hys; reflexivity. }
    split; [reflexivity | constructor; assumption].
Qed.

Lemma Forall2_In_r {A B} (R : A -> B -> Prop) l l' y :
  Forall2 R l l' -> In y l' -> exists x, In x l /\ R x y.
Proof.
  induction 1 as [|a b l l' Hab _ IH]; simpl; intros Hin.
  - contradiction.
  - destruct Hin as [->|Hin].
    + exists a; auto.
    + destruct (IH Hin) as (x & Hx & HR). exists x; auto.
Qed.

Lemma Forall2_In_l {A B} (R : A -> B -> Prop) l l' x :
  Forall2 R l l' -> In x l -> exists y, In y l' /\ R x y.
Proof.
  induction 1 as [|a b l l' Hab _ IH]; simpl; intros Hin.
  - contradiction.
  - destruct Hin as [->|Hin].
    + exists b; auto.
    + destruct (IH Hin) as (y & Hy & HR). exists y; auto.
Qed.

Lemma enumerate_In {A} (l : list A) : forall start i x,
  In (i, x) (enumerate start l) -> In x l.
Proof.
  induction l as [|a r IH]; simpl; intros start i x H.
  - contradiction.
  - destruct H as [H|H]; [inversion H; auto | right; eapply IH; eauto].
Qed.

Lemma enumerate_length {A} (l : list A) : forall start,
  length (enumerate start l) = length l.
Proof. induction l; simpl; intros; [|rewrite IHl]; reflexivity. Qed.

Lemma enumerate_snd {A} (l : list A) : forall start,
  map snd (enumerate start l) = l.
Proof. induction l; simpl; intros; [|rewrite IHl]; reflexivity. Qed.

(** ** The relationships *)

Lemma pure_category_name_of ai : pure_in (category_name_of ai).
Proof.
  unfold category_name_of.
  apply pure_bind; [apply pure_query|]; intro ci.
  apply pure_bind; [apply pure_attr|]; intro c.
  apply pure_bind; [apply pure_query|]; intro cat.
  apply pure_attr.
Qed.

Lemma pure_item_text_of ai : pure_in (item_text_of ai).
Proof.
  unfold item_text_of.
  apply pure_bind; [apply pure_query|]; intro ci. apply pure_attr.
Qed.

Lemma pure_mil_row idx ai : pure_in (mil_row idx ai).
Proof.
  unfold mil_row.
  apply pure_bind; [apply pure_item_text_of|]; intro t.
  apply pure_bind; [apply pure_category_name_of|]; intro c.
  apply pure_bind; [apply pure_query|]; intro a.
  apply pure_bind; [apply pure_attr|]; intro v.
  apply pure_ret.
Qed.

(** ** The MIL export *)

(** The rows the MIL query selects: those whose score is a number other
    than 3.  A row without a score is not selected. *)
Lemma mil_query_spec d ai :
  In ai (mil_query d) <->
  In ai (audit_items d) /\
  exists v, AuditItem.score ai = Some v /\ v <> 3.
Proof.
  unfold mil_query. rewrite order_by_In, filter_In.
  split; intros [Hin H]; split; try exact Hin.
  - destruct (AuditItem.score ai) as [v|]; simpl in H; [|discriminate].
    exists v; split; [reflexivity|].
    destruct (Z.eqb_spec v 3); [discriminate | assumption].
  - destruct H as (v & -> & Hv). simpl.
    destruct (Z.eqb_spec v 3); [contradiction | reflexivity].
Qed.

(** C1, at an audit whose first item has no score and whose second item is
    scored 2: the exported file holds the row of the second item only; the
    item without a score, which the claim puts in the export, is left out
    by the SQL comparison [score != 3]. *)
Theorem export_mil_leaves_out_unscored (P : Platform) :
  serve (export_mil P) (site_of (audited_db None (Some 2)))
  = (SendMilFile ("mil_export_" ++ utcnow P ++ ".xlsx")
       [ {| MilRow.No := 1;
            MilRow.Checking_item := "Extinguishers checked";
            MilRow.Category := "Safety";
            MilRow.Record_ := "";
            MilRow.Status := "Open";
            MilRow.Action := "";
            MilRow.Vendor_DRI := "Acme";
            MilRow.Due_Date := "";
            MilRow.Closed_date := "";
            MilRow.Remark := "" |} ],
     site_of (audited_db None (Some 2))).
Proof. reflexivity. Qed.

(** The rows of an exported MIL file, paired with the rows of the query
    that they are built from. *)
Lemma mil_row_fields idx ai w r :
  fst (mil_row idx ai w) = Return r ->
  MilRow.No r = idx
  /\ MilRow.Record_ r = or_empty (AuditItem.record ai)
  /\ MilRow.Status r = mil_status (AuditItem.score ai).
Proof.
  unfold mil_row, item_text_of, category_name_of, bind, query, attr, ret, raise.
  repeat match goal with
         | |- context [match ?o with Some _ => _ | None => _ end] =>
             destruct o; simpl
         end;
    intro H; inversion H; repeat split.
Qed.

Lemma export_mil_paired P s path rows s' :
  serve (export_mil P) s = (SendMilFile path rows, s') ->
  Forall2 (fun p r =>
             MilRow.No r = fst p
             /\ MilRow.Record_ r = or_empty (AuditItem.record (snd p))
             /\ MilRow.Status r = mil_status (AuditItem.score (snd p)))
          (enumerate 1 (mil_query (tables s))) rows.
Proof.
  unfold serve, export_mil. intro H.
  set (w := {| site := s; session := tables s |}) in *.
  unfold bind at 1 in H. unfold query at 1 in H. simpl session in H.
  unfold bind at 1 in H.
  pose proof (for_map_pure_Return (fun p => mil_row (fst p) (snd p))
                (fun p => pure_mil_row (fst p) (snd p))
                (enumerate 1 (mil_query (tables s))) w) as Hfm.
  destruct (for_map (enumerate 1 (mil_query (tables s)))
              (fun p => mil_row (fst p) (snd p)) w) as [[ys|e] w1].
  - destruct (Hfm ys w1 eq_refl) as [-> HF].
    destruct ys as [|y ys'].
    + simpl in H. discriminate.
    + simpl in H. inversion H; subst; clear H.
      eapply Forall2_impl; [|exact HF].
      intros p r Hr. cbv beta in Hr. eapply mil_row_fields. exact Hr.
  - simpl in H. discriminate.
Qed.

(** C9: the rows of an exported MIL file are, one for one and in order, the
    rows of the audit items that pass the export's filter, numbered from 1;
    each carries the record of its own item and the status computed from
    the score of its own item, ["Open"] when the score is null or below 3
    and ["Closed"] otherwise; and when all stored scores lie in 0..3, every
    exported row has status ["Open"]. *)
Theorem export_mil_never_closed (P : Platform) (s s' : Site)
  (path : string) (rows : list MilRow.t) :
  serve (export_mil P) s = (SendMilFile path rows, s') ->
  Forall2 (fun p r =>
             MilRow.No r = fst p
             /\ MilRow.Record_ r = or_empty (AuditItem.record (snd p))
             /\ MilRow.Status r =
                  match AuditItem.score (snd p) with
                  | None => "Open"
                  | Some v => if v <? 3 then "Open" else "Closed"
                  end)
          (enumerate 1 (mil_query (tables s))) rows
  /\ ((forall ai v, In ai (audit_items (tables s)) ->
         AuditItem.score ai = Some v -> 0 <= v <= 3) ->
      forall r, In r rows -> MilRow.Status r = "Open").
Proof.
  intro H. pose proof (export_mil_paired P s path rows s' H) as HF.
  split; [exact HF|].
  intros Hrange r Hr.
  destruct (Forall2_In_r _ _ _ _ HF Hr) as ([i ai] & Hp & _ & _ & Hs).
  apply enumerate_In in Hp. apply mil_query_spec in Hp.
  destruct Hp as (Hin & v & Hv & Hne).
  cbn [snd] in Hs. rewrite Hs, Hv. simpl.
  specialize (Hrange ai v Hin Hv).
  destruct (Z.ltb_spec v 3); [reflexivity | lia].
Qed.

Lemma export_mil_never_closed_witness :
  Forall2 (fun p r =>
             MilRow.No r = fst p
             /\ MilRow.Record_ r = or_empty (AuditItem.record (snd p))
             /\ MilRow.Status r =
                  match AuditItem.score (snd p) with
                  | None => "Open"
                  | Some v => if v <? 3 then "Open" else "Closed"
                  end)
          (enumerate 1 (mil_query (audited_db (Some 2) (Some 0))))
          [ mil_sample_row 1 "Exits are clear" "Open";
            mil_sample_row 2 "Extinguishers checked" "Open" ]
  /\ forall r,
       In r [ mil_sample_row 1 "Exits are clear" "Open";
              mil_sample_row 2 "Extinguishers checked" "Open" ] ->
       MilRow.Status r = "Open".
Proof.
  destruct (export_mil_never_closed sample_platform
              (site_of (audited_db (Some 2) (Some 0)))
              (site_of (audited_db (Some 2) (Some 0)))
              "mil_export_20240102030405.xlsx"
              [ mil_sample_row 1 "Exits are clear" "Open";
                mil_sample_row 2 "Extinguishers checked" "Open" ]
              eq_refl) as [Hrows Hopen].
  split; [exact Hrows|].
  apply Hopen.
  intros ai v Hin Hsc. simpl in Hin.
  destruct Hin as [<-|[<-|[]]]; simpl in Hsc; inversion Hsc; lia.
Defined.

(** ** What the session sends to the database *)

Lemma unsent_app {A} (l r : list A) : unsent l (l ++ r) = r.
Proof.
  unfold unsent. rewrite skipn_app, skipn_all, Nat.sub_diag. reflexivity.
Qed.

Lemma unsent_same {A} (l : list A) : unsent l l = [].
Proof. unfold unsent. apply skipn_all. Qed.

Lemma unsent_short {A} (c l : list A) :
  (length l <= length c)%nat -> unsent c l = [].
Proof. intro H. unfold unsent. apply skipn_all2. exact H. Qed.

(** The integers of the rows that a session has added. *)
Lemma bindable_grown st d cs ais :
  checklist_items d = (checklist_items (tables st) ++ cs)%list ->
  audit_items d = (audit_items (tables st) ++ ais)%list ->
  bindable {| site := st; session := d |}
  = forallb (fun c => fits_int64 (ChecklistItem.category_id c)) cs
    && forallb (fun ai => bindable_opt (AuditItem.score ai)) ais.
Proof.
  intros Hc Ha. unfold bindable. cbn [site session].
  rewrite Hc, Ha, !unsent_app. reflexivity.
Qed.

(** A session that has added no row, whatever it has changed or deleted. *)
Lemma bindable_no_new st d :
  (length (checklist_items d) <= length (checklist_items (tables st)))%nat ->
  (length (audit_items d) <= length (audit_items (tables st)))%nat ->
  bindable {| site := st; session := d |} = true.
Proof.
  intros Hc Ha. unfold bindable. cbn [site session].
  rewrite (unsent_short _ _ Hc), (unsent_short _ _ Ha). reflexivity.
Qed.

Lemma commit_run w :
  bindable w = true ->
  commit w = (Return tt,
              {| site := {| tables := session w;
                            uploads := uploads (site w);
                            flashes := flashes (site w) |};
                 session := session w |}).
Proof. intro H. unfold commit. rewrite H. reflexivity. Qed.

Lemma commit_refused w :
  bindable w = false -> commit w = (Raise OverflowError, w).
Proof. intro H. unfold commit. rewrite H. reflexivity. Qed.

Lemma flush_run w : bindable w = true -> flush w = (Return tt, w).
Proof. intro H. unfold flush. rewrite H. reflexivity. Qed.

Lemma flush_refused w :
  bindable w = false -> flush w = (Raise OverflowError, w).
Proof. intro H. unfold flush. rewrite H. reflexivity. Qed.

(** [Model.query.get] on a key that fits, and on a stored key. *)
Lemma query_get_fits {A} (row_of : Z -> DB -> option A) i w :
  fits_int64 i = true ->
  query_get row_of i w = (Return (row_of i (session w)), w).
Proof.
  intro H. unfold query_get. rewrite H. destruct (row_of i (session w));
    reflexivity.
Qed.

Lemma query_get_found {A} (row_of : Z -> DB -> option A) i w r :
  row_of i (session w) = Some r ->
  query_get row_of i w = (Return (Some r), w).
Proof. intro H. unfold query_get. rewrite H. reflexivity. Qed.

Lemma query_get_missing {A} (row_of : Z -> DB -> option A) i w :
  row_of i (session w) = None ->
  query_get row_of i w
  = (if fits_int64 i then Return None else Raise OverflowError, w).
Proof.
  intro H. unfold query_get. rewrite H. destruct (fits_int64 i); reflexivity.
Qed.

(** ** The checklist manager *)

(** What posting a category name does. *)
Lemma checklist_category_post rq s raw :
  method rq = POST ->
  lookup "category_name" (form rq) = Some raw ->
  serve (checklist rq) s =
    if Py.truthy (Py.strip raw)
       && match category_by_name (Py.strip raw) (tables s) with
          | None => true
          | Some _ => false
          end
    then (Redirect "/checklist",
          with_flash "Category added"
            (with_tables
               (with_categories
                  (categories (tables s) ++
                   [ {| Category.id :=
                          next_id (map Category.id (categories (tables s)));
                        Category.name := Py.strip raw |} ])%list
                  (tables s)) s))
    else (Redirect "/checklist", with_flash "Category exists or empty" s).
Proof.
  intros Hm Hl. unfold serve, checklist, form_has, form_item.
  rewrite Hm, Hl. simpl.
  unfold bind, query, ret. simpl.
  destruct (Py.truthy (Py.strip raw)); simpl.
  - destruct (category_by_name (Py.strip raw) (tables s)); [reflexivity|].
    simpl. rewrite commit_run by (apply bindable_no_new; apply Nat.le_refl).
    reflexivity.
  - reflexivity.
Qed.

Lemma category_by_name_None n d :
  category_by_name n d = None <->
  forall c, In c (categories d) -> Category.name c <> n.
Proof.
  unfold category_by_name. split.
  - intros H c Hc Hn.
    pose proof (find_none _ _ H c Hc) as Hf. simpl in Hf.
    rewrite Hn, String.eqb_refl in Hf. discriminate.
  - intro H.
    destruct (find _ (categories d)) as [c|] eqn:Hf; [|reflexivity].
    apply find_some in Hf. destruct Hf as [Hc Hn].
    apply String.eqb_eq in Hn. exfalso. exact (H c Hc Hn).
Qed.

Lemma category_by_name_Some n d c :
  category_by_name n d = Some c -> In c (categories d) /\ Category.name c = n.
Proof.
  unfold category_by_name. intro H. apply find_some in H.
  destruct H as [Hc Hn]. apply String.eqb_eq in Hn. auto.
Qed.

Lemma find_app_or {A} (p : A -> bool) l l' :
  find p (l ++ l')%list
  = match find p l with Some x => Some x | None => find p l' end.
Proof.
  induction l as [|a r IH]; simpl; [reflexivity|].
  destruct (p a); [reflexivity | exact IH].
Qed.

Lemma named_app n l l' : named n (l ++ l')%list = (named n l + named n l')%nat.
Proof. unfold named. rewrite filter_app, length_app. reflexivity. Qed.

Lemma named_zero n l :
  (forall c, In c l -> Category.name c <> n) -> named n l = 0%nat.
Proof.
  unfold named. induction l as [|c r IH]; simpl; intro H; [reflexivity|].
  destruct (String.eqb_spec (Category.name c) n) as [e|_].
  - exfalso. apply (H c); auto.
  - apply IH. intros c' Hc'. apply H; auto.
Qed.

Lemma named_one n l c :
  NoDup (map Category.name l) -> In c l -> Category.name c = n ->
  named n l = 1%nat.
Proof.
  intros Hnd Hin <-. revert Hnd Hin.
  induction l as [|a r IH]; intros Hnd Hin; [contradiction|].
  simpl in Hnd. inversion Hnd as [|x xs Hnotin Hnd']; subst x xs.
  unfold named. cbn [filter].
  destruct Hin as [->|Hin].
  - rewrite String.eqb_refl. cbn [length]. f_equal.
    apply (named_zero (Category.name c) r).
    intros c' Hc' He. apply Hnotin. rewrite <- He. apply in_map; exact Hc'.
  - destruct (String.eqb_spec (Category.name a) (Category.name c)) as [e|_].
    + exfalso. apply Hnotin. rewrite e. apply in_map; exact Hin.
    + apply (IH Hnd' Hin).
Qed.

(** C7: [addCategory] trims the submitted name; when the trimmed name is
    empty or some category already carries exactly that name, the tables are
    left as they are and the message [Category exists or empty] is flashed;
    otherwise one category row with the trimmed name is inserted.  Hence,
    for a name that is not empty after trimming and tables that obey the
    unique constraint on names, posting the name twice leaves exactly one
    category with that name, and the second post changes no table and
    flashes the rejection. *)
Theorem add_category_once (rq : Request) (s : Site) (raw : string) :
  method rq = POST ->
  lookup "category_name" (form rq) = Some raw ->
  let name := Py.strip raw in
  ((name = "" \/ exists c, In c (categories (tables s)) /\ Category.name c = name) ->
     serve (checklist rq) s
     = (Redirect "/checklist", with_flash "Category exists or empty" s))
  /\ (name <> "" ->
      (forall c, In c (categories (tables s)) -> Category.name c <> name) ->
      serve (checklist rq) s
      = (Redirect "/checklist",
         with_flash "Category added"
           (with_tables
              (with_categories
                 (categories (tables s) ++
                  [ {| Category.id :=
                         next_id (map Category.id (categories (tables s)));
                       Category.name := name |} ])%list
                 (tables s)) s)))
  /\ (name <> "" ->
      NoDup (map Category.name (categories (tables s))) ->
      let s1 := snd (serve (checklist rq) s) in
      let s2 := snd (serve (checklist rq) s1) in
      named name (categories (tables s2)) = 1%nat
      /\ serve (checklist rq) s1
         = (Redirect "/checklist", with_flash "Category exists or empty" s1)).
Proof.
  intros Hm Hl name.
  assert (Htruthy : name <> "" -> Py.truthy name = true).
  { intro Hne. destruct name; [contradiction | reflexivity]. }
  split; [|split].
  - intros [He | (c & Hc & Hn)].
    + rewrite (checklist_category_post rq s raw Hm Hl).
      fold name. rewrite He. reflexivity.
    + rewrite (checklist_category_post rq s raw Hm Hl). fold name.
      destruct (category_by_name name (tables s)) eqn:Hq.
      * rewrite andb_false_r. reflexivity.
      * exfalso. rewrite category_by_name_None in Hq. exact (Hq c Hc Hn).
  - intros Hne Hfresh.
    rewrite (checklist_category_post rq s raw Hm Hl). fold name.
    rewrite (Htruthy Hne).
    rewrite (proj2 (category_by_name_None name (tables s)) Hfresh).
    reflexivity.
  - intros Hne Hnd s1 s2. subst s2.
    assert (Hs1 : named name (categories (tables s1)) = 1%nat
                  /\ exists c, category_by_name name (tables s1) = Some c).
    { subst s1. rewrite (checklist_category_post rq s raw Hm Hl). fold name.
      rewrite (Htruthy Hne).
      destruct (category_by_name name (tables s)) as [c|] eqn:Hq; simpl.
      - apply category_by_name_Some in Hq. destruct Hq as [Hc Hn].
        split; [exact (named_one name _ c Hnd Hc Hn) | ].
        destruct (category_by_name name (tables s)) as [c'|] eqn:Hq'.
        + exists c'; reflexivity.
        + rewrite category_by_name_None in Hq'. exfalso. exact (Hq' c Hc Hn).
      - split.
        + rewrite named_app.
          rewrite (named_zero name (categories (tables s))).
          * unfold named. simpl. rewrite String.eqb_refl. reflexivity.
          * apply category_by_name_None. exact Hq.
        + unfold category_by_name. simpl.
          rewrite find_app_or.
          change (find (fun c => String.eqb (Category.name c) name)
                       (categories (tables s)))
            with (category_by_name name (tables s)).
          rewrite Hq. simpl. rewrite String.eqb_refl. eexists; reflexivity. }
    destruct Hs1 as [Hone (c & Hc)].
    assert (Hsecond : serve (checklist rq) s1
              = (Redirect "/checklist", with_flash "Category exists or empty" s1)).
    { rewrite (checklist_category_post rq s1 raw Hm Hl). fold name.
      rewrite Hc, andb_false_r. reflexivity. }
    split; [|exact Hsecond].
    rewrite Hsecond. simpl. exact Hone.
Qed.

Lemma add_category_once_witness :
  named "Quality"
    (categories
       (tables
          (snd (serve (checklist quality_request)
                  (snd (serve (checklist quality_request)
                          (site_of safety_db)))))))
  = 1%nat
  /\ serve (checklist quality_request)
           (snd (serve (checklist quality_request) (site_of safety_db)))
     = (Redirect "/checklist",
        with_flash "Category exists or empty"
          (snd (serve (checklist quality_request) (site_of safety_db)))).
Proof.
  pose proof (add_category_once quality_request
                (site_of safety_db) " Quality " eq_refl eq_refl) as H.
  cbv zeta in H. destruct H as (_ & _ & H).
  apply H.
  - discriminate.
  - simpl. constructor; [intros [] | constructor].
Defined.

(** What posting an item identifier and a text does. *)
Lemma checklist_update_post rq s raw i t :
  method rq = POST ->
  lookup "category_name" (form rq) = None ->
  lookup "item_id" (form rq) = Some raw ->
  Py.int raw = Some i ->
  lookup "item_text" (form rq) = Some t ->
  serve (checklist rq) s =
    match get_checklist_item i (tables s) with
    | None => (Status 500, s)
    | Some it =>
        (Redirect "/checklist",
         with_flash "Checklist item updated"
           (with_tables
              (with_checklist_items
                 (map (set_item_fields (ChecklistItem.id it) t
                         (Some (or_empty (lookup "original_spec" (form rq)))))
                      (checklist_items (tables s)))
                 (tables s)) s))
    end.
Proof.
  intros Hm Hc Hi Hint Ht.
  unfold serve, checklist, form_has, form_item, form_get, py_int.
  rewrite Hm, Hc, Hi. simpl.
  unfold bind. simpl. rewrite Hint. simpl.
  unfold query_get. cbn [session].
  destruct (get_checklist_item i (tables s)) as [it|]; simpl.
  - rewrite Ht. simpl.
    rewrite commit_run
      by (apply bindable_no_new; cbn; rewrite ?length_map; apply Nat.le_refl).
    unfold or_empty. destruct (lookup "original_spec" (form rq)); reflexivity.
  - destruct (fits_int64 i); [rewrite Ht|]; reflexivity.
Qed.

(** What posting a new item does. *)
Lemma checklist_add_item_post rq s raw_c c raw_t :
  method rq = POST ->
  lookup "category_name" (form rq) = None ->
  lookup "item_id" (form rq) = None ->
  lookup "item_text" (form rq) = Some raw_t ->
  lookup "category_id" (form rq) = Some raw_c ->
  Py.int raw_c = Some c ->
  serve (checklist rq) s =
    if Py.truthy (Py.strip raw_t)
    then if fits_int64 c
         then (Redirect "/checklist",
               with_flash "Checklist item added"
                 (with_tables
                    (with_checklist_items
                       (checklist_items (tables s) ++
                        [ {| ChecklistItem.id :=
                               next_id (map ChecklistItem.id
                                            (checklist_items (tables s)));
                             ChecklistItem.category_id := c;
                             ChecklistItem.text := Py.strip raw_t;
                             ChecklistItem.original_spec :=
                               Some (Py.strip
                                       (or_empty
                                          (lookup "original_spec" (form rq))))
                          |} ])%list
                       (tables s)) s))
         else (Status 500, s)
    else (Redirect "/checklist", s).
Proof.
  intros Hm Hc Hi Ht Hcat Hint.
  unfold serve, checklist, form_has, form_item, form_get, py_int.
  rewrite Hm, Hc, Hi, Ht. simpl.
  unfold bind. simpl. rewrite Hcat. simpl. rewrite Hint. simpl.
  destruct (Py.truthy (Py.strip raw_t)); simpl.
  - unfold commit.
    rewrite (bindable_grown _ _
               [ {| ChecklistItem.id :=
                      next_id (map ChecklistItem.id (checklist_items (tables s)));
                    ChecklistItem.category_id := c;
                    ChecklistItem.text := Py.strip raw_t;
                    ChecklistItem.original_spec :=
                      Some (Py.strip
                              match lookup "original_spec" (form rq) with
                              | Some o => o
                              | None => ""
                              end) |} ] [])
      by (cbn; rewrite ?app_nil_r; reflexivity).
    cbn [forallb ChecklistItem.category_id]. rewrite !andb_true_r.
    destruct (fits_int64 c); [|reflexivity].
    unfold or_empty. destruct (lookup "original_spec" (form rq)); reflexivity.
  - destruct s; reflexivity.
Qed.

Lemma get_checklist_item_id i d it :
  get_checklist_item i d = Some it -> ChecklistItem.id it = i.
Proof.
  unfold get_checklist_item. intro H. apply find_some in H.
  destruct H as [_ H]. apply Z.eqb_eq in H. exact H.
Qed.

Lemma find_set_item_fields i t o l it :
  find (fun c => ChecklistItem.id c =? i) l = Some it ->
  find (fun c => ChecklistItem.id c =? i) (map (set_item_fields i t o) l)
  = Some {| ChecklistItem.id := ChecklistItem.id it;
            ChecklistItem.category_id := ChecklistItem.category_id it;
            ChecklistItem.text := t;
            ChecklistItem.original_spec := o |}.
Proof.
  induction l as [|a r IH]; simpl; intro H; [discriminate|].
  unfold set_item_fields at 1 2.
  destruct (ChecklistItem.id a =? i) eqn:Ha; simpl; rewrite Ha.
  - inversion H; subst. reflexivity.
  - apply IH. exact H.
Qed.

(** C3, at the request that edits item 99 of a checklist whose items are 1
    and 2: the handler raises [AttributeError] (from [item.text = ..] on
    [None]), which is answered with status 500, not with the not-found
    status 404; the stored rows are unchanged. *)
Theorem update_unknown_item_is_server_error :
  fst (checklist unknown_item_request
         {| site := site_of safety_db; session := safety_db |})
  = Raise AttributeError
  /\ serve (checklist unknown_item_request) (site_of safety_db)
     = (Status 500, site_of safety_db).
Proof. split; reflexivity. Qed.

(** C10: for an existing checklist item, the update stores the submitted
    text as it is, the empty string included; adding an item whose text is
    empty after trimming inserts nothing; so a checklist whose items all
    have a non-empty text can be taken by an update to one that has an item
    with an empty text. *)
Theorem update_stores_text_verbatim :
  (forall (rq : Request) (s : Site) (raw : string) (i : Z) (t : string)
          (it : ChecklistItem.t),
      method rq = POST ->
      lookup "category_name" (form rq) = None ->
      lookup "item_id" (form rq) = Some raw ->
      Py.int raw = Some i ->
      lookup "item_text" (form rq) = Some t ->
      get_checklist_item i (tables s) = Some it ->
      fst (serve (checklist rq) s) = Redirect "/checklist"
      /\ get_checklist_item i (tables (snd (serve (checklist rq) s)))
         = Some {| ChecklistItem.id := i;
                   ChecklistItem.category_id := ChecklistItem.category_id it;
                   ChecklistItem.text := t;
                   ChecklistItem.original_spec :=
                     Some (or_empty (lookup "original_spec" (form rq))) |})
  /\ (forall (rq : Request) (s : Site) (raw_c raw_t : string) (c : Z),
      method rq = POST ->
      lookup "category_name" (form rq) = None ->
      lookup "item_id" (form rq) = None ->
      lookup "item_text" (form rq) = Some raw_t ->
      lookup "category_id" (form rq) = Some raw_c ->
      Py.int raw_c = Some c ->
      Py.strip raw_t = "" ->
      serve (checklist rq) s = (Redirect "/checklist", s))
  /\ (Forall (fun c => ChecklistItem.text c <> "") (checklist_items safety_db)
      /\ map ChecklistItem.text
           (checklist_items
              (tables
                 (snd (serve (checklist empty_text_request)
                         (site_of safety_db)))))
         = ["Exits are clear"; ""]).
Proof.
  split; [|split].
  - intros rq s raw i t it Hm Hc Hi Hint Ht Hget.
    rewrite (checklist_update_post rq s raw i t Hm Hc Hi Hint Ht), Hget.
    simpl. split; [reflexivity|].
    pose proof (get_checklist_item_id _ _ _ Hget) as Hid.
    unfold get_checklist_item in *. simpl.
    rewrite Hid.
    rewrite (find_set_item_fields i t _ _ it Hget), Hid. reflexivity.
  - intros rq s raw_c raw_t c Hm Hc Hi Ht Hcat Hint Hstrip.
    rewrite (checklist_add_item_post rq s raw_c c raw_t Hm Hc Hi Ht Hcat Hint).
    rewrite Hstrip. reflexivity.
  - split.
    + repeat constructor; discriminate.
    + reflexivity.
Qed.

Lemma update_stores_text_verbatim_witness :
  fst (serve (checklist empty_text_request) (site_of safety_db))
  = Redirect "/checklist"
  /\ get_checklist_item 2
       (tables (snd (serve (checklist empty_text_request) (site_of safety_db))))
     = Some {| ChecklistItem.id := 2; ChecklistItem.category_id := 1;
               ChecklistItem.text := "";
               ChecklistItem.original_spec := Some "" |}.
Proof.
  exact (proj1 update_stores_text_verbatim
           empty_text_request (site_of safety_db) "2" 2 ""
           {| ChecklistItem.id := 2; ChecklistItem.category_id := 1;
              ChecklistItem.text := "Extinguishers checked";
              ChecklistItem.original_spec := Some "" |}
           eq_refl eq_refl eq_refl eq_refl eq_refl eq_refl).
Defined.

(** ** Deleting an audit *)

Lemma filter_filter {A} (p q : A -> bool) l :
  filter p (filter q l) = filter (fun x => q x && p x) l.
Proof.
  induction l as [|a r IH]; simpl; [reflexivity|].
  destruct (q a); simpl; [destruct (p a)|]; rewrite IH; reflexivity.
Qed.

Lemma file_exists_delete f g fs :
  file_exists f (file_delete g fs)
  = file_exists f fs && negb (String.eqb g f).
Proof.
  unfold file_exists, file_delete.
  induction fs as [|[p d] r IH]; simpl; [reflexivity|].
  destruct (String.eqb_spec p g) as [->|Hpg]; simpl.
  - rewrite IH. destruct (String.eqb_spec g f); simpl.
    + rewrite andb_false_r. reflexivity.
    + reflexivity.
  - rewrite IH. destruct (String.eqb_spec p f) as [->|Hpf]; simpl.
    + destruct (String.eqb_spec g f); [congruence | reflexivity].
    + reflexivity.
Qed.

(** The body of the loop of [delete_audit]: the row leaves the session, the
    photo is removed when the file system allows it, and nothing is raised. *)
Lemma delete_body_run P ai w :
  exists fs,
    ((if Py.truthy (or_empty (AuditItem.photo_filename ai))
      then try_pass (os_remove P (or_empty (AuditItem.photo_filename ai)))
      else ret tt) ;; delete_audit_item ai) w
    = (Return tt,
       {| site := site (set_uploads fs w);
          session :=
            with_audit_items
              (filter (fun x => negb (AuditItem.id x =? AuditItem.id ai))
                      (audit_items (session w)))
              (session w) |})
    /\ (forall f, file_exists f fs = true ->
                  file_exists f (uploads (site w)) = true)
    /\ (forall f, AuditItem.photo_filename ai = Some f -> f <> "" ->
                  remove_denied P f = false -> file_exists f fs = false).
Proof.
  unfold bind, try_pass, os_remove, delete_audit_item, session_update, ret.
  destruct (AuditItem.photo_filename ai) as [f|] eqn:Hf; simpl.
  - destruct f as [|c f']; simpl.
    + exists (uploads (site w)). destruct w as [[t u fl] se]; simpl.
      repeat split; auto. intros f [= <-] Hne. contradiction.
    + set (f := String c f') in *.
      destruct (file_exists f (uploads (site w)) && negb (remove_denied P f))
        eqn:Hok; simpl.
      * exists (file_delete f (uploads (site w))). repeat split.
        -- intros g Hg. rewrite file_exists_delete in Hg.
           apply andb_true_iff in Hg. tauto.
        -- intros g [= <-] _ _. rewrite file_exists_delete, String.eqb_refl.
           apply andb_false_r.
      * exists (uploads (site w)). destruct w as [[t u fl] se]; simpl in *.
        repeat split; auto.
        intros g [= <-] _ Hd. rewrite Hd in Hok. simpl in Hok.
        rewrite andb_true_r in Hok. exact Hok.
  - exists (uploads (site w)). destruct w as [[t u fl] se]; simpl.
    repeat split; auto. intros f [=].
Qed.

Lemma delete_loop_run P items : forall w,
  exists fs,
    for_each items
      (fun ai =>
         (if Py.truthy (or_empty (AuditItem.photo_filename ai))
          then try_pass (os_remove P (or_empty (AuditItem.photo_filename ai)))
          else ret tt) ;; delete_audit_item ai) w
    = (Return tt,
       {| site := site (set_uploads fs w);
          session :=
            with_audit_items
              (filter (fun x => negb (key_in items x)) (audit_items (session w)))
              (session w) |})
    /\ (forall f, file_exists f fs = true ->
                  file_exists f (uploads (site w)) = true)
    /\ (forall ai f, In ai items -> AuditItem.photo_filename ai = Some f ->
                     f <> "" -> remove_denied P f = false ->
                     file_exists f fs = false).
Proof.
  induction items as [|ai r IH]; intro w.
  - exists (uploads (site w)). simpl. unfold ret.
    destruct w as [[t u fl] [c ci a ais]]; simpl.
    repeat split; auto.
    + unfold with_audit_items; simpl. do 3 f_equal.
      induction ais as [|x xs IHx]; simpl; [|rewrite <- IHx]; reflexivity.
    + intros ai f [].
  - cbn [for_each]. unfold bind at 1.
    destruct (delete_body_run P ai w) as (fs1 & Hrun & Hmono & Hgone).
    rewrite Hrun.
    match goal with
    | |- context [for_each r ?b ?w1] => destruct (IH w1) as (fs2 & Hr & Hm2 & Hg2)
    end.
    exists fs2. rewrite Hr. simpl in *. repeat split.
    + unfold with_audit_items; simpl. do 3 f_equal.
      rewrite filter_filter. apply filter_ext. intro x.
      rewrite negb_orb. reflexivity.
    + intros f Hf. apply Hmono. apply Hm2. exact Hf.
    + intros a f [<-|Hin] Hp Hne Hd.
      * destruct (file_exists f fs2) eqn:He; [|reflexivity].
        apply Hm2 in He. rewrite (Hgone f Hp Hne Hd) in He. discriminate.
      * eapply Hg2; eauto.
Qed.

Lemma get_audit_id i d a : get_audit i d = Some a -> Audit.id a = i.
Proof.
  unfold get_audit. intro H. apply find_some in H.
  destruct H as [_ H]. apply Z.eqb_eq in H. exact H.
Qed.

Lemma delete_audit_missing P i s :
  get_audit i (tables s) = None ->
  serve (delete_audit P i) s
  = (Status (if fits_int64 i then 404 else 500), s).
Proof.
  intro H. unfold serve, delete_audit, get_or_404.
  unfold bind at 1 2. rewrite query_get_missing by exact H.
  destruct (fits_int64 i); reflexivity.
Qed.

Lemma delete_audit_found P i s a :
  get_audit i (tables s) = Some a ->
  exists fs,
    serve (delete_audit P i) s = (Redirect "/audits", after_delete i fs s)
    /\ (forall f, file_exists f fs = true -> file_exists f (uploads s) = true)
    /\ (forall ai f, In ai (audit_items_of i (tables s)) ->
                     AuditItem.photo_filename ai = Some f -> f <> "" ->
                     remove_denied P f = false -> file_exists f fs = false).
Proof.
  intro H. pose proof (get_audit_id _ _ _ H) as Hid.
  unfold serve, delete_audit, get_or_404.
  unfold bind at 1 2. rewrite (query_get_found get_audit i _ a) by exact H.
  simpl.
  unfold bind at 1. unfold query at 1. simpl session.
  unfold bind at 1. rewrite Hid.
  destruct (delete_loop_run P (audit_items_of i (tables s))
              {| site := s; session := tables s |}) as (fs & Hrun & Hm & Hg).
  rewrite Hrun. exists fs. simpl in *.
  split; [|split; assumption].
  unfold bind, delete_audit_row, session_update, flash, ret. simpl.
  rewrite commit_run
    by (apply bindable_no_new; cbn;
        [apply Nat.le_refl | apply filter_length_le]).
  simpl. rewrite Hid. reflexivity.
Qed.

Lemma key_in_self l x : In x l -> key_in l x = true.
Proof.
  intro H. unfold key_in. apply existsb_exists.
  exists x. split; [exact H | apply Z.eqb_refl].
Qed.




(** ** The audits page *)

(** The guard keeps the division away from a zero divisor: the guarded
    expression raises nothing and has the value [percent]. *)
Lemma percentage_run sm n w : percentage sm n w = (Return (percent sm n), w).
Proof.
  unfold percentage, percent, true_div, bind, ret, raise.
  destruct (Z.eqb_spec n 0) as [->|Hn]; [reflexivity|]. cbn [negb].
  destruct (Z.eqb_spec (n * 3) 0) as [E|_]; [lia | reflexivity].
Qed.

Lemma percentages_run (cs : list (string * tally)) w :
  for_map cs (fun kv =>
                pct <- percentage (sum (snd kv)) (count (snd kv)) ;;
                ret (fst kv, pct)) w
  = (Return (map (fun kv => (fst kv, percent (sum (snd kv)) (count (snd kv))))
                 cs), w).
Proof.
  induction cs as [|kv r IH]; [reflexivity|].
  cbn [for_map map]. unfold bind at 1. unfold bind at 1.
  rewrite percentage_run. unfold ret at 1. unfold bind at 1. rewrite IH.
  reflexivity.
Qed.

(** The end of [audit_entry_of], once the items are tallied. *)
Lemma entry_of_tally_run a st w :
  (cats <- for_map (category_scores st)
             (fun kv =>
                pct <- percentage (sum (snd kv)) (count (snd kv)) ;;
                ret (fst kv, pct)) ;;
   total_pct <- percentage (total_score st) (total_items st) ;;
   ret {| entry_audit := a;
          entry_categories := cats;
          entry_total := total_pct |}) w
  = (Return {| entry_audit := a;
               entry_categories :=
                 map (fun kv =>
                        (fst kv, percent (sum (snd kv)) (count (snd kv))))
                     (category_scores st);
               entry_total := percent (total_score st) (total_items st) |},
     w).
Proof.
  unfold bind at 1. rewrite percentages_run.
  unfold bind at 1. rewrite percentage_run. reflexivity.
Qed.

Lemma pure_audit_entry_of a : pure_in (audit_entry_of a).
Proof.
  unfold audit_entry_of.
  apply pure_bind; [apply pure_query|]; intro items.
  apply pure_bind.
  - apply pure_for_fold. intros st ai.
    apply pure_bind; [apply pure_category_name_of|]; intro c. apply pure_ret.
  - intros st w. rewrite entry_of_tally_run. reflexivity.
Qed.

Lemma audit_entry_of_audit a w e :
  fst (audit_entry_of a w) = Return e -> entry_audit e = a.
Proof.
  unfold audit_entry_of. unfold bind at 1. unfold query at 1.
  unfold bind at 1.
  destruct (for_fold _ _ _ w) as [[st|ex] w1]; [|simpl; discriminate].
  rewrite entry_of_tally_run. simpl. intro H.
  inversion H. reflexivity.
Qed.

(** The audits shown on the page are those of the query, in its order. *)
Lemma audits_list_entries s msgs entries s' :
  serve audits_list s = (Html msgs (AuditsPage entries), s') ->
  map entry_audit entries = audits_by_date_desc (tables s).
Proof.
  unfold serve, audits_list. unfold bind at 1. unfold query at 1.
  simpl session. unfold bind at 1.
  set (w := {| site := s; session := tables s |}).
  pose proof (for_map_pure_Return audit_entry_of pure_audit_entry_of
                (audits_by_date_desc (tables s)) w) as Hfm.
  destruct (for_map (audits_by_date_desc (tables s)) audit_entry_of w)
    as [[ys|e] w1]; simpl; intro H; [|discriminate].
  injection H as _ -> _. destruct (Hfm entries w1 eq_refl) as [_ HF].
  clear - HF. induction HF as [|a e l l' Hae _ IH]; simpl; [reflexivity|].
  rewrite IH. f_equal. eapply audit_entry_of_audit; eauto.
Qed.





(** ** Creating an audit *)

(** One pass of the loop of [new_audit], once the item is loaded: either
    the row of the item joins the session, or the photo could not be written
    or the score is not a number, and the session is as before. *)
Lemma store_item_run P rq aid item w :
  (item_read P rq aid item = true /\
   exists fs,
     store_item P rq aid item w
     = (Return tt,
        {| site := site (set_uploads fs w);
           session :=
             with_audit_items
               (audit_items (session w) ++
                [new_row P rq aid item
                   (next_id (map AuditItem.id (audit_items (session w))))])%list
               (session w) |}))
  \/ (item_read P rq aid item = false /\
      exists e fs,
        store_item P rq aid item w
        = (Raise e, {| site := site (set_uploads fs w); session := session w |})
        /\ status_of e = 500).
Proof.
  unfold item_read, store_item, score_parses, photo_saves, new_row,
    submitted_score, submitted_photo, item_key, form_get.
  destruct (lookup ("photo_" ++ Py.str_of_int (ChecklistItem.id item)) (files rq))
    as [ph|]; [destruct (Py.truthy (filename ph)) eqn:Hph|].
  - unfold bind at 1 2. unfold photo_save.
    destruct (save_denied P _) eqn:Hd.
    + right. split; [apply andb_false_r|].
      exists OSError, (uploads (site w)). destruct w as [[t u f] se].
      split; reflexivity.
    + cbn [negb]. rewrite andb_true_r. unfold ret at 1.
      destruct (lookup ("score_" ++ _) (form rq)) as [sc|];
        [destruct (Py.truthy sc); [destruct (Py.int sc) eqn:Hint|]|].
      * left. split; [reflexivity|]. eexists.
        unfold bind, py_int, of_option, ret, add_audit_item, session_update.
        rewrite Hint. reflexivity.
      * right. split; [reflexivity|]. exists ValueError. eexists.
        unfold bind, py_int, of_option, raise. rewrite Hint.
        split; reflexivity.
      * left. split; [reflexivity|]. eexists.
        unfold bind, ret, add_audit_item, session_update. reflexivity.
      * left. split; [reflexivity|]. eexists.
        unfold bind, ret, add_audit_item, session_update. reflexivity.
  - rewrite andb_true_r. unfold bind at 1. unfold ret at 1.
    destruct (lookup ("score_" ++ _) (form rq)) as [sc|];
      [destruct (Py.truthy sc); [destruct (Py.int sc) eqn:Hint|]|].
    + left. split; [reflexivity|]. exists (uploads (site w)).
      unfold bind, py_int, of_option, ret, add_audit_item, session_update.
      rewrite Hint. destruct w as [[t u f] se]. reflexivity.
    + right. split; [reflexivity|]. exists ValueError, (uploads (site w)).
      unfold bind, py_int, of_option, raise. rewrite Hint.
      destruct w as [[t u f] se]. split; reflexivity.
    + left. split; [reflexivity|]. exists (uploads (site w)).
      unfold bind, ret, add_audit_item, session_update.
      destruct w as [[t u f] se]. reflexivity.
    + left. split; [reflexivity|]. exists (uploads (site w)).
      unfold bind, ret, add_audit_item, session_update.
      destruct w as [[t u f] se]. reflexivity.
  - rewrite andb_true_r. unfold bind at 1. unfold ret at 1.
    destruct (lookup ("score_" ++ _) (form rq)) as [sc|];
      [destruct (Py.truthy sc); [destruct (Py.int sc) eqn:Hint|]|].
    + left. split; [reflexivity|]. exists (uploads (site w)).
      unfold bind, py_int, of_option, ret, add_audit_item, session_update.
      rewrite Hint. destruct w as [[t u f] se]. reflexivity.
    + right. split; [reflexivity|]. exists ValueError, (uploads (site w)).
      unfold bind, py_int, of_option, raise. rewrite Hint.
      destruct w as [[t u f] se]. split; reflexivity.
    + left. split; [reflexivity|]. exists (uploads (site w)).
      unfold bind, ret, add_audit_item, session_update.
      destruct w as [[t u f] se]. reflexivity.
    + left. split; [reflexivity|]. exists (uploads (site w)).
      unfold bind, ret, add_audit_item, session_update.
      destruct w as [[t u f] se]. reflexivity.
Qed.

Lemma new_rows_items P rq aid items : forall existing,
  map AuditItem.checklist_item_id (new_rows P rq aid items existing)
  = map ChecklistItem.id items.
Proof.
  induction items as [|i r IH]; simpl; intro e; [|rewrite IH]; reflexivity.
Qed.

Lemma new_rows_length P rq aid items existing :
  length (new_rows P rq aid items existing) = length items.
Proof.
  rewrite <- (length_map AuditItem.checklist_item_id), new_rows_items.
  apply length_map.
Qed.

Lemma new_rows_fields P rq aid items : forall existing,
  Forall2 (fun item row =>
             AuditItem.audit_id row = aid
             /\ AuditItem.checklist_item_id row = ChecklistItem.id item
             /\ AuditItem.score row = submitted_score rq item
             /\ AuditItem.record row = form_get rq ("record_" ++ item_key item)
             /\ AuditItem.photo_filename row = submitted_photo P rq aid item)
          items (new_rows P rq aid items existing).
Proof.
  induction items as [|i r IH]; simpl; intro e; constructor.
  - simpl. repeat split.
  - apply IH.
Qed.

Lemma new_rows_audit_id P rq aid items : forall existing,
  Forall (fun row => AuditItem.audit_id row = aid)
         (new_rows P rq aid items existing).
Proof.
  induction items as [|i r IH]; simpl; intro e; constructor;
    [reflexivity | apply IH].
Qed.

(** What a session that has only added audit items has still to send. *)
Lemma bindable_unsent w rows :
  holds_unsent w rows ->
  bindable w = forallb (fun ai => bindable_opt (AuditItem.score ai)) rows.
Proof.
  destruct w as [st d]. intros [Hc Ha]. cbn [site session] in Hc, Ha.
  rewrite (bindable_grown st d [] rows);
    [reflexivity | rewrite app_nil_r; exact Hc | exact Ha].
Qed.

Lemma holds_unsent_stored w rows fs row :
  holds_unsent w rows ->
  holds_unsent
    {| site := site (set_uploads fs w);
       session :=
         with_audit_items (audit_items (session w) ++ [row])%list (session w) |}
    (rows ++ [row]).
Proof.
  intros [Hc Ha]. split; cbn; [exact Hc | rewrite Ha, app_assoc; reflexivity].
Qed.

(** One pass of the loop: the unsent rows are sent first. *)
Lemma record_item_run P rq aid item w :
  bindable w = true ->
  (item_read P rq aid item = true /\
   exists fs,
     record_item P rq aid item w
     = (Return tt,
        {| site := site (set_uploads fs w);
           session :=
             with_audit_items
               (audit_items (session w) ++
                [new_row P rq aid item
                   (next_id (map AuditItem.id (audit_items (session w))))])%list
               (session w) |}))
  \/ (item_read P rq aid item = false /\
      exists e fs,
        record_item P rq aid item w
        = (Raise e, {| site := site (set_uploads fs w); session := session w |})
        /\ status_of e = 500).
Proof.
  intro Hb. unfold record_item, bind. rewrite (flush_run w Hb).
  apply store_item_run.
Qed.

Lemma record_item_refused P rq aid item w :
  bindable w = false ->
  record_item P rq aid item w = (Raise OverflowError, w).
Proof.
  intro Hb. unfold record_item, bind. rewrite (flush_refused w Hb).
  reflexivity.
Qed.

Lemma new_rows_fit P rq aid items : forall existing,
  forallb (score_fits rq) items = true ->
  forallb (fun ai => bindable_opt (AuditItem.score ai))
          (new_rows P rq aid items existing) = true.
Proof.
  induction items as [|i r IH]; intros e H; [reflexivity|].
  cbn [forallb new_rows] in *. apply andb_true_iff in H. destruct H as [Hi Hr].
  apply andb_true_iff. split; [exact Hi | apply IH; exact Hr].
Qed.

Lemma accepted_read_fit P rq aid items :
  forallb (item_accepted P rq aid) items = true ->
  forallb (item_read P rq aid) items = true
  /\ forallb (score_fits rq) items = true.
Proof.
  induction items as [|i r IH]; intro H; [split; reflexivity|].
  cbn [forallb] in *. apply andb_true_iff in H. destruct H as [Hi Hr].
  unfold item_accepted in Hi. apply andb_true_iff in Hi.
  destruct Hi as [H1 H2]. destruct (IH Hr) as [H3 H4].
  rewrite H1, H2, H3, H4. split; reflexivity.
Qed.

(** The loop over accepted items: every row joins the session. *)
Lemma new_audit_loop P rq aid items : forall w rows,
  holds_unsent w rows ->
  forallb (fun ai => bindable_opt (AuditItem.score ai)) rows = true ->
  forallb (item_accepted P rq aid) items = true ->
  exists fs,
    for_each items (record_item P rq aid) w
    = (Return tt,
       {| site := site (set_uploads fs w);
          session :=
            with_audit_items
              (audit_items (session w) ++
               new_rows P rq aid items (audit_items (session w)))%list
              (session w) |}).
Proof.
  induction items as [|item r IH]; intros w rows Hu Hf Hall.
  - exists (uploads (site w)). simpl. unfold ret. rewrite app_nil_r.
    destruct w as [[t u f] [c ci a ais]]. reflexivity.
  - cbn [for_each forallb] in *. apply andb_true_iff in Hall.
    destruct Hall as [Hacc Hall]. unfold item_accepted in Hacc.
    apply andb_true_iff in Hacc. destruct Hacc as [Hread Hfit].
    assert (Hb : bindable w = true)
      by (rewrite (bindable_unsent w rows Hu); exact Hf).
    unfold bind.
    destruct (record_item_run P rq aid item w Hb)
      as [(_ & fs & Hrun) | (Hbad & _)]; [|congruence].
    rewrite Hrun.
    match goal with
    | |- context [for_each r _ ?w1] =>
        destruct (IH w1 (rows ++ [new_row P rq aid item
                                    (next_id (map AuditItem.id
                                                  (audit_items (session w))))])%list)
          as (fs2 & Hr)
    end.
    + apply holds_unsent_stored. exact Hu.
    + rewrite forallb_app, Hf. cbn [forallb new_row AuditItem.score].
      unfold score_fits in Hfit. rewrite Hfit. reflexivity.
    + exact Hall.
    + rewrite Hr. exists fs2. simpl.
      unfold with_audit_items. simpl. rewrite <- app_assoc. reflexivity.
Qed.

(** What the session has still to send after the loop. *)
Lemma new_audit_loop_unsent P rq aid items w rows fs :
  holds_unsent w rows ->
  holds_unsent
    {| site := site (set_uploads fs w);
       session :=
         with_audit_items
           (audit_items (session w) ++
            new_rows P rq aid items (audit_items (session w)))%list
           (session w) |}
    (rows ++ new_rows P rq aid items (audit_items (session w))).
Proof.
  intros [Hc Ha]. split; cbn; [exact Hc | rewrite Ha, app_assoc; reflexivity].
Qed.

(** Once a row that the driver cannot bind is in the session, the loop and
    the commit after it stop at the next flush. *)
Lemma loop_refused P rq aid items w :
  bindable w = false ->
  match for_each items (record_item P rq aid) w with
  | (Return _, w') => commit w'
  | (Raise e, w') => (Raise e, w')
  end = (Raise OverflowError, w).
Proof.
  intro Hb. destruct items as [|x r]; cbn [for_each].
  - unfold ret. apply commit_refused. exact Hb.
  - unfold bind. rewrite (record_item_refused P rq aid x w Hb). reflexivity.
Qed.

(** The loop and the commit after it, when an item is not accepted: the
    request stops with status 500 and the tables are as before the loop. *)
Lemma new_audit_loop_fails P rq aid items : forall w rows,
  holds_unsent w rows ->
  forallb (fun ai => bindable_opt (AuditItem.score ai)) rows = true ->
  forallb (item_accepted P rq aid) items = false ->
  exists e fs se,
    match for_each items (record_item P rq aid) w with
    | (Return _, w') => commit w'
    | (Raise e, w') => (Raise e, w')
    end = (Raise e, {| site := site (set_uploads fs w); session := se |})
    /\ status_of e = 500.
Proof.
  induction items as [|item r IH]; intros w rows Hu Hf Hall;
    [discriminate|].
  cbn [for_each forallb] in *.
  assert (Hb : bindable w = true)
    by (rewrite (bindable_unsent w rows Hu); exact Hf).
  unfold bind at 1.
  destruct (record_item_run P rq aid item w Hb)
    as [(Hread & fs & Hrun) | (Hbad & e & fs & Hrun & He)]; rewrite Hrun.
  - set (row := new_row P rq aid item
                  (next_id (map AuditItem.id (audit_items (session w))))) in *.
    pose proof (holds_unsent_stored w rows fs row Hu) as Hu1.
    destruct (score_fits rq item) eqn:Hfit.
    + unfold item_accepted in Hall. rewrite Hread, Hfit in Hall.
      cbn [andb] in Hall.
      destruct (IH _ (rows ++ [row])%list Hu1) as (e & fs2 & se & Hr & He).
      * rewrite forallb_app, Hf. cbn [forallb]. subst row.
        cbn [new_row AuditItem.score]. unfold score_fits in Hfit.
        rewrite Hfit. reflexivity.
      * exact Hall.
      * exists e, fs2, se. split; [exact Hr | exact He].
    + rewrite loop_refused.
      * exists OverflowError, fs. eexists. split; reflexivity.
      * rewrite (bindable_unsent _ _ Hu1), forallb_app, Hf. cbn [forallb].
        subst row. cbn [new_row AuditItem.score]. unfold score_fits in Hfit.
        rewrite Hfit. reflexivity.
  - exists e, fs, (session w). split; [reflexivity | exact He].
Qed.

(** A posted audit whose three header fields are present and whose date
    parses: the header is committed; then either every item is accepted and
    all the rows are committed together, or the request ends with status 500
    and no row of the audit is stored. *)
Lemma new_audit_post P rq s vendor raw_date dt area :
  method rq = POST ->
  lookup "vendor" (form rq) = Some vendor ->
  lookup "audit_date" (form rq) = Some raw_date ->
  fromisoformat P raw_date = Some dt ->
  lookup "audit_area" (form rq) = Some area ->
  let a := new_audit_row P (tables s) vendor dt area in
  let d1 := with_audits (audits (tables s) ++ [a])%list (tables s) in
  let items := checklist_items_by_id (tables s) in
  exists fs,
    serve (new_audit P rq) s =
      if forallb (item_accepted P rq (Audit.id a)) items
      then (Redirect "/audits",
            {| tables :=
                 with_audit_items
                   (audit_items (tables s) ++
                    new_rows P rq (Audit.id a) items (audit_items (tables s)))%list
                   d1;
               uploads := fs;
               flashes := (flashes s ++ ["Audit created successfully!"])%list |})
      else (Status 500,
            {| tables := d1; uploads := fs; flashes := flashes s |}).
Proof.
  intros Hm Hv Hd Hp Ha a d1 items. subst a d1 items.
  unfold serve, new_audit.
  unfold bind at 1. unfold query at 1. unfold bind at 1. unfold query at 1.
  simpl session. rewrite Hm.
  unfold form_item. rewrite Hv. cbn [of_option]. rewrite bind_ret_l.
  rewrite Hd. cbn [of_option]. rewrite bind_ret_l.
  rewrite Hp. cbn [of_option]. rewrite bind_ret_l.
  rewrite Ha. cbn [of_option]. rewrite bind_ret_l.
  unfold bind at 1. unfold add_audit.
  unfold bind at 1. unfold query at 1. simpl session.
  unfold bind at 1. unfold session_update at 1. simpl session.
  unfold ret at 1.
  unfold bind at 1.
  rewrite commit_run by (apply bindable_no_new; apply Nat.le_refl).
  cbn [session site uploads flashes].
  unfold bind at 1.
  change (Audit.id (new_audit_row P (tables s) vendor dt area))
    with (next_id (map Audit.id (audits (tables s)))).
  set (aid := next_id (map Audit.id (audits (tables s)))).
  match goal with
  | |- context [for_each ?l ?b ?w1] => set (w0 := w1)
  end.
  assert (Hu : holds_unsent w0 [])
    by (split; cbn; [reflexivity | rewrite app_nil_r; reflexivity]).
  destruct (forallb (item_accepted P rq aid) (checklist_items_by_id (tables s)))
    eqn:Hall.
  - destruct (new_audit_loop P rq aid _ w0 [] Hu eq_refl Hall) as (fs & Hr).
    rewrite Hr. exists fs. unfold bind at 1.
    rewrite commit_run.
    + reflexivity.
    + rewrite (bindable_grown _ _ []
                 (new_rows P rq aid (checklist_items_by_id (tables s))
                    (audit_items (tables s))));
        [|cbn; rewrite app_nil_r; reflexivity | reflexivity].
      apply (new_rows_fit P rq aid), (accepted_read_fit P rq aid), Hall.
  - destruct (new_audit_loop_fails P rq aid _ w0 [] Hu eq_refl Hall)
      as (e & fs & se & Hr & He).
    exists fs. revert Hr. destruct (for_each _ _ w0) as [[u|e1] w1]; intro Hr.
    + unfold bind at 1. rewrite Hr. cbn. rewrite He. reflexivity.
    + injection Hr as -> ->. cbn. rewrite He. reflexivity.
Qed.

Lemma pure_item_category_name i : pure_in (item_category_name i).
Proof.
  unfold item_category_name.
  apply pure_bind; [apply pure_query|]; intro c. apply pure_attr.
Qed.

(** A request for the form of a new audit leaves the tables as they are. *)
Lemma new_audit_get P rq s :
  method rq = GET -> tables (snd (serve (new_audit P rq) s)) = tables s.
Proof.
  intro Hm. unfold serve, new_audit. rewrite Hm.
  unfold bind at 1. unfold query at 1. unfold bind at 1. unfold query at 1.
  unfold bind at 1.
  rewrite (pure_run (for_map _ _) _).
  - destruct (fst _); reflexivity.
  - apply pure_for_map. intro i.
    apply pure_bind; [apply pure_item_category_name|]; intro c. apply pure_ret.
Qed.

(** A posted audit that lacks a header field, or whose date does not parse,
    stores nothing. *)
Lemma new_audit_post_rejected P rq s :
  method rq = POST ->
  lookup "vendor" (form rq) = None
  \/ lookup "audit_date" (form rq) = None
  \/ (exists raw, lookup "audit_date" (form rq) = Some raw
                  /\ fromisoformat P raw = None)
  \/ lookup "audit_area" (form rq) = None ->
  exists code, serve (new_audit P rq) s = (Status code, s).
Proof.
  intros Hm H. unfold serve, new_audit.
  unfold bind at 1. unfold query at 1. unfold bind at 1. unfold query at 1.
  simpl session. rewrite Hm. unfold form_item.
  destruct (lookup "vendor" (form rq)) as [v|] eqn:Hv;
    [|eexists; reflexivity].
  cbn [of_option]. rewrite bind_ret_l.
  destruct (lookup "audit_date" (form rq)) as [rd|] eqn:Hd;
    [|eexists; reflexivity].
  cbn [of_option]. rewrite bind_ret_l.
  destruct (fromisoformat P rd) as [dt|] eqn:Hp;
    [|eexists; reflexivity].
  cbn [of_option]. rewrite bind_ret_l.
  destruct (lookup "audit_area" (form rq)) as [ar|] eqn:Ha;
    [|eexists; reflexivity].
  exfalso. destruct H as [H|[H|[(raw & H1 & H2)|H]]]; try discriminate.
  inversion H1; subst. congruence.
Qed.

(** C2, at a checklist of two items and a submitted score that is not a
    number: the request fails with status 500 after the header was
    committed, and the stored audit 1 has none of the two item rows. *)
Lemma new_audit_leaves_header_alone :
  fst (serve (new_audit sample_platform bad_score_request) (site_of safety_db))
  = Status 500
  /\ map Audit.id
       (audits (tables (snd (serve (new_audit sample_platform bad_score_request)
                               (site_of safety_db)))))
     = [1]
  /\ audit_items_of 1
       (tables (snd (serve (new_audit sample_platform bad_score_request)
                       (site_of safety_db))))
     = []
  /\ length (checklist_items
               (tables (snd (serve (new_audit sample_platform bad_score_request)
                               (site_of safety_db)))))
     = 2%nat.
Proof. repeat split. Qed.

(** C2, as the handler has it: the header row is committed on its own, the
    item rows are committed together afterwards.  After a request, either no
    table has changed, or the header row alone has been added and the
    request ended with status 500, or the header row and one item row per
    checklist item have been added and the request redirected. *)
Theorem new_audit_header_then_items (P : Platform) (rq : Request) (s : Site) :
  let r := fst (serve (new_audit P rq) s) in
  let s' := snd (serve (new_audit P rq) s) in
  tables s' = tables s
  \/ exists a,
       audits (tables s') = (audits (tables s) ++ [a])%list
       /\ categories (tables s') = categories (tables s)
       /\ checklist_items (tables s') = checklist_items (tables s)
       /\ ((r = Status 500 /\ audit_items (tables s') = audit_items (tables s))
           \/ (r = Redirect "/audits"
               /\ exists rows,
                    audit_items (tables s')
                    = (audit_items (tables s) ++ rows)%list
                    /\ map AuditItem.checklist_item_id rows
                       = map ChecklistItem.id (checklist_items_by_id (tables s))
                    /\ Forall (fun row => AuditItem.audit_id row = Audit.id a)
                              rows)).
Proof.
  intros r s'. subst r s'.
  destruct (method rq) eqn:Hm.
  { left. apply (new_audit_get P rq s Hm). }
  destruct (lookup "vendor" (form rq)) as [v|] eqn:Hv.
  2:{ left. destruct (new_audit_post_rejected P rq s Hm (or_introl Hv)) as (code & ->).
      reflexivity. }
  destruct (lookup "audit_date" (form rq)) as [rd|] eqn:Hd.
  2:{ left. destruct (new_audit_post_rejected P rq s Hm (or_intror (or_introl Hd))) as (code & ->).
      reflexivity. }
  destruct (fromisoformat P rd) as [dt|] eqn:Hp.
  2:{ left. destruct (new_audit_post_rejected P rq s Hm (or_intror (or_intror (or_introl
                           (ex_intro _ rd (conj Hd Hp)))))) as (code & ->).
      reflexivity. }
  destruct (lookup "audit_area" (form rq)) as [ar|] eqn:Ha.
  2:{ left. destruct (new_audit_post_rejected P rq s Hm (or_intror (or_intror (or_intror Ha)))) as (code & ->).
      reflexivity. }
  right. exists (new_audit_row P (tables s) v dt ar).
  destruct (new_audit_post P rq s v rd dt ar Hm Hv Hd Hp Ha) as (fs & Hrun).
  rewrite Hrun.
  destruct (forallb _ _); cbn [fst snd tables].
  - repeat split. right. split; [reflexivity|].
    eexists. split; [reflexivity|]. split; [apply new_rows_items|].
    apply new_rows_audit_id.
  - repeat split. left. split; reflexivity.
Qed.

(** C5: for a posted audit whose vendor, date and area are present and
    whose date parses, over tables whose checklist items have distinct
    identifiers: when every submitted score is a number that fits in a
    64-bit integer and every photo can be written, the request succeeds; and
    when it succeeds, it has added
    exactly one audit item row per checklist item, the rows reference
    pairwise distinct checklist items, every checklist item is referenced,
    every row belongs to the new audit, and the row of an item whose score
    is absent or empty has a null score. *)
Theorem new_audit_one_row_per_item (P : Platform) (rq : Request) (s : Site)
  (vendor raw_date area : string) (dt : date) :
  method rq = POST ->
  lookup "vendor" (form rq) = Some vendor ->
  lookup "audit_date" (form rq) = Some raw_date ->
  fromisoformat P raw_date = Some dt ->
  lookup "audit_area" (form rq) = Some area ->
  NoDup (map ChecklistItem.id (checklist_items (tables s))) ->
  let a := new_audit_row P (tables s) vendor dt area in
  let items := checklist_items_by_id (tables s) in
  (forallb (item_accepted P rq (Audit.id a)) items = true ->
     fst (serve (new_audit P rq) s) = Redirect "/audits")
  /\ (fst (serve (new_audit P rq) s) = Redirect "/audits" ->
      exists rows,
        audit_items (tables (snd (serve (new_audit P rq) s)))
        = (audit_items (tables s) ++ rows)%list
        /\ audits (tables (snd (serve (new_audit P rq) s)))
           = (audits (tables s) ++ [a])%list
        /\ length rows = length (checklist_items (tables s))
        /\ NoDup (map AuditItem.checklist_item_id rows)
        /\ (forall item, In item (checklist_items (tables s)) ->
              In (ChecklistItem.id item)
                 (map AuditItem.checklist_item_id rows))
        /\ Forall2 (fun item row =>
                      AuditItem.audit_id row = Audit.id a
                      /\ AuditItem.checklist_item_id row = ChecklistItem.id item
                      /\ (form_get rq ("score_" ++ item_key item) = None
                          \/ form_get rq ("score_" ++ item_key item) = Some ""
                          -> AuditItem.score row = None))
                   items rows).
Proof.
  intros Hm Hv Hd Hp Ha Hnd a items.
  destruct (new_audit_post P rq s vendor raw_date dt area Hm Hv Hd Hp Ha)
    as (fs & Hrun).
  fold a items in Hrun. rewrite Hrun.
  destruct (forallb (item_accepted P rq (Audit.id a)) items);
    cbn [fst snd tables]; split; try discriminate; try reflexivity.
  intros _. eexists. split; [reflexivity|].
  assert (Hperm : Permutation (map ChecklistItem.id items)
                              (map ChecklistItem.id (checklist_items (tables s)))).
  { apply Permutation_map. apply order_by_perm. }
  split; [reflexivity|]. split; [|split; [|split]].
  - rewrite new_rows_length. apply order_by_length.
  - rewrite new_rows_items.
    eapply Permutation_NoDup; [apply Permutation_sym, Hperm | exact Hnd].
  - intros item Hin. rewrite new_rows_items.
    eapply Permutation_in; [apply Permutation_sym, Hperm|].
    apply in_map. exact Hin.
  - pose proof (new_rows_fields P rq (Audit.id a) items (audit_items (tables s)))
      as HF.
    eapply Forall2_impl; [|exact HF].
    intros item row (H1 & H2 & H3 & _). repeat split; auto.
    intros [Hs|Hs]; rewrite H3; unfold submitted_score; rewrite Hs; reflexivity.
Qed.

Lemma new_audit_one_row_per_item_witness :
  fst (serve (new_audit sample_platform partial_score_request)
             (site_of safety_db)) = Redirect "/audits"
  /\ map (fun row => (AuditItem.checklist_item_id row, AuditItem.score row))
         (audit_items
            (tables (snd (serve (new_audit sample_platform partial_score_request)
                            (site_of safety_db)))))
     = [(1, Some 2); (2, None)].
Proof.
  pose proof (new_audit_one_row_per_item sample_platform partial_score_request
                (site_of safety_db) "Acme" "2024-05-06" "Line 1"
                {| year := 2024; month := 5; day := 6 |}
                eq_refl eq_refl eq_refl eq_refl eq_refl) as H.
  cbv zeta in H.
  assert (Hnd : NoDup (map ChecklistItem.id
                           (checklist_items (tables (site_of safety_db))))).
  { simpl. repeat constructor; simpl; intuition discriminate. }
  destruct (H Hnd) as [Hok _].
  split; [apply Hok; reflexivity | reflexivity].
Defined.

(** ** The percentages of the audits page *)

Lemma category_name_of_run ai w :
  category_name_of ai w
  = (match category_name_in (session w) ai with
     | Some c => Return c
     | None => Raise AttributeError
     end, w).
Proof.
  unfold category_name_of, category_name_in, bind, query, attr, ret, raise.
  destruct (get_checklist_item _ _) as [ci|]; [|reflexivity].
  destruct (get_category _ _); reflexivity.
Qed.

Lemma tally_loop_run items : forall st w,
  for_fold items st
    (fun st ai => cat <- category_name_of ai ;;
                  ret (tally_item cat (AuditItem.score ai) st)) w
  = (match tally_items (session w) items st with
     | Some st' => Return st'
     | None => Raise AttributeError
     end, w).
Proof.
  induction items as [|ai r IH]; intros st w; simpl; [reflexivity|].
  unfold bind at 1 2. rewrite category_name_of_run.
  destruct (category_name_in (session w) ai) as [c|]; [|reflexivity].
  unfold ret at 1. apply IH.
Qed.

Lemma audit_entry_of_run a w :
  audit_entry_of a w
  = (match tally_items (session w) (audit_items_of (Audit.id a) (session w))
             {| category_scores := []; total_score := 0; total_items := 0 |}
     with
     | Some st =>
         Return
           {| entry_audit := a;
              entry_categories :=
                map (fun kv => (fst kv,
                                percent (sum (snd kv)) (count (snd kv))))
                    (category_scores st);
              entry_total := percent (total_score st) (total_items st) |}
     | None => Raise AttributeError
     end, w).
Proof.
  unfold audit_entry_of. unfold bind at 1. unfold query at 1.
  unfold bind at 1. rewrite tally_loop_run.
  destruct (tally_items _ _ _); [|reflexivity].
  apply entry_of_tally_run.
Qed.

(** *** The dictionary *)

Lemma dict_has_get k d :
  dict_has k d = match dict_get k d with Some _ => true | None => false end.
Proof.
  unfold dict_has, dict_get.
  induction d as [|[k' v] r IH]; simpl; [reflexivity|].
  destruct (String.eqb k' k); simpl; [reflexivity | exact IH].
Qed.

Lemma dict_get_add k c v d :
  dict_get c d = None ->
  dict_get k (dict_add c v d)
  = if String.eqb c k then Some v else dict_get k d.
Proof.
  unfold dict_get, dict_add. intro Hc. rewrite find_app_or. simpl.
  destruct (find (fun kv => String.eqb (fst kv) k) d) as [p|] eqn:Hk.
  - destruct (String.eqb_spec c k) as [->|Hne]; [|reflexivity].
    rewrite Hk in Hc. discriminate.
  - destruct (String.eqb c k); reflexivity.
Qed.

Lemma dict_get_modify k c f d :
  dict_get k (dict_modify c f d)
  = if String.eqb c k then option_map f (dict_get k d) else dict_get k d.
Proof.
  unfold dict_get, dict_modify.
  induction d as [|[k' v] r IH]; simpl.
  - destruct (String.eqb c k); reflexivity.
  - destruct (String.eqb_spec k' c) as [->|Hkc]; simpl.
    + destruct (String.eqb_spec c k) as [->|Hck]; simpl; [reflexivity|].
      rewrite IH. destruct (String.eqb_spec c k); [contradiction|reflexivity].
    + destruct (String.eqb_spec k' k) as [->|Hkk]; simpl.
      * destruct (String.eqb_spec c k); [congruence | reflexivity].
      * exact IH.
Qed.

Lemma dict_modify_keys c f d : map fst (dict_modify c f d) = map fst d.
Proof.
  unfold dict_modify. induction d as [|[k v] r IH]; simpl; [reflexivity|].
  rewrite IH. destruct (String.eqb k c); reflexivity.
Qed.

Lemma dict_get_In k t d :
  NoDup (map fst d) -> In (k, t) d -> dict_get k d = Some t.
Proof.
  unfold dict_get. induction d as [|[k' v] r IH]; simpl; intros Hnd Hin.
  - contradiction.
  - inversion Hnd as [|x xs Hnotin Hnd']; subst.
    destruct Hin as [Heq|Hin].
    + inversion Heq; subst. rewrite String.eqb_refl. reflexivity.
    + destruct (String.eqb_spec k' k) as [->|Hne].
      * exfalso. apply Hnotin. change k with (fst (k, t)).
        apply in_map. exact Hin.
      * apply IH; assumption.
Qed.

Lemma dict_get_None_keys k d : dict_get k d = None -> ~ In k (map fst d).
Proof.
  unfold dict_get. induction d as [|[k' v] r IH]; simpl; intros H Hin.
  - exact Hin.
  - destruct (String.eqb_spec k' k) as [->|Hne]; [discriminate|].
    destruct Hin as [Heq|Hin]; [contradiction | exact (IH H Hin)].
Qed.

(** *** The invariant of the loop *)

Lemma score_sum_app l x :
  score_sum (l ++ [x])%list = score_sum l + score_or_zero x.
Proof.
  unfold score_sum. induction l as [|y r IH]; simpl; [|rewrite IH]; lia.
Qed.

Lemma scores_in_snoc d k done ai c :
  category_name_in d ai = Some c ->
  scores_in d k (done ++ [ai])%list
  = (scores_in d k done
     ++ (if String.eqb c k then [AuditItem.score ai] else []))%list.
Proof.
  intro Hc. unfold scores_in. rewrite filter_app, map_app. f_equal.
  simpl. unfold in_category. rewrite Hc.
  destruct (String.eqb c k); reflexivity.
Qed.

Lemma tally_of_snoc l x :
  tally_of (l ++ [x])%list
  = Some match tally_of l with
         | Some t => {| sum := sum t + score_or_zero x; count := count t + 1 |}
         | None => {| sum := 0 + score_or_zero x; count := 0 + 1 |}
         end.
Proof.
  destruct l as [|y r].
  { simpl. unfold score_sum. simpl. do 2 f_equal. lia. }
  change (tally_of ((y :: r) ++ [x])%list)
    with (Some {| sum := score_sum ((y :: r) ++ [x])%list;
                  count := Z.of_nat (length ((y :: r) ++ [x])%list) |}).
  rewrite score_sum_app, length_app. cbn [tally_of sum count].
  do 2 f_equal. simpl length. lia.
Qed.

Lemma tally_inv_init d :
  tally_inv d [] {| category_scores := []; total_score := 0; total_items := 0 |}.
Proof. repeat split. constructor. Qed.

Lemma tally_inv_step d done st ai c :
  category_name_in d ai = Some c ->
  tally_inv d done st ->
  tally_inv d (done ++ [ai])%list (tally_item c (AuditItem.score ai) st).
Proof.
  intros Hc (Hnd & Hget & Hsum & Hcnt).
  set (cs1 := if dict_has c (category_scores st) then category_scores st
              else dict_add c {| sum := 0; count := 0 |} (category_scores st)).
  assert (Hnd1 : NoDup (map fst cs1)).
  { subst cs1. rewrite dict_has_get.
    destruct (dict_get c (category_scores st)) eqn:Hg; [exact Hnd|].
    unfold dict_add. rewrite map_app. simpl.
    eapply Permutation_NoDup; [apply Permutation_cons_append|].
    constructor; [apply dict_get_None_keys; exact Hg | exact Hnd]. }
  assert (Hget1 : forall k,
             dict_get k cs1
             = if String.eqb c k
               then Some match tally_of (scores_in d k done) with
                         | Some t => t
                         | None => {| sum := 0; count := 0 |}
                         end
               else tally_of (scores_in d k done)).
  { intro k. subst cs1. rewrite dict_has_get.
    destruct (dict_get c (category_scores st)) as [t|] eqn:Hg.
    - rewrite Hget. destruct (String.eqb_spec c k) as [<-|_]; [|reflexivity].
      rewrite <- Hget, Hg. reflexivity.
    - rewrite (dict_get_add k c _ _ Hg).
      destruct (String.eqb_spec c k) as [<-|_]; [|apply Hget].
      rewrite <- Hget, Hg. reflexivity. }
  unfold tally_inv, tally_item. fold cs1. cbn [category_scores total_score total_items].
  split; [|split; [|split]].
  - rewrite dict_modify_keys.
    destruct (AuditItem.score ai); [rewrite dict_modify_keys|]; exact Hnd1.
  - intro k. rewrite (scores_in_snoc d k done ai c Hc).
    rewrite dict_get_modify.
    assert (Hget2 : dict_get k
               match AuditItem.score ai with
               | Some s0 =>
                   dict_modify c
                     (fun t => {| sum := sum t + s0; count := count t |}) cs1
               | None => cs1
               end
             = if String.eqb c k
               then option_map
                      (fun t => {| sum := sum t + score_or_zero (AuditItem.score ai);
                                   count := count t |})
                      (dict_get k cs1)
               else dict_get k cs1).
    { destruct (AuditItem.score ai) as [v|]; simpl.
      - apply dict_get_modify.
      - destruct (String.eqb c k); [|reflexivity].
        destruct (dict_get k cs1) as [[sm ct]|]; simpl; [|reflexivity].
        do 2 f_equal. lia. }
    rewrite Hget2, Hget1.
    destruct (String.eqb c k).
    + rewrite tally_of_snoc. simpl.
      destruct (tally_of (scores_in d k done)); reflexivity.
    + rewrite app_nil_r. reflexivity.
  - rewrite map_app. cbn [map]. rewrite score_sum_app, <- Hsum.
    destruct (AuditItem.score ai); simpl; lia.
  - rewrite length_app, Hcnt. simpl. lia.
Qed.

Lemma tally_items_inv d items : forall done st st',
  tally_inv d done st ->
  tally_items d items st = Some st' ->
  tally_inv d (done ++ items)%list st'.
Proof.
  induction items as [|ai r IH]; simpl; intros done st st' Hinv H.
  - inversion H; subst. rewrite app_nil_r. exact Hinv.
  - destruct (category_name_in d ai) as [c|] eqn:Hc; [|discriminate].
    replace (done ++ ai :: r)%list with ((done ++ [ai]) ++ r)%list
      by (rewrite <- app_assoc; reflexivity).
    eapply IH; [|exact H]. apply tally_inv_step; assumption.
Qed.

Lemma tally_items_total d items : forall st,
  (forall ai, In ai items -> category_name_in d ai <> None) ->
  exists st', tally_items d items st = Some st'.
Proof.
  induction items as [|ai r IH]; simpl; intros st H.
  - eexists; reflexivity.
  - destruct (category_name_in d ai) as [c|] eqn:Hc.
    + apply IH. intros x Hx. apply H. auto.
    + exfalso. apply (H ai); auto.
Qed.

Lemma percentage_spec l :
  percent (score_sum l) (Z.of_nat (length l)) = spec_percentage l.
Proof.
  unfold percent, spec_percentage. destruct l as [|x r]; [reflexivity|].
  destruct (Z.eqb_spec (Z.of_nat (length (x :: r))) 0) as [H|_].
  - simpl length in H. lia.
  - reflexivity.
Qed.

Lemma for_map_total {A B} (body : A -> M B) l w :
  (forall x, In x l -> exists y, body x w = (Return y, w)) ->
  exists ys, for_map l body w = (Return ys, w).
Proof.
  induction l as [|x r IH]; simpl; intro H.
  - eexists; reflexivity.
  - destruct (H x (or_introl eq_refl)) as (y & Hy).
    destruct IH as (ys & Hys); [intros z Hz; apply H; auto|].
    exists (y :: ys). unfold bind. rewrite Hy, Hys. reflexivity.
Qed.

(** The audits page is produced whenever every audit item reaches a
    category through its checklist item. *)
Lemma audits_list_total s :
  (forall ai, In ai (audit_items (tables s)) ->
              category_name_in (tables s) ai <> None) ->
  exists entries,
    serve audits_list s = (Html (flashes s) (AuditsPage entries), shown s).
Proof.
  intro H. unfold serve, audits_list. unfold bind at 1. unfold query at 1.
  simpl session. unfold bind at 1.
  destruct (for_map_total audit_entry_of (audits_by_date_desc (tables s))
              {| site := s; session := tables s |}) as (ys & Hys).
  - intros a _. rewrite audit_entry_of_run. simpl session.
    destruct (tally_items_total (tables s)
                (audit_items_of (Audit.id a) (tables s))
                {| category_scores := []; total_score := 0; total_items := 0 |})
      as (st & Hst).
    + intros ai Hai. apply H. unfold audit_items_of in Hai.
      apply filter_In in Hai. tauto.
    + rewrite Hst. eexists; reflexivity.
  - exists ys. rewrite Hys. reflexivity.
Qed.

(** What an entry of the audits page holds. *)
Lemma audits_list_entry s s' msgs entries e :
  serve audits_list s = (Html msgs (AuditsPage entries), s') ->
  In e entries ->
  In (entry_audit e) (audits (tables s))
  /\ exists st,
       tally_inv (tables s)
         (audit_items_of (Audit.id (entry_audit e)) (tables s)) st
       /\ entry_categories e
          = map (fun kv => (fst kv, percent (sum (snd kv)) (count (snd kv))))
                (category_scores st)
       /\ entry_total e = percent (total_score st) (total_items st).
Proof.
  intros H Hin.
  pose proof (audits_list_entries s msgs entries s' H) as Hmap.
  revert H. unfold serve, audits_list. unfold bind at 1. unfold query at 1.
  simpl session. unfold bind at 1.
  set (w := {| site := s; session := tables s |}).
  pose proof (for_map_pure_Return audit_entry_of pure_audit_entry_of
                (audits_by_date_desc (tables s)) w) as Hfm.
  destruct (for_map (audits_by_date_desc (tables s)) audit_entry_of w)
    as [[ys|ex] w1]; simpl; intro H; [|discriminate].
  injection H as _ -> _. destruct (Hfm entries w1 eq_refl) as [_ HF].
  destruct (Forall2_In_r _ _ _ _ HF Hin) as (a & Ha & Hrun).
  rewrite audit_entry_of_run in Hrun. simpl in Hrun.
  destruct (tally_items (tables s) (audit_items_of (Audit.id a) (tables s)) _)
    as [st|] eqn:Hst; [|discriminate].
  inversion Hrun; subst e; clear Hrun. simpl.
  split.
  - unfold audits_by_date_desc in Ha. apply order_by_In in Ha. exact Ha.
  - exists st. split; [|split; reflexivity].
    apply (tally_items_inv (tables s) _ [] _ st (tally_inv_init _) Hst).
Qed.

(** C4: on the audits page, the percentage shown for a category is the
    specified percentage of the scores of the audit's items in that
    category (their sum, unscored counting for 0, over three times their
    number, times 100); the categories shown are those that have an item in
    the audit; the total is the specified percentage of all the scores of
    the audit.  The division raises [ZeroDivisionError] on a zero divisor,
    and the guard keeps it from one: whenever every audit item reaches a
    category the page is produced, with an entry for every audit, and an
    audit without items is shown with no category and the total 0; the
    guarded expression at a count of zero returns 0, which is also the
    specified percentage of no item; and a category scored 3, 0 and unscored
    is shown with (3+0+0)/(3*3)*100. *)
Theorem audits_list_percentages :
  (forall (s s' : Site) (msgs : list string) (entries : list audit_entry)
          (e : audit_entry),
      serve audits_list s = (Html msgs (AuditsPage entries), s') ->
      In e entries ->
      let items := audit_items_of (Audit.id (entry_audit e)) (tables s) in
      (forall cat pct, In (cat, pct) (entry_categories e) ->
         scores_in (tables s) cat items <> []
         /\ pct = spec_percentage (scores_in (tables s) cat items))
      /\ (forall cat, scores_in (tables s) cat items <> [] ->
            exists pct, In (cat, pct) (entry_categories e))
      /\ entry_total e = spec_percentage (map AuditItem.score items))
  /\ (forall s : Site,
        (forall ai, In ai (audit_items (tables s)) ->
                    category_name_in (tables s) ai <> None) ->
        exists entries,
          serve audits_list s = (Html (flashes s) (AuditsPage entries), shown s)
          /\ map entry_audit entries = audits_by_date_desc (tables s)
          /\ forall e, In e entries ->
               audit_items_of (Audit.id (entry_audit e)) (tables s) = [] ->
               entry_categories e = [] /\ entry_total e = 0%Q)
  /\ (forall sm w, percentage sm 0 w = (Return 0%Q, w))
  /\ spec_percentage [] = 0%Q
  /\ (exists pct,
        fst (serve audits_list (site_of three_item_db))
        = Html [] (AuditsPage
                  [ {| entry_audit := sample_audit;
                       entry_categories := [("Safety", pct)];
                       entry_total := pct |} ])
        /\ pct = (inject_Z (3 + 0 + 0) / inject_Z (3 * 3) * inject_Z 100)%Q
        /\ (pct == 100 # 3)%Q)
  /\ fst (serve audits_list (site_of empty_audit_db))
     = Html [] (AuditsPage
               [ {| entry_audit := sample_audit;
                    entry_categories := [];
                    entry_total := 0%Q |} ]).
Proof.
  split; [|split; [|split; [reflexivity | split;
                             [reflexivity | split; [|reflexivity]]]]].
  - intros s s' msgs entries e H Hin items.
    destruct (audits_list_entry s s' msgs entries e H Hin)
      as (_ & st & (Hnd & Hget & Hsum & Hcnt) & Hcats & Htot).
    fold items in Hget, Hsum, Hcnt.
    split; [|split].
    + intros cat pct Hp. rewrite Hcats in Hp.
      apply in_map_iff in Hp. destruct Hp as ([k t] & Heq & Hkt).
      simpl in Heq. inversion Heq; subst cat pct; clear Heq.
      pose proof (dict_get_In k t _ Hnd Hkt) as Hg.
      rewrite Hget in Hg.
      destruct (scores_in (tables s) k items) as [|x r] eqn:Hl;
        [discriminate|].
      split; [discriminate|].
      unfold tally_of in Hg. injection Hg as <-. cbn [sum count].
      exact (percentage_spec (x :: r)).
    + intros cat Hne.
      specialize (Hget cat).
      destruct (scores_in (tables s) cat items) as [|x r]; [contradiction|].
      unfold dict_get in Hget.
      destruct (find _ (category_scores st)) as [[k t]|] eqn:Hf;
        [|discriminate].
      apply find_some in Hf. destruct Hf as [Hkt Hk].
      simpl in Hk. apply String.eqb_eq in Hk. subst k.
      exists (percent (sum t) (count t)). rewrite Hcats.
      apply in_map_iff. exists (cat, t). split; [reflexivity | exact Hkt].
    + rewrite Htot, Hsum, Hcnt, <- (length_map AuditItem.score).
      apply percentage_spec.
  - intros s Hall. destruct (audits_list_total s Hall) as (entries & Hrun).
    exists entries. split; [exact Hrun|].
    split; [exact (audits_list_entries _ _ _ _ Hrun)|].
    intros e Hin Hnone.
    destruct (audits_list_entry _ _ _ _ e Hrun Hin)
      as (_ & st & (Hnd & Hget & Hsum & Hcnt) & Hcats & Htot).
    rewrite Hnone in Hget, Hsum, Hcnt. rewrite Hcats, Htot, Hsum, Hcnt.
    split; [|reflexivity].
    destruct (category_scores st) as [|[k t] r]; [reflexivity|].
    specialize (Hget k). unfold dict_get in Hget. cbn [find fst] in Hget.
    rewrite String.eqb_refl in Hget. discriminate.
  - eexists. split; [reflexivity|]. split; reflexivity.
Qed.

Lemma audits_list_percentages_witness :
  (500 # 6)%Q
  = spec_percentage
      (map AuditItem.score
         (audit_items_of 1 (tables (site_of (audited_db (Some 2) (Some 3))))))
  /\ exists entries,
       serve audits_list (site_of empty_audit_db)
       = (Html [] (AuditsPage entries), shown (site_of empty_audit_db))
       /\ map entry_audit entries = audits_by_date_desc empty_audit_db
       /\ forall e, In e entries ->
            audit_items_of (Audit.id (entry_audit e)) empty_audit_db = [] ->
            entry_categories e = [] /\ entry_total e = 0%Q.
Proof.
  split.
  2:{ apply (proj1 (proj2 audits_list_percentages) (site_of empty_audit_db)).
      intros ai []. }
  pose proof (proj1 audits_list_percentages
                (site_of (audited_db (Some 2) (Some 3)))
                (site_of (audited_db (Some 2) (Some 3))) []
                [ {| entry_audit := sample_audit;
                     entry_categories := [("Safety", (500 # 6)%Q)];
                     entry_total := (500 # 6)%Q |} ]
                {| entry_audit := sample_audit;
                   entry_categories := [("Safety", (500 # 6)%Q)];
                   entry_total := (500 # 6)%Q |}
                eq_refl (or_introl eq_refl)) as H.
  cbv zeta in H. exact (proj2 (proj2 H)).
Defined.

(** ** Stored photo names *)

Lemma int_char_facts c :
  int_char c = true ->
  prefix_char c = true
  /\ dot_or_underscore c = false
  /\ Ascii.eqb c "_" = false
  /\ Ascii.eqb c "." = false
  /\ Py.upper_char c = c.
Proof.
  destruct c as [[|] [|] [|] [|] [|] [|] [|] [|]]; intro H;
    vm_compute in H; try discriminate H; repeat split; reflexivity.
Qed.

Lemma prefix_char_facts c :
  prefix_char c = true ->
  Py.is_ascii c = true
  /\ Py.isspace c = false
  /\ filename_char c = true
  /\ Ascii.eqb c "/" = false
  /\ Ascii.eqb c "\" = false.
Proof.
  destruct c as [[|] [|] [|] [|] [|] [|] [|] [|]]; intro H;
    vm_compute in H; try discriminate H; repeat split; reflexivity.
Qed.

Lemma str_forall_app p s t :
  Py.str_forall p (s ++ t) = Py.str_forall p s && Py.str_forall p t.
Proof.
  induction s as [|c r IH]; simpl; [reflexivity|].
  rewrite IH, andb_assoc. reflexivity.
Qed.

Lemma str_forall_impl (p q : ascii -> bool) s :
  (forall c, p c = true -> q c = true) ->
  Py.str_forall p s = true -> Py.str_forall q s = true.
Proof.
  intro Hpq. induction s as [|c r IH]; simpl; [reflexivity|].
  intro H. apply andb_true_iff in H. destruct H as [Hc Hr].
  rewrite (Hpq c Hc), (IH Hr). reflexivity.
Qed.

Lemma append_assoc (s t u : string) : (s ++ t) ++ u = s ++ (t ++ u).
Proof. induction s as [|c r IH]; simpl; [|rewrite IH]; reflexivity. Qed.

(** *** Printed integers *)

Lemma string_of_uint_chars u :
  Py.str_forall Py.isdigit (NilEmpty.string_of_uint u) = true.
Proof. induction u; simpl; try reflexivity; exact IHu. Qed.

Lemma str_of_int_chars n : Py.str_forall int_char (Py.str_of_int n) = true.
Proof.
  assert (Hd : forall u, Py.str_forall int_char (NilZero.string_of_uint u) = true).
  { intro u. apply (str_forall_impl Py.isdigit).
    - intros c Hc. unfold int_char. rewrite Hc. reflexivity.
    - destruct u; try reflexivity; apply (string_of_uint_chars (_ u)). }
  unfold Py.str_of_int. destruct (Z.to_int n) as [u|u]; simpl.
  - apply Hd.
  - apply Hd.
Qed.

Lemma str_of_int_nonempty n : Py.str_of_int n <> "".
Proof.
  unfold Py.str_of_int.
  destruct (Z.to_int n) as [u|u]; simpl; [|discriminate].
  destruct u; discriminate.
Qed.

Lemma str_of_int_inj a b : Py.str_of_int a = Py.str_of_int b -> a = b.
Proof.
  assert (Hparse : forall n,
             NilZero.int_of_string (Py.str_of_int n) = Some (Z.to_int n)).
  { intro n. unfold Py.str_of_int. apply NilZero.isi.
    - destruct n; simpl; intro H; inversion H.
      exact (Unsigned.to_uint_nonnil _ H1).
    - destruct n; simpl; intro H; inversion H.
      exact (Unsigned.to_uint_nonnil _ H1). }
  intro H. apply DecimalZ.to_int_inj.
  pose proof (Hparse a) as Ha. rewrite H, Hparse in Ha.
  inversion Ha. reflexivity.
Qed.

(** *** How [secure_filename] treats the prefix *)

Lemma str_map_app f s t :
  Py.str_map f (s ++ t) = Py.str_map f s ++ Py.str_map f t.
Proof. induction s as [|c r IH]; simpl; [|rewrite IH]; reflexivity. Qed.

Lemma str_filter_app p s t :
  Py.str_filter p (s ++ t) = Py.str_filter p s ++ Py.str_filter p t.
Proof.
  induction s as [|c r IH]; simpl; [reflexivity|].
  destruct (p c); simpl; rewrite IH; reflexivity.
Qed.

Lemma str_filter_all p s :
  Py.str_forall p s = true -> Py.str_filter p s = s.
Proof.
  induction s as [|c r IH]; simpl; [reflexivity|]. intro H.
  apply andb_true_iff in H. destruct H as [Hc Hr].
  rewrite Hc, (IH Hr). reflexivity.
Qed.

Lemma replace_char_prefix old new p g :
  Py.str_forall (fun c => negb (Ascii.eqb c old)) p = true ->
  Py.replace_char old new (p ++ g) = p ++ Py.replace_char old new g.
Proof.
  unfold Py.replace_char. intro H. rewrite str_map_app. f_equal.
  induction p as [|c r IH]; simpl in *; [reflexivity|].
  apply andb_true_iff in H. destruct H as [Hc Hr].
  apply negb_true_iff in Hc. rewrite Hc, (IH Hr). reflexivity.
Qed.

Lemma replace_seps_prefix o p g :
  Py.str_forall prefix_char p = true ->
  fold_left (fun n sep => Py.replace_char sep " "%char n) (os_seps o) (p ++ g)
  = p ++ fold_left (fun n sep => Py.replace_char sep " "%char n) (os_seps o) g.
Proof.
  intro H.
  assert (Hs : Py.str_forall (fun c => negb (Ascii.eqb c "/")) p = true).
  { apply (str_forall_impl prefix_char); [|exact H]. intros c Hc.
    destruct (prefix_char_facts c Hc) as (_ & _ & _ & -> & _). reflexivity. }
  assert (Hb : Py.str_forall (fun c => negb (Ascii.eqb c "\")) p = true).
  { apply (str_forall_impl prefix_char); [|exact H]. intros c Hc.
    destruct (prefix_char_facts c Hc) as (_ & _ & _ & _ & ->). reflexivity. }
  destruct o; simpl.
  - apply replace_char_prefix; exact Hs.
  - rewrite (replace_char_prefix _ _ p g Hb). apply replace_char_prefix; exact Hs.
Qed.

Lemma nfkd_prefix (P : Platform) p g :
  (forall c s, Py.is_ascii c = true ->
               nfkd_ascii P (String c s) = String c (nfkd_ascii P s)) ->
  Py.str_forall prefix_char p = true ->
  nfkd_ascii P (p ++ g) = p ++ nfkd_ascii P g.
Proof.
  intros Hn. induction p as [|c r IH]; simpl; intro H; [reflexivity|].
  apply andb_true_iff in H. destruct H as [Hc Hr].
  destruct (prefix_char_facts c Hc) as (Ha & _).
  rewrite (Hn c _ Ha), (IH Hr). reflexivity.
Qed.

Lemma split_aux_prefix p g :
  Py.str_forall prefix_char p = true ->
  Py.split_aux (p ++ g)
  = (p ++ fst (Py.split_aux g), snd (Py.split_aux g)).
Proof.
  induction p as [|c r IH]; simpl; intro H.
  - destruct (Py.split_aux g); reflexivity.
  - apply andb_true_iff in H. destruct H as [Hc Hr].
    destruct (prefix_char_facts c Hc) as (_ & Hsp & _).
    rewrite (IH Hr), Hsp. reflexivity.
Qed.

(** Splitting at whitespace and joining with underscores keeps a non-empty
    prefix that has no whitespace. *)
Lemma join_split_prefix c p g :
  Py.str_forall prefix_char (String c p) = true ->
  exists u, Py.join "_" (Py.split (String c p ++ g)) = String c p ++ u.
Proof.
  intro H. unfold Py.split. rewrite (split_aux_prefix _ g H).
  destruct (Py.split_aux g) as [w ws]. cbn [fst snd].
  change (String c p ++ w) with (String c (p ++ w)). cbn [Py.cons_word].
  destruct ws as [|w' ws'].
  - exists w. reflexivity.
  - exists (w ++ "_" ++ Py.join "_" (w' :: ws')).
    cbn [Py.join]. change (String c (p ++ w)) with (String c p ++ w).
    apply append_assoc.
Qed.

(** *** Stripping dots and underscores *)

Lemma rstrip_cons_keep p c r :
  p c = false \/ Py.rstrip p r <> "" ->
  Py.rstrip p (String c r) = String c (Py.rstrip p r).
Proof.
  intro H. simpl. destruct (Py.rstrip p r) as [|d r'].
  - destruct H as [->|H]; [reflexivity | contradiction].
  - reflexivity.
Qed.

Lemma rstrip_prefix p q r :
  Py.str_forall (fun c => negb (p c)) q = true ->
  Py.rstrip p (q ++ r) = q ++ Py.rstrip p r.
Proof.
  induction q as [|c q' IH]; intro H; [reflexivity|].
  simpl in H. apply andb_true_iff in H. destruct H as [Hc Hq].
  apply negb_true_iff in Hc.
  change (String c q' ++ r) with (String c (q' ++ r)).
  rewrite rstrip_cons_keep; [|left; exact Hc].
  rewrite (IH Hq). reflexivity.
Qed.

Lemma rstrip_headed p c r : headed c (Py.rstrip p (String c r)).
Proof.
  simpl. destruct (Py.rstrip p r) as [|d r'].
  - destruct (p c); [left; reflexivity | right; eexists; reflexivity].
  - right. eexists; reflexivity.
Qed.

Lemma lstrip_keep p c r : p c = false -> Py.lstrip p (String c r) = String c r.
Proof. intro H. simpl. rewrite H. reflexivity. Qed.

Lemma not_device c r :
  int_char c = true ->
  existsb (String.eqb (String c r)) windows_device_files = false.
Proof.
  destruct c as [[|] [|] [|] [|] [|] [|] [|] [|]]; intro H;
    vm_compute in H; try discriminate H; reflexivity.
Qed.

(** The stored name starts with the two identifiers, separated by an
    underscore; what follows is empty or starts with an underscore. *)
Lemma stored_photo_name_shape P a i f :
  nfkd_keeps_ascii P ->
  exists t,
    stored_photo_name P a i f
    = Py.str_of_int a ++ "_" ++ Py.str_of_int i ++ t
    /\ headed "_" t.
Proof.
  intro Hn. unfold stored_photo_name, photo_name.
  pose proof (str_of_int_chars a) as HX. pose proof (str_of_int_chars i) as HY.
  pose proof (str_of_int_nonempty a) as HXne.
  pose proof (str_of_int_nonempty i) as HYne.
  set (X := Py.str_of_int a) in *. set (Y := Py.str_of_int i) in *.
  assert (Hraw : X ++ "_" ++ Y ++ "_" ++ f = (X ++ "_" ++ Y ++ "_") ++ f).
  { rewrite !append_assoc. reflexivity. }
  rewrite Hraw. clear Hraw.
  assert (Hint : forall s, Py.str_forall int_char s = true ->
                           Py.str_forall prefix_char s = true).
  { intros s0 H0. apply (str_forall_impl int_char); [|exact H0].
    intros c Hc. apply (int_char_facts c Hc). }
  assert (Hp : Py.str_forall prefix_char (X ++ "_" ++ Y ++ "_") = true).
  { rewrite !str_forall_app, (Hint X HX), (Hint Y HY). reflexivity. }
  destruct X as [|x0 X'] eqn:EX; [contradiction|]. rewrite <- EX in *.
  assert (Hx0 : int_char x0 = true).
  { rewrite EX in HX. simpl in HX. apply andb_true_iff in HX. tauto. }
  unfold secure_filename.
  rewrite (nfkd_prefix P _ f Hn Hp).
  rewrite (replace_seps_prefix (os_name P) _ _ Hp).
  set (g := fold_left _ (os_seps (os_name P)) (nfkd_ascii P f)).
  assert (Hj : exists u, Py.join "_" (Py.split ((X ++ "_" ++ Y ++ "_") ++ g))
                         = (X ++ "_" ++ Y ++ "_") ++ u).
  { rewrite EX in Hp |- *. apply join_split_prefix. exact Hp. }
  destruct Hj as (u & ->).
  rewrite str_filter_app.
  rewrite (str_filter_all filename_char (X ++ "_" ++ Y ++ "_")).
  2:{ apply (str_forall_impl prefix_char); [|exact Hp].
      intros c Hc. apply (prefix_char_facts c Hc). }
  set (v := Py.str_filter filename_char u).
  assert (Hnostrip : forall s, Py.str_forall int_char s = true ->
             Py.str_forall (fun c => negb (dot_or_underscore c)) s = true).
  { intros s0 H0. apply (str_forall_impl int_char); [|exact H0].
    intros c Hc. destruct (int_char_facts c Hc) as (_ & -> & _). reflexivity. }
  assert (Hstrip : Py.strip_chars dot_or_underscore ((X ++ "_" ++ Y ++ "_") ++ v)
                   = X ++ "_" ++ Y ++ Py.rstrip dot_or_underscore (String "_" v)).
  { unfold Py.strip_chars.
    replace ((X ++ "_" ++ Y ++ "_") ++ v) with (X ++ String "_" (Y ++ String "_" v))
      by (rewrite !append_assoc; reflexivity).
    rewrite EX at 1. change (String x0 X' ++ ?r) with (String x0 (X' ++ r)).
    rewrite lstrip_keep by (apply (int_char_facts x0 Hx0)).
    change (String x0 (X' ++ ?r)) with (String x0 X' ++ r). rewrite <- EX.
    rewrite (rstrip_prefix _ X _ (Hnostrip X HX)).
    rewrite rstrip_cons_keep.
    - rewrite (rstrip_prefix _ Y _ (Hnostrip Y HY)). reflexivity.
    - right. rewrite (rstrip_prefix _ Y _ (Hnostrip Y HY)).
      destruct Y; [contradiction | discriminate]. }
  rewrite Hstrip.
  set (t := Py.rstrip dot_or_underscore (String "_" v)).
  exists t. split; [|apply rstrip_headed].
  destruct (os_name P); [reflexivity|].
  rewrite EX. change (String x0 X' ++ ?r) with (String x0 (X' ++ r)).
  cbn [Py.truthy Py.first_segment andb].
  destruct (int_char_facts x0 Hx0) as (_ & _ & _ & Hdot & Hup).
  rewrite Hdot. cbn [Py.upper Py.str_map]. rewrite Hup.
  rewrite (not_device x0 _ Hx0). reflexivity.
Qed.

(** *** Reading the identifiers back *)

Lemma int_chars_until_underscore X : forall X' R R',
  Py.str_forall int_char X = true ->
  Py.str_forall int_char X' = true ->
  X ++ String "_" R = X' ++ String "_" R' ->
  X = X' /\ R = R'.
Proof.
  induction X as [|c r IH]; intros [|c' r'] R R' HX HX' H; simpl in *.
  - inversion H. auto.
  - inversion H; subst c'. apply andb_true_iff in HX'. destruct HX' as [Hc _].
    destruct (int_char_facts _ Hc) as (_ & _ & Hu & _). discriminate.
  - inversion H; subst c. apply andb_true_iff in HX. destruct HX as [Hc _].
    destruct (int_char_facts _ Hc) as (_ & _ & Hu & _). discriminate.
  - inversion H; subst c'.
    apply andb_true_iff in HX. apply andb_true_iff in HX'.
    destruct (IH r' R R' (proj2 HX) (proj2 HX') H2) as [-> ->]. auto.
Qed.

Lemma int_char_underscore r :
  Py.str_forall int_char (String "_" r) = true -> False.
Proof. simpl. discriminate. Qed.

Lemma int_chars_until_headed Y : forall Y' t t',
  Py.str_forall int_char Y = true ->
  Py.str_forall int_char Y' = true ->
  headed "_" t -> headed "_" t' ->
  Y ++ t = Y' ++ t' ->
  Y = Y'.
Proof.
  induction Y as [|c r IH]; intros [|c' r'] t t' HY HY' Ht Ht' H.
  - reflexivity.
  - exfalso. cbn [append] in H. subst t.
    destruct Ht as [Ht|(r0 & Ht)]; [discriminate|].
    injection Ht as Hc _. subst c'. exact (int_char_underscore _ HY').
  - exfalso. cbn [append] in H. subst t'.
    destruct Ht' as [Hu|(r0 & Hu)]; [discriminate|].
    injection Hu as Hc _. subst c. exact (int_char_underscore _ HY).
  - cbn [append] in H. injection H as <- H. f_equal.
    cbn [Py.str_forall] in HY, HY'.
    apply andb_true_iff in HY. apply andb_true_iff in HY'.
    exact (IH r' t t' (proj2 HY) (proj2 HY') Ht Ht' H).
Qed.

(** C8: on a platform whose normalisation leaves ASCII characters in place,
    the stored names of two photos are equal only if the photos belong to
    the same audit and the same item, whatever the original file names; in
    particular [photo.jpg] uploaded for items 1 and 2 of audit 7 is stored
    under two names. *)
Theorem stored_photo_names_distinct (P : Platform)
  (a i a' i' : Z) (f f' : string) :
  nfkd_keeps_ascii P ->
  (a, i) <> (a', i') ->
  stored_photo_name P a i f <> stored_photo_name P a' i' f'.
Proof.
  intros Hn Hne Heq. apply Hne.
  destruct (stored_photo_name_shape P a i f Hn) as (t & Hs & Ht).
  destruct (stored_photo_name_shape P a' i' f' Hn) as (t' & Hs' & Ht').
  rewrite Hs, Hs' in Heq.
  apply int_chars_until_underscore in Heq; try apply str_of_int_chars.
  destruct Heq as [Ha Hr].
  apply int_chars_until_headed in Hr; try apply str_of_int_chars; try assumption.
  apply str_of_int_inj in Ha. apply str_of_int_inj in Hr.
  subst. reflexivity.
Qed.

Lemma sample_nfkd_keeps_ascii : nfkd_keeps_ascii sample_platform.
Proof. intros c s H. simpl. rewrite H. reflexivity. Qed.

Lemma stored_photo_names_distinct_witness :
  stored_photo_name sample_platform 7 1 "photo.jpg"
  <> stored_photo_name sample_platform 7 2 "photo.jpg".
Proof.
  apply (stored_photo_names_distinct sample_platform 7 1 7 2
           "photo.jpg" "photo.jpg").
  - exact sample_nfkd_keeps_ascii.
  - discriminate.
Defined.

Example stored_photo_name_samples :
  stored_photo_name sample_platform 7 1 "photo.jpg" = "7_1_photo.jpg"
  /\ stored_photo_name sample_platform 7 2 "photo.jpg" = "7_2_photo.jpg"
  /\ stored_photo_name windows_platform 7 2 "..\con .jpg" = "7_2_.._con_.jpg"
  /\ stored_photo_name sample_platform 7 1 "._" = "7_1".
Proof. repeat split. Qed.

(* ================================================================== *)
(** * Further properties of the handlers *)
(* ================================================================== *)

(** ** Sorted queries *)

Lemma insert_by_sorted {A} (le : A -> A -> bool) x l :
  (forall a b, le a b = true \/ le b a = true) ->
  Sorted (fun a b => le a b = true) l ->
  Sorted (fun a b => le a b = true) (insert_by le x l).
Proof.
  intros Htot. induction l as [|y r IH]; simpl; intro Hs.
  - repeat constructor.
  - destruct (le x y) eqn:Hxy.
    + constructor; [exact Hs | constructor; exact Hxy].
    + inversion Hs as [|y' r' Hr Hhd]; subst.
      constructor; [apply IH; exact Hr|].
      destruct r as [|z r']; simpl.
      * constructor. destruct (Htot x y) as [H|H]; [congruence | exact H].
      * destruct (le x z).
        -- constructor. destruct (Htot x y) as [H|H]; [congruence | exact H].
        -- inversion Hhd; subst. constructor. assumption.
Qed.

Lemma order_by_sorted {A} (le : A -> A -> bool) l :
  (forall a b, le a b = true \/ le b a = true) ->
  Sorted (fun a b => le a b = true) (order_by le l).
Proof.
  intro Htot. induction l as [|x r IH]; simpl.
  - constructor.
  - apply insert_by_sorted; assumption.
Qed.

Lemma Sorted_impl {A} (R R' : A -> A -> Prop) l :
  (forall a b, R a b -> R' a b) -> Sorted R l -> Sorted R' l.
Proof.
  intro H. induction 1 as [|a l Hs IH Hhd]; constructor; [exact IH|].
  destruct Hhd; constructor; auto.
Qed.

Lemma date_leb_total d e : date_leb d e = true \/ date_leb e d = true.
Proof.
  unfold date_leb.
  destruct (Z.ltb_spec (year d) (year e)); [left; reflexivity|].
  destruct (Z.ltb_spec (year e) (year d)); [right; reflexivity|].
  assert (Hy : year d = year e) by lia.
  rewrite Hy, Z.eqb_refl. simpl.
  destruct (Z.ltb_spec (month d) (month e)); [left; reflexivity|].
  destruct (Z.ltb_spec (month e) (month d)); [right; reflexivity|].
  assert (Hm : month d = month e) by lia.
  rewrite Hm, Z.eqb_refl. simpl.
  destruct (Z.leb_spec (day d) (day e)); [left; reflexivity|].
  right. apply Z.leb_le. lia.
Qed.

Lemma checklist_items_by_id_sorted d :
  Sorted item_id_le (checklist_items_by_id d).
Proof.
  unfold checklist_items_by_id.
  eapply Sorted_impl; [|apply order_by_sorted].
  - intros a b H. apply Z.leb_le. exact H.
  - intros a b. simpl.
    destruct (Z.leb_spec (ChecklistItem.id a) (ChecklistItem.id b));
      [left; reflexivity | right; apply Z.leb_le; lia].
Qed.

Lemma mil_query_sorted d : Sorted audit_item_id_le (mil_query d).
Proof.
  unfold mil_query.
  eapply Sorted_impl; [|apply order_by_sorted].
  - intros a b H. apply Z.leb_le. exact H.
  - intros a b. simpl.
    destruct (Z.leb_spec (AuditItem.id a) (AuditItem.id b));
      [left; reflexivity | right; apply Z.leb_le; lia].
Qed.

(** X5: a GET of the checklist page shows the flashed messages and clears
    them, changes nothing else, and lists every category once in the order
    of the names and every checklist item once in the order of the
    identifiers. *)
Theorem checklist_page_lists_sorted (rq : Request) (s : Site) :
  method rq = GET ->
  exists cats items,
    serve (checklist rq) s
    = (Html (flashes s) (ChecklistPage cats items), shown s)
    /\ Permutation cats (categories (tables s))
    /\ Sorted name_le cats
    /\ Permutation items (checklist_items (tables s))
    /\ Sorted item_id_le items.
Proof.
  intro Hm.
  exists (categories_by_name (tables s)), (checklist_items_by_id (tables s)).
  split; [|split; [|split; [|split]]].
  - unfold serve, checklist. rewrite Hm. reflexivity.
  - apply order_by_perm.
  - unfold categories_by_name. apply order_by_sorted.
    intros a b. apply String.leb_total.
  - apply order_by_perm.
  - apply checklist_items_by_id_sorted.
Qed.

Lemma checklist_page_lists_sorted_witness :
  exists cats items,
    serve (checklist {| method := GET; form := []; files := [] |})
          (with_flash "Category added" (site_of safety_db))
    = (Html ["Category added"] (ChecklistPage cats items),
       shown (with_flash "Category added" (site_of safety_db)))
    /\ Permutation cats (categories safety_db)
    /\ Sorted name_le cats
    /\ Permutation items (checklist_items safety_db)
    /\ Sorted item_id_le items.
Proof.
  exact (checklist_page_lists_sorted
           {| method := GET; form := []; files := [] |}
           (with_flash "Category added" (site_of safety_db)) eq_refl).
Defined.

(** X6: the audits page has one entry per stored audit, in the order of the
    audit dates, latest first; it shows the flashed messages and clears
    them, and changes nothing else. *)
Theorem audits_list_latest_first (s s' : Site) (msgs : list string)
  (entries : list audit_entry) :
  serve audits_list s = (Html msgs (AuditsPage entries), s') ->
  msgs = flashes s /\ s' = shown s
  /\ Permutation (map entry_audit entries) (audits (tables s))
  /\ Sorted date_ge (map entry_audit entries).
Proof.
  intro H. pose proof (audits_list_entries s msgs entries s' H) as Hmap.
  rewrite Hmap. split; [|split; [|split]].
  - revert H. unfold serve, audits_list. unfold bind at 1. unfold query at 1.
    unfold bind at 1.
    rewrite (pure_run (for_map _ _) _ (pure_for_map _ _ pure_audit_entry_of)).
    destruct (fst _); simpl; intro H; inversion H; reflexivity.
  - revert H. unfold serve, audits_list. unfold bind at 1. unfold query at 1.
    unfold bind at 1.
    rewrite (pure_run (for_map _ _) _ (pure_for_map _ _ pure_audit_entry_of)).
    destruct (fst _); simpl; intro H; inversion H; reflexivity.
  - apply order_by_perm.
  - unfold audits_by_date_desc. apply order_by_sorted.
    intros a b. apply date_leb_total.
Qed.

Lemma audits_list_latest_first_witness :
  ["Audit created successfully!"] = flashes dated_site
  /\ shown dated_site = shown dated_site
  /\ Permutation [later_audit; sample_audit] [sample_audit; later_audit]
  /\ Sorted date_ge [later_audit; sample_audit].
Proof.
  exact (audits_list_latest_first dated_site (shown dated_site)
           ["Audit created successfully!"]
           [ {| entry_audit := later_audit;
                entry_categories := [("Safety", (300 # 6)%Q)];
                entry_total := (300 # 6)%Q |};
             {| entry_audit := sample_audit;
                entry_categories := [("Safety", (500 # 6)%Q)];
                entry_total := (500 # 6)%Q |} ]
           eq_refl).
Defined.

(** ** The exports *)

Lemma item_text_of_run ai w :
  item_text_of ai w
  = (match item_text_in (session w) ai with
     | Some t => Return t
     | None => Raise AttributeError
     end, w).
Proof.
  unfold item_text_of, item_text_in, bind, query, attr, ret, raise.
  destruct (get_checklist_item _ _); reflexivity.
Qed.

Lemma for_map_option {A B} (body : A -> M B) (f : A -> option B) e w :
  (forall x, body x w = (match f x with
                         | Some y => Return y
                         | None => Raise e
                         end, w)) ->
  forall l,
    for_map l body w
    = (match map_option f l with
       | Some ys => Return ys
       | None => Raise e
       end, w).
Proof.
  intros Hb. induction l as [|x r IH]; simpl; [reflexivity|].
  unfold bind at 1. rewrite Hb.
  destruct (f x) as [y|]; [|reflexivity].
  unfold bind at 1. rewrite IH.
  destruct (map_option f r); reflexivity.
Qed.

Lemma map_option_Forall2 {A B} (f : A -> option B) l : forall ys,
  map_option f l = Some ys -> Forall2 (fun x y => f x = Some y) l ys.
Proof.
  induction l as [|x r IH]; simpl; intros ys H.
  - inversion H. constructor.
  - destruct (f x) as [y|] eqn:Hx; [|discriminate].
    destruct (map_option f r) as [ys'|]; [|discriminate].
    inversion H; subst. constructor; [exact Hx | apply IH; reflexivity].
Qed.

Lemma map_option_total {A B} (f : A -> option B) l :
  (forall x, In x l -> f x <> None) -> exists ys, map_option f l = Some ys.
Proof.
  induction l as [|x r IH]; simpl; intro H.
  - eexists; reflexivity.
  - destruct (f x) as [y|] eqn:Hx; [|exfalso; apply (H x); auto].
    destruct IH as (ys & ->); [intros z Hz; apply H; auto|].
    eexists; reflexivity.
Qed.

Lemma Forall2_nth_error {A B} (R : A -> B -> Prop) l l' :
  Forall2 R l l' ->
  forall k x, nth_error l k = Some x ->
              exists y, nth_error l' k = Some y /\ R x y.
Proof.
  induction 1 as [|a b l l' Hab _ IH]; intros [|k] x Hk; simpl in *;
    try discriminate.
  - inversion Hk; subst. exists b; auto.
  - apply IH; exact Hk.
Qed.

Lemma Forall2_length_eq {A B} (R : A -> B -> Prop) l l' :
  Forall2 R l l' -> length l = length l'.
Proof. induction 1; simpl; congruence. Qed.

Lemma enumerate_nth_error {A} (l : list A) : forall start k x,
  nth_error l k = Some x ->
  nth_error (enumerate start l) k = Some (start + Z.of_nat k, x).
Proof.
  induction l as [|a r IH]; intros start [|k] x H; simpl in *;
    try discriminate.
  - inversion H; subst. rewrite Z.add_0_r. reflexivity.
  - rewrite (IH (start + 1) k x H). do 2 f_equal. lia.
Qed.

(** The audit export as a function of the tables. *)
Lemma export_audit_run P i s :
  serve (export_audit P i) s
  = match get_audit i (tables s) with
    | None => (Status (if fits_int64 i then 404 else 500), s)
    | Some a =>
        match map_option (audit_row_in (tables s) a)
                (enumerate 1 (audit_items_of (Audit.id a) (tables s))) with
        | Some rows =>
            (SendAuditFile
               ("audit_" ++ Py.str_of_int (Audit.id a) ++ "_" ++ utcnow P
                ++ ".xlsx") rows, s)
        | None => (Status 500, s)
        end
    end.
Proof.
  unfold serve, export_audit, get_or_404.
  unfold bind at 1 2. unfold query_get. simpl session.
  destruct (get_audit i (tables s)) as [a|];
    [|destruct (fits_int64 i); reflexivity].
  cbn [of_option]. unfold ret at 1.
  unfold bind at 1. unfold query at 1. simpl session.
  unfold bind at 1.
  rewrite (for_map_option _ (audit_row_in (tables s) a) AttributeError).
  - destruct (map_option _ _); reflexivity.
  - intros [idx ai]. unfold bind at 1. rewrite category_name_of_run.
    unfold audit_row_in. simpl session. cbn [fst snd].
    destruct (category_name_in (tables s) ai) as [cat|]; [|reflexivity].
    unfold bind at 1. rewrite item_text_of_run. simpl session.
    destruct (item_text_in (tables s) ai); reflexivity.
Qed.

(** The MIL export as a function of the tables. *)
Lemma export_mil_run P s :
  serve (export_mil P) s
  = match map_option (mil_row_in (tables s)) (enumerate 1 (mil_query (tables s)))
    with
    | Some [] => (Redirect "/", with_flash "No MIL items." s)
    | Some (r :: rows) =>
        (SendMilFile ("mil_export_" ++ utcnow P ++ ".xlsx") (r :: rows), s)
    | None => (Status 500, s)
    end.
Proof.
  unfold serve, export_mil.
  unfold bind at 1. unfold query at 1. simpl session.
  unfold bind at 1.
  rewrite (for_map_option _ (mil_row_in (tables s)) AttributeError).
  - destruct (map_option _ _) as [[|r rows]|]; reflexivity.
  - intros [idx ai]. unfold mil_row. cbn [fst snd].
    unfold bind at 1. rewrite item_text_of_run. unfold mil_row_in.
    simpl session. cbn [fst snd].
    destruct (item_text_in (tables s) ai) as [txt|]; [|reflexivity].
    unfold bind at 1. rewrite category_name_of_run. simpl session.
    destruct (category_name_in (tables s) ai) as [cat|]; [|reflexivity].
    unfold bind at 1. unfold query at 1. simpl session.
    unfold vendor_in.
    destruct (get_audit (AuditItem.audit_id ai) (tables s)); reflexivity.
Qed.

Lemma category_name_in_text d ai :
  category_name_in d ai <> None -> item_text_in d ai <> None.
Proof.
  unfold category_name_in, item_text_in.
  destruct (get_checklist_item _ d); simpl; [discriminate | auto].
Qed.

(** X1: the export of a stored audit whose items all reach a category is a
    file named after the audit and the clock, with one row per item of the
    audit in storage order, numbered from 1; each row carries the item's
    score, its record (empty when there is none), the text and category of
    its checklist item, and the vendor, date and area of the audit.  The
    request changes nothing. *)
Theorem export_audit_rows (P : Platform) (s : Site) (i : Z) (a : Audit.t) :
  get_audit i (tables s) = Some a ->
  (forall ai, In ai (audit_items_of i (tables s)) ->
              category_name_in (tables s) ai <> None) ->
  exists rows,
    serve (export_audit P i) s
    = (SendAuditFile
         ("audit_" ++ Py.str_of_int i ++ "_" ++ utcnow P ++ ".xlsx") rows, s)
    /\ length rows = length (audit_items_of i (tables s))
    /\ forall k ai,
         nth_error (audit_items_of i (tables s)) k = Some ai ->
         exists row,
           nth_error rows k = Some row
           /\ AuditRow.No row = 1 + Z.of_nat k
           /\ AuditRow.Score row = AuditItem.score ai
           /\ AuditRow.Record_ row = or_empty (AuditItem.record ai)
           /\ Some (AuditRow.Category row) = category_name_in (tables s) ai
           /\ Some (AuditRow.Checking_Item row) = item_text_in (tables s) ai
           /\ AuditRow.Vendor row = Audit.vendor a
           /\ AuditRow.Audit_Date row = Audit.audit_date a
           /\ AuditRow.Audit_Area row = Audit.audit_area a.
Proof.
  intros Ha Hres. pose proof (get_audit_id _ _ _ Ha) as Hid.
  rewrite export_audit_run, Ha, Hid.
  destruct (map_option_total (audit_row_in (tables s) a)
              (enumerate 1 (audit_items_of i (tables s)))) as (rows & Hrows).
  { intros [idx ai] Hin. apply enumerate_In in Hin.
    unfold audit_row_in. cbn [snd].
    pose proof (Hres ai Hin) as Hc.
    pose proof (category_name_in_text _ _ Hc) as Ht.
    destruct (category_name_in (tables s) ai); [|contradiction].
    destruct (item_text_in (tables s) ai); [discriminate | contradiction]. }
  rewrite Hrows. exists rows. split; [reflexivity|].
  pose proof (map_option_Forall2 _ _ _ Hrows) as HF.
  split.
  - rewrite <- (Forall2_length_eq _ _ _ HF). apply enumerate_length.
  - intros k ai Hk.
    pose proof (enumerate_nth_error _ 1 k ai Hk) as He.
    destruct (Forall2_nth_error _ _ _ HF k _ He) as (row & Hr & Hrow).
    exists row. split; [exact Hr|].
    unfold audit_row_in in Hrow. cbn [fst snd] in Hrow.
    destruct (category_name_in (tables s) ai) as [cat|]; [|discriminate].
    destruct (item_text_in (tables s) ai) as [txt|]; [|discriminate].
    inversion Hrow; subst row; simpl. repeat split.
Qed.

Lemma export_audit_rows_witness :
  exists rows,
    serve (export_audit sample_platform 1)
          (site_of (audited_db (Some 2) None))
    = (SendAuditFile "audit_1_20240102030405.xlsx" rows,
       site_of (audited_db (Some 2) None))
    /\ length rows = 2%nat.
Proof.
  destruct (export_audit_rows sample_platform
              (site_of (audited_db (Some 2) None)) 1 sample_audit eq_refl)
    as (rows & Hrun & Hlen & _).
  - intros ai [<-|[<-|[]]]; discriminate.
  - exists rows. split; [exact Hrun | exact Hlen].
Defined.

(** X2: an exported MIL file has one row per audit item whose score is a
    number other than 3, over all audits, in the order of the item
    identifiers and numbered from 1; each row carries the item's record,
    the status computed from its score, the vendor of its audit, and empty
    action, due date, closed date and remark.  The request changes
    nothing. *)
Theorem export_mil_rows_in_order (P : Platform) (s s' : Site) (path : string)
  (rows : list MilRow.t) :
  serve (export_mil P) s = (SendMilFile path rows, s') ->
  s' = s
  /\ path = "mil_export_" ++ utcnow P ++ ".xlsx"
  /\ length rows = length (mil_query (tables s))
  /\ Sorted audit_item_id_le (mil_query (tables s))
  /\ forall k ai,
       nth_error (mil_query (tables s)) k = Some ai ->
       exists row,
         nth_error rows k = Some row
         /\ MilRow.No row = 1 + Z.of_nat k
         /\ MilRow.Record_ row = or_empty (AuditItem.record ai)
         /\ MilRow.Status row = mil_status (AuditItem.score ai)
         /\ Some (MilRow.Vendor_DRI row) = vendor_in (tables s) ai
         /\ Some (MilRow.Checking_item row) = item_text_in (tables s) ai
         /\ Some (MilRow.Category row) = category_name_in (tables s) ai
         /\ MilRow.Action row = "" /\ MilRow.Due_Date row = ""
         /\ MilRow.Closed_date row = "" /\ MilRow.Remark row = "".
Proof.
  rewrite export_mil_run.
  destruct (map_option _ _) as [[|r rows']|] eqn:Hrows; try discriminate.
  intro H. injection H as Hp Hr Hs. subst path rows s'.
  pose proof (map_option_Forall2 _ _ _ Hrows) as HF.
  split; [reflexivity|]. split; [reflexivity|]. split; [|split].
  - rewrite <- (Forall2_length_eq _ _ _ HF). apply enumerate_length.
  - apply mil_query_sorted.
  - intros k ai Hk.
    pose proof (enumerate_nth_error _ 1 k ai Hk) as He.
    destruct (Forall2_nth_error _ _ _ HF k _ He) as (row & Hr & Hrow).
    exists row. split; [exact Hr|].
    unfold mil_row_in in Hrow. cbn [fst snd] in Hrow.
    destruct (item_text_in (tables s) ai) as [txt|]; [|discriminate].
    destruct (category_name_in (tables s) ai) as [cat|]; [|discriminate].
    destruct (vendor_in (tables s) ai) as [v|]; [|discriminate].
    inversion Hrow; subst row; simpl. repeat split.
Qed.

Lemma export_mil_rows_in_order_witness :
  length [ {| MilRow.No := 1;
              MilRow.Checking_item := "Exits are clear";
              MilRow.Category := "Safety";
              MilRow.Record_ := "";
              MilRow.Status := "Open";
              MilRow.Action := "";
              MilRow.Vendor_DRI := "Acme";
              MilRow.Due_Date := "";
              MilRow.Closed_date := "";
              MilRow.Remark := "" |} ]
  = length (mil_query (audited_db (Some 2) (Some 3))).
Proof.
  exact (proj1 (proj2 (proj2
           (export_mil_rows_in_order sample_platform
              (site_of (audited_db (Some 2) (Some 3)))
              (site_of (audited_db (Some 2) (Some 3)))
              "mil_export_20240102030405.xlsx" _ eq_refl)))).
Defined.

(** X3: the MIL export redirects to the landing page with the message
    [No MIL items.], producing no file, exactly when no audit item has a
    score that is a number other than 3. *)
Theorem export_mil_empty (P : Platform) (s : Site) :
  (forall ai, In ai (audit_items (tables s)) ->
              AuditItem.score ai = None \/ AuditItem.score ai = Some 3)
  <-> serve (export_mil P) s = (Redirect "/", with_flash "No MIL items." s).
Proof.
  rewrite export_mil_run. split.
  - intro H.
    assert (Hq : mil_query (tables s) = []).
    { destruct (mil_query (tables s)) as [|x r] eqn:E; [reflexivity|].
      assert (Hx : In x (mil_query (tables s))) by (rewrite E; left; reflexivity).
      apply mil_query_spec in Hx. destruct Hx as (Hin & v & Hv & Hne).
      destruct (H x Hin) as [Hs|Hs]; rewrite Hs in Hv; inversion Hv.
      congruence. }
    rewrite Hq. reflexivity.
  - intros H ai Hin.
    destruct (mil_query (tables s)) as [|x r] eqn:E.
    + destruct (AuditItem.score ai) as [v|] eqn:Hv; [|left; reflexivity].
      right. destruct (Z.eq_dec v 3) as [->|Hne]; [reflexivity|].
      assert (Hai : In ai (mil_query (tables s))).
      { apply mil_query_spec. split; [exact Hin|]. exists v; auto. }
      rewrite E in Hai. contradiction.
    + simpl in H.
      destruct (mil_row_in (tables s) (1, x)); [|discriminate].
      destruct (map_option _ _); discriminate.
Qed.

Lemma export_mil_empty_witness :
  serve (export_mil sample_platform) (site_of (audited_db None (Some 3)))
  = (Redirect "/",
     with_flash "No MIL items." (site_of (audited_db None (Some 3)))).
Proof.
  apply (proj1 (export_mil_empty sample_platform
                  (site_of (audited_db None (Some 3))))).
  intros ai [<-|[<-|[]]]; simpl; auto.
Defined.

Lemma Forall2_nth_error_r {A B} (R : A -> B -> Prop) l l' :
  Forall2 R l l' ->
  forall k y, nth_error l' k = Some y ->
              exists x, nth_error l k = Some x /\ R x y.
Proof.
  induction 1 as [|a b l l' Hab _ IH]; intros [|k] y Hk; simpl in *;
    try discriminate.
  - inversion Hk; subst. exists a; auto.
  - apply IH; exact Hk.
Qed.

Lemma enumerate_nth_error_inv {A} (l : list A) : forall start k p,
  nth_error (enumerate start l) k = Some p ->
  fst p = start + Z.of_nat k /\ nth_error l k = Some (snd p).
Proof.
  induction l as [|a r IH]; intros start [|k] p H; simpl in *;
    try discriminate.
  - inversion H; subst. simpl. split; [lia | reflexivity].
  - destruct (IH (start + 1) k p H) as [H1 H2]. split; [lia | exact H2].
Qed.

(** X4: in an exported MIL file the row at each position is the row of the
    audit item at that position among those the export selects, and it has
    status [Closed] exactly when the score of that item is above 3; a stored
    score above 3 does give such a row, at the position of its item. *)
Theorem export_mil_closed_above_three (P : Platform) (s s' : Site)
  (path : string) (rows : list MilRow.t) :
  serve (export_mil P) s = (SendMilFile path rows, s') ->
  (forall k row, nth_error rows k = Some row ->
     exists ai,
       nth_error (mil_query (tables s)) k = Some ai
       /\ MilRow.No row = 1 + Z.of_nat k
       /\ MilRow.Record_ row = or_empty (AuditItem.record ai)
       /\ (MilRow.Status row = "Closed" <->
           exists v, AuditItem.score ai = Some v /\ 3 < v))
  /\ (forall ai v, In ai (audit_items (tables s)) ->
        AuditItem.score ai = Some v -> 3 < v ->
        exists k row,
          nth_error (mil_query (tables s)) k = Some ai
          /\ nth_error rows k = Some row
          /\ MilRow.Status row = "Closed"
          /\ MilRow.Record_ row = or_empty (AuditItem.record ai)).
Proof.
  rewrite export_mil_run.
  destruct (map_option _ _) as [[|r rows']|] eqn:Hrows; try discriminate.
  intro H. injection H as Hp Hr Hs. subst path rows s'.
  pose proof (map_option_Forall2 _ _ _ Hrows) as HF.
  split.
  - intros k row Hk.
    destruct (Forall2_nth_error_r _ _ _ HF k row Hk) as ([i ai] & He & Hrow).
    destruct (enumerate_nth_error_inv _ _ _ _ He) as [Hi Hai].
    cbn [fst snd] in Hi, Hai. exists ai. split; [exact Hai|].
    unfold mil_row_in in Hrow. cbn [fst snd] in Hrow.
    destruct (item_text_in (tables s) ai); [|discriminate].
    destruct (category_name_in (tables s) ai); [|discriminate].
    destruct (vendor_in (tables s) ai); [|discriminate].
    inversion Hrow; subst row; cbn [MilRow.No MilRow.Record_ MilRow.Status].
    split; [exact Hi|]. split; [reflexivity|].
    pose proof (nth_error_In _ _ Hai) as Hq. apply mil_query_spec in Hq.
    destruct Hq as (_ & v & Hv & Hne). rewrite Hv. simpl.
    destruct (Z.ltb_spec v 3); split.
    + discriminate.
    + intros (v' & Hv' & Hgt). inversion Hv'; subst. lia.
    + intros _. exists v. split; [reflexivity | lia].
    + reflexivity.
  - intros ai v Hai Hv Hgt.
    assert (Hq : In ai (mil_query (tables s))).
    { apply mil_query_spec. split; [exact Hai|]. exists v. split; [exact Hv|lia]. }
    apply In_nth_error in Hq. destruct Hq as (k & Hk).
    pose proof (enumerate_nth_error _ 1 k ai Hk) as He.
    destruct (Forall2_nth_error _ _ _ HF k _ He) as (row & Hr & Hrow).
    exists k, row. split; [exact Hk|]. split; [exact Hr|].
    unfold mil_row_in in Hrow. cbn [fst snd] in Hrow.
    destruct (item_text_in (tables s) ai); [|discriminate].
    destruct (category_name_in (tables s) ai); [|discriminate].
    destruct (vendor_in (tables s) ai); [|discriminate].
    inversion Hrow; subst row; simpl. rewrite Hv. simpl.
    destruct (Z.ltb_spec v 3); [lia | split; reflexivity].
Qed.

Lemma export_mil_closed_above_three_witness :
  (exists ai,
     nth_error (mil_query (audited_db (Some 4) (Some 2))) 1 = Some ai
     /\ MilRow.No (mil_sample_row 2 "Extinguishers checked" "Open") = 2
     /\ MilRow.Record_ (mil_sample_row 2 "Extinguishers checked" "Open")
        = or_empty (AuditItem.record ai)
     /\ (MilRow.Status (mil_sample_row 2 "Extinguishers checked" "Open")
         = "Closed"
         <-> exists v, AuditItem.score ai = Some v /\ 3 < v))
  /\ exists k row,
       nth_error (mil_query (audited_db (Some 4) (Some 2))) k
       = Some (sample_item 1 1 (Some 4))
       /\ nth_error [ mil_sample_row 1 "Exits are clear" "Closed";
                      mil_sample_row 2 "Extinguishers checked" "Open" ] k
          = Some row
       /\ MilRow.Status row = "Closed"
       /\ MilRow.Record_ row = "".
Proof.
  destruct (export_mil_closed_above_three sample_platform
              (site_of (audited_db (Some 4) (Some 2)))
              (site_of (audited_db (Some 4) (Some 2)))
              "mil_export_20240102030405.xlsx"
              [ mil_sample_row 1 "Exits are clear" "Closed";
                mil_sample_row 2 "Extinguishers checked" "Open" ]
              eq_refl) as [Hrow Hitem].
  split.
  - exact (Hrow 1%nat (mil_sample_row 2 "Extinguishers checked" "Open")
             eq_refl).
  - apply (Hitem (sample_item 1 1 (Some 4)) 4 (or_introl eq_refl) eq_refl).
    lia.
Defined.

(** ** The checklist handler, case by case *)

Lemma checklist_run rq s : serve (checklist rq) s = checklist_outcome rq s.
Proof.
  unfold checklist_outcome.
  destruct (method rq) eqn:Hm.
  { unfold serve, checklist. rewrite Hm. reflexivity. }
  destruct (lookup "category_name" (form rq)) as [raw|] eqn:Hc.
  { apply (checklist_category_post rq s raw Hm Hc). }
  destruct (lookup "item_id" (form rq)) as [raw|] eqn:Hi.
  { unfold update_outcome.
    destruct (Py.int raw) as [i|] eqn:Hint.
    - destruct (lookup "item_text" (form rq)) as [t|] eqn:Ht.
      + rewrite (checklist_update_post rq s raw i t Hm Hc Hi Hint Ht).
        destruct (get_checklist_item i (tables s)); [reflexivity|].
        destruct (fits_int64 i); reflexivity.
      + unfold serve, checklist, form_has, form_item, py_int.
        rewrite Hm, Hc, Hi. simpl. unfold bind. simpl.
        rewrite Hint. simpl. unfold query_get. cbn [session].
        destruct (get_checklist_item i (tables s)); simpl.
        * rewrite Ht. reflexivity.
        * destruct (fits_int64 i); [rewrite Ht|]; reflexivity.
    - unfold serve, checklist, form_has, form_item, py_int.
      rewrite Hm, Hc, Hi. simpl. unfold bind. simpl.
      rewrite Hint. reflexivity. }
  destruct (lookup "item_text" (form rq)) as [raw_t|] eqn:Ht.
  { unfold add_item_outcome.
    destruct (lookup "category_id" (form rq)) as [raw_c|] eqn:Hcat.
    - destruct (Py.int raw_c) as [c|] eqn:Hint.
      + apply (checklist_add_item_post rq s raw_c c raw_t Hm Hc Hi Ht Hcat Hint).
      + unfold serve, checklist, form_has, form_item, py_int.
        rewrite Hm, Hc, Hi, Ht. simpl. unfold bind. simpl.
        rewrite Hcat. simpl. rewrite Hint. reflexivity.
    - unfold serve, checklist, form_has, form_item, py_int.
      rewrite Hm, Hc, Hi, Ht. simpl. unfold bind. simpl.
      rewrite Hcat. reflexivity. }
  unfold serve, checklist, form_has. rewrite Hm, Hc, Hi, Ht. reflexivity.
Qed.

(** X7: when the checklist handler answers with an error status, the
    status is 400 (a form field is missing) or 500, never 404, and nothing
    has changed: no table, no file, no flashed message. *)
Theorem checklist_error_changes_nothing (rq : Request) (s : Site) (code : Z) :
  fst (serve (checklist rq) s) = Status code ->
  snd (serve (checklist rq) s) = s /\ (code = 400 \/ code = 500).
Proof.
  rewrite checklist_run. unfold checklist_outcome, checklist_page_outcome,
    category_outcome, update_outcome, add_item_outcome.
  repeat match goal with
         | |- context [match ?x with _ => _ end] => destruct x; simpl
         end;
    intro H; try discriminate H; inversion H; auto.
Qed.

Lemma checklist_error_changes_nothing_witness :
  snd (serve (checklist unknown_item_request) (site_of safety_db))
  = site_of safety_db
  /\ (500 = 400 \/ 500 = 500).
Proof.
  exact (checklist_error_changes_nothing unknown_item_request
           (site_of safety_db) 500 eq_refl).
Defined.

(** ** Invariants of the tables *)

Lemma next_id_fresh ids x : In x ids -> x < next_id ids.
Proof.
  unfold next_id. induction ids as [|y r IH]; cbn [fold_right In]; intro H.
  - contradiction.
  - pose proof (Z.le_max_l y (fold_right Z.max 0 r)).
    pose proof (Z.le_max_r y (fold_right Z.max 0 r)).
    destruct H as [->|H]; [lia | specialize (IH H); lia].
Qed.

Lemma next_id_not_in ids : ~ In (next_id ids) ids.
Proof. intro H. apply next_id_fresh in H. lia. Qed.

Lemma NoDup_snoc {A} (l : list A) x : NoDup l -> ~ In x l -> NoDup (l ++ [x]).
Proof.
  intros Hl Hx. eapply Permutation_NoDup; [apply Permutation_cons_append|].
  constructor; assumption.
Qed.

Lemma NoDup_map_filter {A B} (f : A -> B) (p : A -> bool) l :
  NoDup (map f l) -> NoDup (map f (filter p l)).
Proof.
  induction l as [|a r IH]; simpl; intro H; [constructor|].
  inversion H as [|x xs Hn Hr]; subst.
  destruct (p a); simpl; [|apply IH; exact Hr].
  constructor; [|apply IH; exact Hr].
  intro Hin. apply Hn. apply in_map_iff in Hin.
  destruct Hin as (b & Hb & Hbin). apply filter_In in Hbin.
  rewrite <- Hb. apply in_map. tauto.
Qed.

Lemma set_item_fields_ids i t o l :
  map ChecklistItem.id (map (set_item_fields i t o) l) = map ChecklistItem.id l.
Proof.
  induction l as [|a r IH]; simpl; [reflexivity|]. rewrite IH. f_equal.
  unfold set_item_fields. destruct (ChecklistItem.id a =? i); reflexivity.
Qed.

Lemma find_id_not_None {A} (key : A -> Z) l i :
  find (fun x => key x =? i) l <> None <-> In i (map key l).
Proof.
  induction l as [|a r IH]; simpl.
  - split; [intro H; exfalso; apply H; reflexivity | intros []].
  - destruct (Z.eqb_spec (key a) i) as [e|ne].
    + split; [auto | discriminate].
    + rewrite IH. split; [auto | intros [H|H]; [contradiction | exact H]].
Qed.

(** *** Stripping twice *)

Lemma rstrip_idem p s : Py.rstrip p (Py.rstrip p s) = Py.rstrip p s.
Proof.
  induction s as [|c r IH]; [reflexivity|].
  cbn [Py.rstrip]. destruct (Py.rstrip p r) as [|d r'] eqn:E.
  - destruct (p c) eqn:Hc; [reflexivity|]. simpl. rewrite Hc. reflexivity.
  - cbn [Py.rstrip] in *. change (Py.rstrip p (String d r')) with
      (Py.rstrip p (String d r')) in IH.
    simpl in IH. simpl. rewrite IH. reflexivity.
Qed.

Lemma lstrip_head p s :
  Py.lstrip p s = ""
  \/ exists c r, Py.lstrip p s = String c r /\ p c = false.
Proof.
  induction s as [|c r IH]; simpl; [left; reflexivity|].
  destruct (p c) eqn:Hc; [exact IH|]. right. exists c, r. auto.
Qed.

Lemma strip_chars_idem p s :
  Py.strip_chars p (Py.strip_chars p s) = Py.strip_chars p s.
Proof.
  unfold Py.strip_chars.
  destruct (lstrip_head p s) as [->|(c & r & -> & Hc)]; [reflexivity|].
  destruct (rstrip_headed p c r) as [->|(r' & E)]; [reflexivity|].
  rewrite E. rewrite (lstrip_keep p c r' Hc). rewrite <- E.
  apply rstrip_idem.
Qed.

Lemma strip_idem s : Py.strip (Py.strip s) = Py.strip s.
Proof. apply strip_chars_idem. Qed.

(** *** Each change of the tables keeps the invariants *)

Lemma inv_category_added d raw :
  db_inv d ->
  Py.truthy (Py.strip raw) = true ->
  category_by_name (Py.strip raw) d = None ->
  db_inv (with_categories
            (categories d ++
             [ {| Category.id := next_id (map Category.id (categories d));
                  Category.name := Py.strip raw |} ])%list d).
Proof.
  intros ((Kc & Ki & Ka & Kai) & (Nn & Nc) & R) Ht Hq.
  split; [|split].
  - split; [|split; [|split]]; simpl; try assumption.
    rewrite map_app. simpl. apply NoDup_snoc; [exact Kc | apply next_id_not_in].
  - split; simpl.
    + rewrite map_app. simpl. apply NoDup_snoc; [exact Nn|].
      intro Hin. apply in_map_iff in Hin. destruct Hin as (c & Hc & Hcin).
      rewrite category_by_name_None in Hq. exact (Hq c Hcin Hc).
    + intros c Hin. apply in_app_or in Hin. destruct Hin as [Hin|[<-|[]]].
      * apply Nc; exact Hin.
      * simpl. split; [|apply strip_idem].
        destruct (Py.strip raw); [discriminate Ht | discriminate].
  - intros ai Hai. exact (R ai Hai).
Qed.

Lemma inv_item_updated d i t o :
  db_inv d ->
  db_inv (with_checklist_items
            (map (set_item_fields i t o) (checklist_items d)) d).
Proof.
  intros ((Kc & Ki & Ka & Kai) & N & R).
  split; [|split].
  - split; [|split; [|split]]; simpl; try assumption.
    rewrite set_item_fields_ids. exact Ki.
  - exact N.
  - intros ai Hai. destruct (R ai Hai) as [H1 H2]. split; [exact H1|].
    unfold get_checklist_item in *. simpl.
    apply find_id_not_None. rewrite set_item_fields_ids.
    apply find_id_not_None. exact H2.
Qed.

Lemma inv_item_added d c t o :
  db_inv d ->
  db_inv (with_checklist_items
            (checklist_items d ++
             [ {| ChecklistItem.id :=
                    next_id (map ChecklistItem.id (checklist_items d));
                  ChecklistItem.category_id := c;
                  ChecklistItem.text := t;
                  ChecklistItem.original_spec := o |} ])%list d).
Proof.
  intros ((Kc & Ki & Ka & Kai) & N & R).
  split; [|split].
  - split; [|split; [|split]]; simpl; try assumption.
    rewrite map_app. simpl. apply NoDup_snoc; [exact Ki | apply next_id_not_in].
  - exact N.
  - intros ai Hai. destruct (R ai Hai) as [H1 H2]. split; [exact H1|].
    unfold get_checklist_item in *. simpl.
    apply find_id_not_None. rewrite map_app. apply in_or_app. left.
    apply find_id_not_None. exact H2.
Qed.

Lemma inv_checklist rq s :
  db_inv (tables s) -> db_inv (tables (snd (serve (checklist rq) s))).
Proof.
  intro H. rewrite checklist_run.
  unfold checklist_outcome, checklist_page_outcome, category_outcome,
    update_outcome, add_item_outcome.
  destruct (method rq); [exact H|].
  destruct (lookup "category_name" (form rq)) as [raw|].
  { destruct (Py.truthy (Py.strip raw)) eqn:Ht; [|exact H].
    destruct (category_by_name (Py.strip raw) (tables s)) eqn:Hq; [exact H|].
    simpl. apply inv_category_added; assumption. }
  destruct (lookup "item_id" (form rq)) as [raw|].
  { destruct (Py.int raw); [|exact H].
    destruct (get_checklist_item _ _).
    - destruct (lookup "item_text" (form rq)); [|exact H].
      simpl. apply inv_item_updated; exact H.
    - destruct (fits_int64 _); [|exact H].
      destruct (lookup "item_text" (form rq)); exact H. }
  destruct (lookup "item_text" (form rq)) as [raw_t|]; [|exact H].
  destruct (lookup "category_id" (form rq)); [|exact H].
  destruct (Py.int _); [|exact H].
  destruct (Py.truthy _); [|exact H].
  destruct (fits_int64 _); [|exact H].
  simpl. apply inv_item_added; exact H.
Qed.

Lemma inv_header P d v dt ar :
  db_inv d ->
  db_inv (with_audits (audits d ++ [new_audit_row P d v dt ar])%list d).
Proof.
  intros ((Kc & Ki & Ka & Kai) & N & R).
  split; [|split].
  - split; [|split; [|split]]; simpl; try assumption.
    rewrite map_app. simpl. apply NoDup_snoc; [exact Ka | apply next_id_not_in].
  - exact N.
  - intros ai Hai. destruct (R ai Hai) as [H1 H2]. split; [|exact H2].
    unfold get_audit in *. simpl.
    apply find_id_not_None. rewrite map_app. apply in_or_app. left.
    apply find_id_not_None. exact H1.
Qed.

Lemma new_rows_keys P rq aid items : forall existing,
  NoDup (map AuditItem.id existing) ->
  NoDup (map AuditItem.id (existing ++ new_rows P rq aid items existing)).
Proof.
  induction items as [|item r IH]; intros existing H; simpl.
  - rewrite app_nil_r. exact H.
  - set (row := new_row P rq aid item (next_id (map AuditItem.id existing))).
    replace (existing ++ row :: new_rows P rq aid r (existing ++ [row]))%list
      with ((existing ++ [row]) ++ new_rows P rq aid r (existing ++ [row]))%list
      by (rewrite <- app_assoc; reflexivity).
    apply IH. rewrite map_app. simpl.
    apply NoDup_snoc; [exact H | apply next_id_not_in].
Qed.

Lemma new_rows_refs P rq aid items : forall existing row,
  In row (new_rows P rq aid items existing) ->
  AuditItem.audit_id row = aid
  /\ In (AuditItem.checklist_item_id row) (map ChecklistItem.id items).
Proof.
  induction items as [|item r IH]; simpl; intros existing row H.
  - contradiction.
  - destruct H as [<-|H].
    + simpl. auto.
    + destruct (IH _ _ H) as [H1 H2]. auto.
Qed.

Lemma inv_rows P rq d aid items :
  db_inv d ->
  In aid (map Audit.id (audits d)) ->
  (forall i, In i (map ChecklistItem.id items) ->
             In i (map ChecklistItem.id (checklist_items d))) ->
  db_inv (with_audit_items
            (audit_items d ++ new_rows P rq aid items (audit_items d))%list d).
Proof.
  intros ((Kc & Ki & Ka & Kai) & N & R) Haid Hitems.
  split; [|split].
  - split; [|split; [|split]]; simpl; try assumption.
    apply new_rows_keys. exact Kai.
  - exact N.
  - intros ai Hai. simpl in Hai. apply in_app_or in Hai.
    destruct Hai as [Hai|Hai].
    + exact (R ai Hai).
    + destruct (new_rows_refs _ _ _ _ _ _ Hai) as [H1 H2]. split.
      * unfold get_audit. simpl. apply find_id_not_None. rewrite H1. exact Haid.
      * unfold get_checklist_item. simpl. apply find_id_not_None.
        apply Hitems. exact H2.
Qed.

(** The tables after a request to [new_audit]. *)
Lemma new_audit_tables P rq s :
  tables (snd (serve (new_audit P rq) s)) = tables s
  \/ exists v dt ar,
       tables (snd (serve (new_audit P rq) s))
       = with_audits
           (audits (tables s) ++ [new_audit_row P (tables s) v dt ar])%list
           (tables s)
       \/ tables (snd (serve (new_audit P rq) s))
          = with_audit_items
              (audit_items (tables s) ++
               new_rows P rq (Audit.id (new_audit_row P (tables s) v dt ar))
                 (checklist_items_by_id (tables s)) (audit_items (tables s)))%list
              (with_audits
                 (audits (tables s) ++ [new_audit_row P (tables s) v dt ar])%list
                 (tables s)).
Proof.
  destruct (method rq) eqn:Hm.
  { left. apply (new_audit_get P rq s Hm). }
  destruct (lookup "vendor" (form rq)) as [v|] eqn:Hv.
  2:{ left. destruct (new_audit_post_rejected P rq s Hm (or_introl Hv))
        as (code & ->). reflexivity. }
  destruct (lookup "audit_date" (form rq)) as [rd|] eqn:Hd.
  2:{ left. destruct (new_audit_post_rejected P rq s Hm
                        (or_intror (or_introl Hd))) as (code & ->).
      reflexivity. }
  destruct (fromisoformat P rd) as [dt|] eqn:Hp.
  2:{ left. destruct (new_audit_post_rejected P rq s Hm
                        (or_intror (or_intror (or_introl
                           (ex_intro _ rd (conj Hd Hp)))))) as (code & ->).
      reflexivity. }
  destruct (lookup "audit_area" (form rq)) as [ar|] eqn:Ha.
  2:{ left. destruct (new_audit_post_rejected P rq s Hm
                        (or_intror (or_intror (or_intror Ha)))) as (code & ->).
      reflexivity. }
  right. exists v, dt, ar.
  destruct (new_audit_post P rq s v rd dt ar Hm Hv Hd Hp Ha) as (fs & ->).
  destruct (forallb _ _); [right | left]; reflexivity.
Qed.

Lemma inv_new_audit P rq s :
  db_inv (tables s) -> db_inv (tables (snd (serve (new_audit P rq) s))).
Proof.
  intro H.
  destruct (new_audit_tables P rq s) as [->|(v & dt & ar & [->| ->])].
  - exact H.
  - apply inv_header; exact H.
  - set (a := new_audit_row P (tables s) v dt ar).
    set (d1 := with_audits (audits (tables s) ++ [a])%list (tables s)).
    change (audit_items (tables s)) with (audit_items d1).
    apply inv_rows.
    + apply inv_header; exact H.
    + simpl. rewrite map_app. apply in_or_app. right. left. reflexivity.
    + intros i Hi. simpl. unfold checklist_items_by_id in Hi.
      eapply Permutation_in; [|exact Hi].
      apply Permutation_map, order_by_perm.
Qed.

Lemma inv_delete_audit P i s :
  db_inv (tables s) -> db_inv (tables (snd (serve (delete_audit P i) s))).
Proof.
  intro H.
  destruct (get_audit i (tables s)) as [a|] eqn:Ha.
  2:{ rewrite (delete_audit_missing P i s Ha). exact H. }
  destruct (delete_audit_found P i s a Ha) as (fs & -> & _).
  destruct H as ((Kc & Ki & Ka & Kai) & N & R).
  unfold after_delete. cbn [snd tables].
  split; [|split].
  - split; [|split; [|split]]; simpl; try assumption;
      apply NoDup_map_filter; assumption.
  - exact N.
  - intros ai Hai. simpl in Hai. apply filter_In in Hai.
    destruct Hai as [Hai Hk]. destruct (R ai Hai) as [H1 H2].
    split; [|exact H2].
    assert (Hne : AuditItem.audit_id ai <> i).
    { intro He. rewrite key_in_self in Hk; [discriminate|].
      unfold audit_items_of. apply filter_In. split; [exact Hai|].
      apply Z.eqb_eq. exact He. }
    unfold get_audit in *. simpl. apply find_id_not_None.
    apply find_id_not_None in H1. apply in_map_iff in H1.
    destruct H1 as (b & Hb & Hbin). apply in_map_iff. exists b.
    split; [exact Hb|]. apply filter_In. split; [exact Hbin|].
    apply negb_true_iff. apply Z.eqb_neq. congruence.
Qed.

(** *** The requests that only read *)

Lemma home_run s : serve home s = (Html (flashes s) HomePage, shown s).
Proof. reflexivity. Qed.

Lemma audits_list_tables s : tables (snd (serve audits_list s)) = tables s.
Proof.
  unfold serve, audits_list. unfold bind at 1. unfold query at 1.
  unfold bind at 1.
  rewrite (pure_run (for_map _ _) _ (pure_for_map _ _ pure_audit_entry_of)).
  destruct (fst _); reflexivity.
Qed.

Lemma export_audit_tables P i s :
  snd (serve (export_audit P i) s) = s.
Proof.
  rewrite export_audit_run.
  destruct (get_audit i (tables s)); [|reflexivity].
  destruct (map_option _ _); reflexivity.
Qed.

Lemma export_mil_tables P s :
  tables (snd (serve (export_mil P) s)) = tables s.
Proof.
  rewrite export_mil_run.
  destruct (map_option _ _) as [[|r rows]|]; reflexivity.
Qed.

Lemma inv_handle P c s :
  db_inv (tables s) -> db_inv (tables (snd (serve (handle P c) s))).
Proof.
  intro H. destruct c as [|rq| |rq|i|i|]; cbn [handle].
  - exact H.
  - apply inv_checklist; exact H.
  - rewrite audits_list_tables. exact H.
  - apply inv_new_audit; exact H.
  - apply inv_delete_audit; exact H.
  - rewrite export_audit_tables. exact H.
  - rewrite export_mil_tables. exact H.
Qed.

Lemma inv_empty : db_inv empty_db.
Proof.
  split; [|split].
  - repeat split; constructor.
  - split; [constructor | intros c []].
  - intros ai [].
Qed.

Lemma inv_after_calls cs : forall s,
  db_inv (tables s) -> db_inv (tables (after_calls cs s)).
Proof.
  induction cs as [|[P c] r IH]; intros s H; simpl; [exact H|].
  apply IH. apply inv_handle. exact H.
Qed.

(** X8: whatever requests have been served since the tables were created
    empty, the primary keys of each table are pairwise distinct. *)
Theorem keys_stay_distinct (cs : list (Platform * call)) :
  keys_distinct (tables (after_calls cs (site_of empty_db))).
Proof. apply (inv_after_calls cs (site_of empty_db) inv_empty). Qed.

(** X9: whatever requests have been served since the tables were created
    empty, the category names are pairwise distinct, none is empty and none
    starts or ends with whitespace. *)
Theorem category_names_stay_clean (cs : list (Platform * call)) :
  names_clean (tables (after_calls cs (site_of empty_db))).
Proof. apply (inv_after_calls cs (site_of empty_db) inv_empty). Qed.

(** X10: whatever requests have been served since the tables were created
    empty, every audit item references a stored audit and a stored checklist
    item. *)
Theorem audit_items_stay_referenced (cs : list (Platform * call)) :
  refs_stored (tables (after_calls cs (site_of empty_db))).
Proof. apply (inv_after_calls cs (site_of empty_db) inv_empty). Qed.

(** ** Deleting an audit and the other audits *)

Lemma same_key_same_row (l : list AuditItem.t) x y :
  NoDup (map AuditItem.id l) -> In x l -> In y l ->
  AuditItem.id x = AuditItem.id y -> x = y.
Proof.
  induction l as [|a r IH]; simpl; intros Hnd Hx Hy He; [contradiction|].
  inversion Hnd as [|k ks Hn Hr]; subst.
  destruct Hx as [->|Hx], Hy as [->|Hy].
  - reflexivity.
  - exfalso. apply Hn. rewrite He. apply in_map; exact Hy.
  - exfalso. apply Hn. rewrite <- He. apply in_map; exact Hx.
  - apply IH; assumption.
Qed.

Lemma key_in_In l x :
  key_in l x = true -> exists y, In y l /\ AuditItem.id x = AuditItem.id y.
Proof.
  unfold key_in. intro H. apply existsb_exists in H.
  destruct H as (y & Hy & He). apply Z.eqb_eq in He. exists y; auto.
Qed.

Lemma find_filter_other (l : list Audit.t) i j :
  j <> i ->
  find (fun a => Audit.id a =? j)
       (filter (fun x => negb (Audit.id x =? i)) l)
  = find (fun a => Audit.id a =? j) l.
Proof.
  intro Hne. induction l as [|a r IH]; simpl; [reflexivity|].
  destruct (Z.eqb_spec (Audit.id a) i) as [e|ne]; simpl.
  - destruct (Z.eqb_spec (Audit.id a) j); [congruence | exact IH].
  - destruct (Audit.id a =? j); [reflexivity | exact IH].
Qed.

(** X11: deleting an audit leaves every other audit and the items of every
    other audit as they were (the audit item keys being distinct), and does
    not touch the categories and the checklist. *)
Theorem delete_audit_keeps_others (P : Platform) (s : Site) (i : Z)
  (a : Audit.t) :
  get_audit i (tables s) = Some a ->
  NoDup (map AuditItem.id (audit_items (tables s))) ->
  forall j, j <> i ->
    get_audit j (tables (snd (serve (delete_audit P i) s)))
    = get_audit j (tables s)
    /\ audit_items_of j (tables (snd (serve (delete_audit P i) s)))
       = audit_items_of j (tables s).
Proof.
  intros Ha Hnd j Hne.
  destruct (delete_audit_found P i s a Ha) as (fs & -> & _).
  unfold after_delete. cbn [snd tables]. split.
  - unfold get_audit. simpl. apply find_filter_other. exact Hne.
  - unfold audit_items_of at 1 3. simpl. rewrite filter_filter.
    apply filter_ext_in. intros x Hx.
    destruct (Z.eqb_spec (AuditItem.audit_id x) j) as [e|ne];
      [|apply andb_false_r].
    rewrite andb_true_r. apply negb_true_iff.
    destruct (key_in (audit_items_of i (tables s)) x) eqn:Hk; [|reflexivity].
    exfalso. apply key_in_In in Hk. destruct Hk as (y & Hy & He).
    unfold audit_items_of in Hy. apply filter_In in Hy. destruct Hy as [Hy Hyi].
    apply Z.eqb_eq in Hyi.
    pose proof (same_key_same_row _ x y Hnd Hx Hy He). subst y. congruence.
Qed.

Lemma delete_audit_keeps_others_witness :
  get_audit 2
    (tables (snd (serve (delete_audit sample_platform 1) dated_site)))
  = Some later_audit
  /\ audit_items_of 2
       (tables (snd (serve (delete_audit sample_platform 1) dated_site)))
     = [later_item 3 1 (Some 3); later_item 4 2 None].
Proof.
  apply (delete_audit_keeps_others sample_platform dated_site 1 sample_audit
           eq_refl).
  - simpl. repeat constructor; simpl; intuition discriminate.
  - discriminate.
Defined.

(** ** Creating an audit and deleting it again *)

(** A request to [new_audit] that redirects was a complete one. *)
Lemma new_audit_success P rq s :
  fst (serve (new_audit P rq) s) = Redirect "/audits" ->
  exists v dt ar fs,
    serve (new_audit P rq) s
    = (Redirect "/audits",
       {| tables :=
            with_audit_items
              (audit_items (tables s) ++
               new_rows P rq (Audit.id (new_audit_row P (tables s) v dt ar))
                 (checklist_items_by_id (tables s)) (audit_items (tables s)))%list
              (with_audits
                 (audits (tables s) ++ [new_audit_row P (tables s) v dt ar])%list
                 (tables s));
          uploads := fs;
          flashes := (flashes s ++ ["Audit created successfully!"])%list |})
    /\ forallb (item_accepted P rq
                  (Audit.id (new_audit_row P (tables s) v dt ar)))
               (checklist_items_by_id (tables s)) = true.
Proof.
  destruct (method rq) eqn:Hm.
  { intro H. exfalso. revert H.
    unfold serve, new_audit. rewrite Hm.
    unfold bind at 1. unfold query at 1. unfold bind at 1. unfold query at 1.
    unfold bind at 1.
    rewrite (pure_run (for_map _ _) _).
    - destruct (fst (for_map _ _ _)); simpl; discriminate.
    - apply pure_for_map. intro i.
      apply pure_bind; [apply pure_item_category_name|]; intro c.
      apply pure_ret. }
  destruct (lookup "vendor" (form rq)) as [v|] eqn:Hv.
  2:{ destruct (new_audit_post_rejected P rq s Hm (or_introl Hv))
        as (code & ->). discriminate. }
  destruct (lookup "audit_date" (form rq)) as [rd|] eqn:Hd.
  2:{ destruct (new_audit_post_rejected P rq s Hm
                  (or_intror (or_introl Hd))) as (code & ->). discriminate. }
  destruct (fromisoformat P rd) as [dt|] eqn:Hp.
  2:{ destruct (new_audit_post_rejected P rq s Hm
                  (or_intror (or_intror (or_introl
                     (ex_intro _ rd (conj Hd Hp)))))) as (code & ->).
      discriminate. }
  destruct (lookup "audit_area" (form rq)) as [ar|] eqn:Ha.
  2:{ destruct (new_audit_post_rejected P rq s Hm
                  (or_intror (or_intror (or_intror Ha)))) as (code & ->).
      discriminate. }
  destruct (new_audit_post P rq s v rd dt ar Hm Hv Hd Hp Ha) as (fs & ->).
  destruct (forallb _ _) eqn:Hall; [|discriminate].
  intros _. exists v, dt, ar, fs. split; [reflexivity | exact Hall].
Qed.

Lemma filter_none {A} (p : A -> bool) l :
  (forall x, In x l -> p x = false) -> filter p l = [].
Proof.
  induction l as [|a r IH]; simpl; intro H; [reflexivity|].
  rewrite (H a (or_introl eq_refl)). apply IH. intros x Hx. apply H; auto.
Qed.

Lemma filter_all {A} (p : A -> bool) l :
  (forall x, In x l -> p x = true) -> filter p l = l.
Proof.
  induction l as [|a r IH]; simpl; intro H; [reflexivity|].
  rewrite (H a (or_introl eq_refl)). f_equal. apply IH.
  intros x Hx. apply H; auto.
Qed.

Lemma NoDup_app_disjoint {A} (l l' : list A) x :
  NoDup (l ++ l') -> In x l -> In x l' -> False.
Proof.
  induction l as [|a r IH]; simpl; intros Hnd Hx Hx'; [contradiction|].
  inversion Hnd as [|k ks Hn Hr]; subst.
  destruct Hx as [->|Hx].
  - apply Hn. apply in_or_app. right. exact Hx'.
  - exact (IH Hr Hx Hx').
Qed.

(** X12: over tables that satisfy the invariants, deleting an audit right
    after its successful creation gives back the tables as they were before
    the creation. *)
Theorem create_then_delete_restores (P P' : Platform) (rq : Request)
  (s : Site) :
  db_inv (tables s) ->
  fst (serve (new_audit P rq) s) = Redirect "/audits" ->
  tables (snd (serve (delete_audit P' (next_id (map Audit.id (audits (tables s)))))
                     (snd (serve (new_audit P rq) s))))
  = tables s.
Proof.
  intros ((Kc & Ki & Ka & Kai) & N & R) Hok.
  destruct (new_audit_success P rq s Hok) as (v & dt & ar & fs & -> & _).
  set (a := new_audit_row P (tables s) v dt ar).
  set (aid := next_id (map Audit.id (audits (tables s)))).
  change (Audit.id a) with aid.
  set (new := new_rows P rq aid (checklist_items_by_id (tables s))
                (audit_items (tables s))).
  cbn [snd].
  set (s1 := {| tables := _; uploads := fs; flashes := _ |}).
  assert (Hget : get_audit aid (tables s1) = Some a).
  { unfold get_audit. simpl. rewrite find_app_or.
    destruct (find _ (audits (tables s))) as [b|] eqn:Hf.
    - apply find_some in Hf. destruct Hf as [Hb Hbi]. apply Z.eqb_eq in Hbi.
      exfalso. apply (next_id_not_in (map Audit.id (audits (tables s)))).
      fold aid. rewrite <- Hbi. apply in_map; exact Hb.
    - simpl. unfold aid. rewrite Z.eqb_refl. reflexivity. }
  destruct (delete_audit_found P' aid s1 a Hget) as (fs' & -> & _).
  unfold after_delete. cbn [snd tables].
  assert (Hold : forall x, In x (audit_items (tables s)) ->
                           AuditItem.audit_id x <> aid).
  { intros x Hx He. destruct (R x Hx) as [H1 _].
    unfold get_audit in H1. apply find_id_not_None in H1.
    rewrite He in H1. exact (next_id_not_in _ H1). }
  assert (Hnew : forall x, In x new -> AuditItem.audit_id x = aid).
  { intros x Hx. apply (new_rows_refs _ _ _ _ _ _ Hx). }
  assert (Howned : audit_items_of aid (tables s1) = new).
  { unfold audit_items_of. simpl. rewrite filter_app.
    rewrite filter_none, filter_all; [reflexivity| |].
    - intros x Hx. apply Z.eqb_eq. apply Hnew; exact Hx.
    - intros x Hx. apply Z.eqb_neq. apply Hold; exact Hx. }
  rewrite Howned. simpl.
  assert (Haudits : filter (fun x => negb (Audit.id x =? aid))
                           (audits (tables s) ++ [a]) = audits (tables s)).
  { rewrite filter_app. simpl. unfold aid at 2. rewrite Z.eqb_refl. simpl.
    rewrite app_nil_r. apply filter_all. intros x Hx.
    apply negb_true_iff. apply Z.eqb_neq. intro He.
    apply (next_id_not_in (map Audit.id (audits (tables s)))).
    fold aid. rewrite <- He. apply in_map; exact Hx. }
  assert (Hitems : filter (fun x => negb (key_in new x))
                          (audit_items (tables s) ++ new)
                   = audit_items (tables s)).
  { rewrite filter_app. rewrite (filter_none _ new).
    - rewrite app_nil_r. apply filter_all. intros x Hx.
      apply negb_true_iff.
      destruct (key_in new x) eqn:Hk; [|reflexivity].
      exfalso. apply key_in_In in Hk. destruct Hk as (y & Hy & He).
      pose proof (new_rows_keys P rq aid (checklist_items_by_id (tables s))
                    (audit_items (tables s)) Kai) as Hnd.
      fold new in Hnd. rewrite map_app in Hnd.
      apply (NoDup_app_disjoint _ _ (AuditItem.id x) Hnd).
      + apply in_map; exact Hx.
      + rewrite He. apply in_map; exact Hy.
    - intros x Hx. rewrite (key_in_self _ _ Hx). reflexivity. }
  rewrite Haudits, Hitems. destruct (tables s); reflexivity.
Qed.

Lemma safety_db_inv : db_inv safety_db.
Proof.
  split; [|split].
  - repeat split; simpl; repeat constructor; simpl; intuition discriminate.
  - split; [simpl; repeat constructor; simpl; intuition|].
    intros c [<-|[]]. split; [discriminate | reflexivity].
  - intros ai [].
Qed.

Lemma create_then_delete_restores_witness :
  tables (snd (serve (delete_audit sample_platform 1)
                 (snd (serve (new_audit sample_platform partial_score_request)
                         (site_of safety_db)))))
  = safety_db.
Proof.
  exact (create_then_delete_restores sample_platform sample_platform
           partial_score_request (site_of safety_db) safety_db_inv eq_refl).
Defined.

(** ** Rejected audits *)



(** ** Stored photo names are safe *)

Lemma str_forall_filter p s : Py.str_forall p (Py.str_filter p s) = true.
Proof.
  induction s as [|c r IH]; simpl; [reflexivity|].
  destruct (p c) eqn:Hc; simpl; [rewrite Hc|]; exact IH.
Qed.

Lemma str_forall_lstrip p q s :
  Py.str_forall p s = true -> Py.str_forall p (Py.lstrip q s) = true.
Proof.
  induction s as [|c r IH]; simpl; [reflexivity|]. intro H.
  destruct (q c); [|exact H].
  apply andb_true_iff in H. apply IH. tauto.
Qed.

Lemma str_forall_rstrip p q s :
  Py.str_forall p s = true -> Py.str_forall p (Py.rstrip q s) = true.
Proof.
  induction s as [|c r IH]; [reflexivity|]. cbn [Py.str_forall Py.rstrip].
  intro H. apply andb_true_iff in H. destruct H as [Hc Hr].
  specialize (IH Hr).
  destruct (Py.rstrip q r) as [|d r'].
  - destruct (q c); [reflexivity|]. simpl. rewrite Hc. reflexivity.
  - cbn [Py.str_forall] in *. rewrite Hc, IH. reflexivity.
Qed.

(** What [secure_filename] returns is made of letters, digits, dots,
    underscores and hyphens, and does not start with a dot. *)
Lemma secure_filename_safe P name :
  Py.str_forall filename_char (secure_filename P name) = true
  /\ (secure_filename P name = ""
      \/ exists c r, secure_filename P name = String c r
                     /\ Ascii.eqb c "." = false).
Proof.
  unfold secure_filename.
  set (n1 := fold_left _ _ _).
  set (n2 := Py.str_filter filename_char (Py.join "_" (Py.split n1))).
  assert (H2 : Py.str_forall filename_char n2 = true)
    by apply str_forall_filter.
  assert (H3 : Py.str_forall filename_char (Py.strip_chars dot_or_underscore n2)
               = true).
  { unfold Py.strip_chars. apply str_forall_rstrip, str_forall_lstrip, H2. }
  assert (H4 : Py.strip_chars dot_or_underscore n2 = ""
               \/ exists c r, Py.strip_chars dot_or_underscore n2 = String c r
                              /\ Ascii.eqb c "." = false).
  { unfold Py.strip_chars.
    destruct (lstrip_head dot_or_underscore n2) as [->|(c & r & -> & Hc)];
      [left; reflexivity|].
    destruct (rstrip_headed dot_or_underscore c r) as [->|(r' & ->)];
      [left; reflexivity|].
    right. exists c, r'. split; [reflexivity|].
    unfold dot_or_underscore in Hc. apply orb_false_iff in Hc. tauto. }
  destruct (os_name P); [split; assumption|].
  destruct (Py.truthy _ && existsb _ _); [|split; assumption].
  split.
  - simpl. exact H3.
  - right. eexists _, _. split; reflexivity.
Qed.

(** X14: the name under which a photo is stored consists of letters,
    digits, dots, underscores and hyphens only, hence holds no path
    separator, and does not start with a dot, whatever the original file
    name; on a platform whose normalisation leaves ASCII in place it starts
    with the audit identifier, an underscore and the item identifier, and
    so is not empty. *)
Theorem stored_photo_name_is_safe (P : Platform) (a i : Z) (f : string) :
  Py.str_forall filename_char (stored_photo_name P a i f) = true
  /\ Py.str_forall (fun c => negb (Ascii.eqb c "/") && negb (Ascii.eqb c "\"))
                   (stored_photo_name P a i f) = true
  /\ (forall r, stored_photo_name P a i f <> String "." r)
  /\ (nfkd_keeps_ascii P ->
      exists t, stored_photo_name P a i f
                = Py.str_of_int a ++ "_" ++ Py.str_of_int i ++ t
                /\ stored_photo_name P a i f <> "").
Proof.
  destruct (secure_filename_safe P (photo_name a i f)) as [Hsafe Hhead].
  fold (stored_photo_name P a i f) in Hsafe, Hhead.
  split; [exact Hsafe|]. split; [|split].
  - apply (str_forall_impl filename_char); [|exact Hsafe].
    intro c. destruct c as [[|] [|] [|] [|] [|] [|] [|] [|]];
      vm_compute; intro H; try discriminate H; reflexivity.
  - intros r Hr. destruct Hhead as [He|(c & r' & He & Hc)];
      rewrite He in Hr; [discriminate|].
    inversion Hr; subst. discriminate.
  - intro Hn. destruct (stored_photo_name_shape P a i f Hn) as (t & Hs & _).
    exists t. split; [exact Hs|]. rewrite Hs.
    pose proof (str_of_int_nonempty a) as Ha.
    destruct (Py.str_of_int a); [contradiction | discriminate].
Qed.

Lemma stored_photo_name_is_safe_witness :
  exists t, stored_photo_name sample_platform 7 1 "../../etc/passwd"
            = Py.str_of_int 7 ++ "_" ++ Py.str_of_int 1 ++ t
            /\ stored_photo_name sample_platform 7 1 "../../etc/passwd" <> "".
Proof.
  exact (proj2 (proj2 (proj2
           (stored_photo_name_is_safe sample_platform 7 1 "../../etc/passwd")))
           sample_nfkd_keeps_ascii).
Defined.

(** ** Printed identifiers parse back *)

Lemma append_nil_r (s : string) : s ++ "" = s.
Proof. induction s as [|c r IH]; simpl; [|rewrite IH]; reflexivity. Qed.

Lemma strip_chars_none p s :
  Py.str_forall (fun c => negb (p c)) s = true -> Py.strip_chars p s = s.
Proof.
  intro H. unfold Py.strip_chars.
  assert (Hl : Py.lstrip p s = s).
  { destruct s as [|c r]; [reflexivity|]. simpl in H.
    apply andb_true_iff in H. destruct H as [Hc _].
    apply negb_true_iff in Hc. apply lstrip_keep. exact Hc. }
  rewrite Hl. rewrite <- (append_nil_r s) at 1.
  rewrite (rstrip_prefix p s "" H). apply append_nil_r.
Qed.

Lemma int_char_not_space c : int_char c = true -> Py.isspace c = false.
Proof.
  intro H. destruct (int_char_facts c H) as (Hp & _).
  apply (prefix_char_facts c Hp).
Qed.

Lemma strip_str_of_int n : Py.strip (Py.str_of_int n) = Py.str_of_int n.
Proof.
  apply strip_chars_none. apply (str_forall_impl int_char).
  - intros c Hc. rewrite (int_char_not_space c Hc). reflexivity.
  - apply str_of_int_chars.
Qed.

Ltac digit_step IH :=
  cbn [NilEmpty.string_of_uint Py.int_digits Pos.of_uint_acc Pos.of_uint];
  match goal with
  | |- context [Py.isdigit ?c] => change (Py.isdigit c) with true
  end;
  cbv iota;
  match goal with
  | |- context [Py.ord ?c] =>
      let v := eval vm_compute in (Py.ord c) in change (Py.ord c) with v
  end.

Lemma int_digits_acc d : forall p,
  Py.int_digits (NilEmpty.string_of_uint d) (Z.pos p) true
  = Some (Z.pos (Pos.of_uint_acc d p)).
Proof.
  induction d as [|d IH|d IH|d IH|d IH|d IH|d IH|d IH|d IH|d IH|d IH];
    intro p; [reflexivity| | | | | | | | | |];
    digit_step IH; rewrite <- IH; f_equal; lia.
Qed.

Lemma int_digits_zero d : forall b,
  (d = Decimal.Nil -> b = true) ->
  Py.int_digits (NilEmpty.string_of_uint d) 0 b
  = Some (Z.of_N (Pos.of_uint d)).
Proof.
  induction d as [|d IH|d IH|d IH|d IH|d IH|d IH|d IH|d IH|d IH|d IH];
    intros b Hb.
  - rewrite (Hb eq_refl). reflexivity.
  - digit_step IH. apply IH. reflexivity.
  - digit_step IH. apply (int_digits_acc d 1).
  - digit_step IH. apply (int_digits_acc d 2).
  - digit_step IH. apply (int_digits_acc d 3).
  - digit_step IH. apply (int_digits_acc d 4).
  - digit_step IH. apply (int_digits_acc d 5).
  - digit_step IH. apply (int_digits_acc d 6).
  - digit_step IH. apply (int_digits_acc d 7).
  - digit_step IH. apply (int_digits_acc d 8).
  - digit_step IH. apply (int_digits_acc d 9).
Qed.

Lemma int_char_not_blank c : int_char c = true -> Py.int_space c = false.
Proof.
  destruct c as [[|] [|] [|] [|] [|] [|] [|] [|]];
    vm_compute; intro H; try discriminate H; reflexivity.
Qed.

Lemma blanks_str_of_int n :
  Py.strip_chars Py.int_space (Py.str_of_int n) = Py.str_of_int n.
Proof.
  apply strip_chars_none. apply (str_forall_impl int_char).
  - intros c Hc. rewrite (int_char_not_blank c Hc). reflexivity.
  - apply str_of_int_chars.
Qed.

(** The numeral that [str] prints reads back as the integer. *)
Lemma numeral_str_of_int n : Py.int_numeral (Py.str_of_int n) = Some n.
Proof.
  unfold Py.int_numeral, Py.str_of_int.
  destruct n as [|p|p]; [reflexivity| |].
  - cbn [Z.to_int NilZero.string_of_int].
    pose proof (Unsigned.to_uint_nonnil p) as Hnn.
    pose proof (DecimalPos.Unsigned.of_to p) as Hof.
    pose proof (int_digits_zero (Pos.to_uint p) false) as Hd.
    rewrite Hof in Hd.
    destruct (Pos.to_uint p) as [|u|u|u|u|u|u|u|u|u|u];
      [contradiction| | | | | | | | | |];
      cbn [NilZero.string_of_uint NilEmpty.string_of_uint];
      apply Hd; discriminate.
  - cbn [Z.to_int NilZero.string_of_int].
    pose proof (Unsigned.to_uint_nonnil p) as Hnn.
    pose proof (DecimalPos.Unsigned.of_to p) as Hof.
    pose proof (int_digits_zero (Pos.to_uint p) false) as Hd.
    rewrite Hof in Hd.
    assert (Hs : NilZero.string_of_uint (Pos.to_uint p)
                 = NilEmpty.string_of_uint (Pos.to_uint p)).
    { destruct (Pos.to_uint p); [contradiction | reflexivity ..]. }
    rewrite Hs. cbv iota beta. rewrite Hd; [reflexivity|].
    intro H. contradiction.
Qed.

(** [int(str(n))] is [n], unless the numeral is too long for [int]. *)
Lemma int_str_of_int_cases n :
  Py.int (Py.str_of_int n)
  = if Py.max_str_digits
       <? Z.of_nat (String.length (Py.str_filter Py.isdigit (Py.str_of_int n)))
    then None else Some n.
Proof.
  unfold Py.int. rewrite blanks_str_of_int. cbv zeta.
  destruct (_ <? _); [reflexivity | apply numeral_str_of_int].
Qed.

Lemma int_str_of_int_inv n m : Py.int (Py.str_of_int n) = Some m -> m = n.
Proof.
  rewrite int_str_of_int_cases.
  destruct (_ <? _); intro H; [discriminate | injection H as <-; reflexivity].
Qed.

(** *** The length of a printed integer *)

Lemma digits_string_of_uint d :
  String.length (Py.str_filter Py.isdigit (NilEmpty.string_of_uint d))
  = Decimal.nb_digits d.
Proof.
  induction d as [|d IH|d IH|d IH|d IH|d IH|d IH|d IH|d IH|d IH|d IH];
    [reflexivity| | | | | | | | | |];
    cbn [NilEmpty.string_of_uint Py.str_filter Decimal.nb_digits];
    match goal with
    | |- context [Py.isdigit ?c] => change (Py.isdigit c) with true
    end;
    cbv iota; cbn [String.length]; rewrite IH; reflexivity.
Qed.

Lemma of_uint_acc_lower d : forall acc,
  Z.pos acc * 10 ^ Z.of_nat (Decimal.nb_digits d)
  <= Z.pos (Pos.of_uint_acc d acc).
Proof.
  induction d as [|d IH|d IH|d IH|d IH|d IH|d IH|d IH|d IH|d IH|d IH];
    intro acc; cbn [Decimal.nb_digits Pos.of_uint_acc];
    [rewrite Z.pow_0_r; lia | ..];
    rewrite Nat2Z.inj_succ, Z.pow_succ_r by lia;
    match goal with
    | |- _ <= Z.pos (Pos.of_uint_acc d ?a) =>
        apply Z.le_trans with (Z.pos a * 10 ^ Z.of_nat (Decimal.nb_digits d));
          [|apply IH]
    end;
    rewrite Z.mul_assoc;
    (apply Z.mul_le_mono_nonneg_r; [apply Z.pow_nonneg; lia | lia]).
Qed.

(** A positive number is at least the power of ten that its number of
    digits tells. *)
Lemma to_uint_digits p :
  10 ^ (Z.of_nat (Decimal.nb_digits (Pos.to_uint p)) - 1) <= Z.pos p.
Proof.
  pose proof (DecimalPos.Unsigned.of_to p) as Hof.
  pose proof (DecimalPos.Unsigned.to_of (Pos.to_uint p)) as Hto.
  rewrite Hof in Hto. cbn [N.to_uint] in Hto.
  pose proof (DecimalPos.Unsigned.to_uint_nonzero p) as Hnz.
  destruct (Pos.to_uint p) as [|d|d|d|d|d|d|d|d|d|d];
    [discriminate Hof | ..].
  1:{ exfalso. change (Decimal.unorm (Decimal.D0 d)) with (Decimal.unorm d)
        in Hto.
      destruct d as [|d|d|d|d|d|d|d|d|d|d];
        [apply Hnz; reflexivity | ..];
        match type of Hto with
        | Decimal.D0 ?u = _ =>
            assert (Hu : u <> Decimal.Nil) by discriminate;
            pose proof (DecimalFacts.nb_digits_unorm u Hu) as Hle;
            rewrite <- Hto in Hle; cbn [Decimal.nb_digits] in Hle; lia
        end. }
  all: cbn [Pos.of_uint] in Hof; injection Hof as <-;
    cbn [Decimal.nb_digits];
    match goal with
    | |- _ <= Z.pos (Pos.of_uint_acc ?u ?a) =>
        pose proof (of_uint_acc_lower u a) as Hlow;
        replace (Z.of_nat (S (Decimal.nb_digits u)) - 1)
          with (Z.of_nat (Decimal.nb_digits u)) by lia;
        assert (Hpow : 0 < 10 ^ Z.of_nat (Decimal.nb_digits u))
          by (apply Z.pow_pos_nonneg; lia)
    end;
    nia.
Qed.

Lemma digits_str_of_int n :
  fits_int64 n = true ->
  Z.of_nat (String.length (Py.str_filter Py.isdigit (Py.str_of_int n)))
  <= Py.max_str_digits.
Proof.
  intro Hn. unfold fits_int64 in Hn. apply andb_true_iff in Hn.
  destruct Hn as [Hlo Hhi]. apply Z.leb_le in Hlo. apply Z.leb_le in Hhi.
  assert (Hp : forall p, Z.pos p <= 9223372036854775808 ->
             Z.of_nat (String.length
                         (Py.str_filter Py.isdigit
                            (NilZero.string_of_uint (Pos.to_uint p))))
             <= Py.max_str_digits).
  { intros p Hle.
    assert (Hs : NilZero.string_of_uint (Pos.to_uint p)
                 = NilEmpty.string_of_uint (Pos.to_uint p)).
    { pose proof (Unsigned.to_uint_nonnil p) as Hnn.
      destruct (Pos.to_uint p); [contradiction | reflexivity ..]. }
    rewrite Hs, digits_string_of_uint.
    pose proof (to_uint_digits p) as Hd.
    unfold Py.max_str_digits.
    destruct (Z.le_gt_cases (Z.of_nat (Decimal.nb_digits (Pos.to_uint p))) 4300)
      as [Hk|Hk]; [exact Hk|].
    exfalso.
    assert (Hpow : 10 ^ 19
                   <= 10 ^ (Z.of_nat (Decimal.nb_digits (Pos.to_uint p)) - 1))
      by (apply Z.pow_le_mono_r; lia).
    change (10 ^ 19) with 10000000000000000000 in Hpow. lia. }
  unfold Py.str_of_int. destruct n as [|p|p].
  - vm_compute. discriminate.
  - cbn [Z.to_int NilZero.string_of_int]. apply Hp. lia.
  - cbn [Z.to_int NilZero.string_of_int Py.str_filter].
    change (Py.isdigit "-") with false. cbv iota. apply Hp. lia.
Qed.

(** [int(str(n))] is [n] for an integer that the database holds. *)
Lemma int_str_of_int n :
  fits_int64 n = true -> Py.int (Py.str_of_int n) = Some n.
Proof.
  intro Hn. rewrite int_str_of_int_cases.
  pose proof (digits_str_of_int n Hn) as Hd.
  destruct (Z.ltb_spec Py.max_str_digits
              (Z.of_nat (String.length
                           (Py.str_filter Py.isdigit (Py.str_of_int n)))));
    [lia | reflexivity].
Qed.

(** ** Editing from the checklist page *)

(** X15: the checklist page renders the identifier of an item into the
    hidden field [item_id]; posting that text back with a new text reaches
    that item: the request redirects, and afterwards the item carries the
    posted text and specification while its identifier and category are as
    before.  The identifier is a key of the database, an integer of 64
    bits, which [int] reads back from its decimal text. *)
Theorem edit_from_page_reaches_item (rq : Request) (s : Site)
  (it : ChecklistItem.t) (t : string) :
  method rq = POST ->
  lookup "category_name" (form rq) = None ->
  lookup "item_id" (form rq) = Some (Py.str_of_int (ChecklistItem.id it)) ->
  lookup "item_text" (form rq) = Some t ->
  get_checklist_item (ChecklistItem.id it) (tables s) = Some it ->
  fits_int64 (ChecklistItem.id it) = true ->
  fst (serve (checklist rq) s) = Redirect "/checklist"
  /\ get_checklist_item (ChecklistItem.id it)
       (tables (snd (serve (checklist rq) s)))
     = Some {| ChecklistItem.id := ChecklistItem.id it;
               ChecklistItem.category_id := ChecklistItem.category_id it;
               ChecklistItem.text := t;
               ChecklistItem.original_spec :=
                 Some (or_empty (lookup "original_spec" (form rq))) |}.
Proof.
  intros Hm Hc Hi Ht Hget Hfit.
  rewrite (checklist_update_post rq s _ (ChecklistItem.id it) t Hm Hc Hi
             (int_str_of_int _ Hfit) Ht), Hget.
  split; [reflexivity|]. cbn [snd tables with_flash with_tables].
  unfold get_checklist_item in *. simpl.
  apply (find_set_item_fields _ t _ _ it Hget).
Qed.

Lemma edit_from_page_reaches_item_witness :
  get_checklist_item 2
    (tables (snd (serve (checklist (post [("item_id", "2");
                                          ("item_text", "Hoses checked")]))
                    (site_of safety_db))))
  = Some {| ChecklistItem.id := 2; ChecklistItem.category_id := 1;
            ChecklistItem.text := "Hoses checked";
            ChecklistItem.original_spec := Some "" |}.
Proof.
  exact (proj2 (edit_from_page_reaches_item
                  (post [("item_id", "2"); ("item_text", "Hoses checked")])
                  (site_of safety_db)
                  {| ChecklistItem.id := 2; ChecklistItem.category_id := 1;
                     ChecklistItem.text := "Extinguishers checked";
                     ChecklistItem.original_spec := Some "" |}
                  "Hoses checked" eq_refl eq_refl eq_refl eq_refl eq_refl
                  eq_refl)).
Defined.

Lemma set_item_fields_other i t o l c :
  In c l -> ChecklistItem.id c <> i -> In c (map (set_item_fields i t o) l).
Proof.
  intros Hin Hne. apply in_map_iff. exists c. split; [|exact Hin].
  unfold set_item_fields.
  destruct (Z.eqb_spec (ChecklistItem.id c) i); [contradiction | reflexivity].
Qed.

Lemma set_item_fields_categories i t o l :
  map ChecklistItem.category_id (map (set_item_fields i t o) l)
  = map ChecklistItem.category_id l.
Proof.
  induction l as [|a r IH]; simpl; [reflexivity|]. rewrite IH. f_equal.
  unfold set_item_fields. destruct (ChecklistItem.id a =? i); reflexivity.
Qed.

Lemma find_set_item_fields_other i j t o l :
  j <> i ->
  find (fun c => ChecklistItem.id c =? j) (map (set_item_fields i t o) l)
  = find (fun c => ChecklistItem.id c =? j) l.
Proof.
  intro Hne. induction l as [|a r IH]; simpl; [reflexivity|].
  unfold set_item_fields at 1 2.
  destruct (Z.eqb_spec (ChecklistItem.id a) i) as [e|ne]; simpl.
  - destruct (Z.eqb_spec (ChecklistItem.id a) j); [congruence | exact IH].
  - destruct (ChecklistItem.id a =? j); [reflexivity | exact IH].
Qed.

(** X16: a successful update of a checklist item changes the text and the
    specification of that item only: the identifiers and categories of the
    checklist are as before, every other item is untouched, and so are the
    other three tables.  Stored audit items keep pointing at the live item:
    what the exports read as the text of an audit item of the updated
    checklist item is the new text, and for the others what it was. *)
Theorem update_changes_one_item (rq : Request) (s : Site) (raw : string)
  (i : Z) (t : string) (it : ChecklistItem.t) :
  method rq = POST ->
  lookup "category_name" (form rq) = None ->
  lookup "item_id" (form rq) = Some raw ->
  Py.int raw = Some i ->
  lookup "item_text" (form rq) = Some t ->
  get_checklist_item i (tables s) = Some it ->
  let d' := tables (snd (serve (checklist rq) s)) in
  map ChecklistItem.id (checklist_items d')
  = map ChecklistItem.id (checklist_items (tables s))
  /\ map ChecklistItem.category_id (checklist_items d')
     = map ChecklistItem.category_id (checklist_items (tables s))
  /\ (forall c, In c (checklist_items (tables s)) -> ChecklistItem.id c <> i ->
                In c (checklist_items d'))
  /\ categories d' = categories (tables s)
  /\ audits d' = audits (tables s)
  /\ audit_items d' = audit_items (tables s)
  /\ (forall ai, AuditItem.checklist_item_id ai = i ->
                 item_text_in d' ai = Some t)
  /\ (forall ai, AuditItem.checklist_item_id ai <> i ->
                 item_text_in d' ai = item_text_in (tables s) ai).
Proof.
  intros Hm Hc Hi Hint Ht Hget d'. subst d'.
  rewrite (checklist_update_post rq s raw i t Hm Hc Hi Hint Ht), Hget.
  pose proof (get_checklist_item_id _ _ _ Hget) as Hid. rewrite Hid.
  cbn [snd tables with_flash with_tables with_checklist_items
       checklist_items categories audits audit_items].
  split; [apply set_item_fields_ids|].
  split; [apply set_item_fields_categories|].
  split; [intros c Hin Hne; apply set_item_fields_other; assumption|].
  split; [reflexivity|]. split; [reflexivity|]. split; [reflexivity|].
  split.
  - intros ai Hai. unfold item_text_in, get_checklist_item. simpl.
    rewrite Hai.
    unfold get_checklist_item in Hget.
    rewrite (find_set_item_fields i t _ _ it Hget). reflexivity.
  - intros ai Hai. unfold item_text_in, get_checklist_item. simpl.
    rewrite find_set_item_fields_other by exact Hai. reflexivity.
Qed.

Lemma update_changes_one_item_witness :
  item_text_in
    (tables (snd (serve (checklist (post [("item_id", "2");
                                          ("item_text", "Hoses checked")]))
                    (site_of (audited_db (Some 2) (Some 3))))))
    (sample_item 2 2 (Some 3))
  = Some "Hoses checked".
Proof.
  pose proof (update_changes_one_item
                (post [("item_id", "2"); ("item_text", "Hoses checked")])
                (site_of (audited_db (Some 2) (Some 3))) "2" 2 "Hoses checked"
                {| ChecklistItem.id := 2; ChecklistItem.category_id := 1;
                   ChecklistItem.text := "Extinguishers checked";
                   ChecklistItem.original_spec := Some "" |}
                eq_refl eq_refl eq_refl eq_refl eq_refl eq_refl) as H.
  cbv zeta in H. destruct H as (_ & _ & _ & _ & _ & _ & H & _).
  apply H. reflexivity.
Defined.

(** X17: adding a checklist item whose text is not empty after trimming,
    under a category identifier that fits in 64 bits, appends exactly one
    item, with a key that no item had, the given category, the trimmed text
    and the trimmed specification (empty when none was posted); the items
    that were there and the other tables are unchanged, and the new item is
    the one found under its key.  Under a category identifier that does not
    fit, the request answers 500 and nothing is stored. *)
Theorem add_checklist_item_appends (rq : Request) (s : Site)
  (raw_c raw_t : string) (c : Z) :
  method rq = POST ->
  lookup "category_name" (form rq) = None ->
  lookup "item_id" (form rq) = None ->
  lookup "item_text" (form rq) = Some raw_t ->
  lookup "category_id" (form rq) = Some raw_c ->
  Py.int raw_c = Some c ->
  Py.strip raw_t <> "" ->
  (fits_int64 c = true ->
   exists item,
     serve (checklist rq) s
     = (Redirect "/checklist",
        with_flash "Checklist item added"
          (with_tables
             (with_checklist_items (checklist_items (tables s) ++ [item])%list
                                   (tables s)) s))
     /\ ~ In (ChecklistItem.id item)
             (map ChecklistItem.id (checklist_items (tables s)))
     /\ ChecklistItem.category_id item = c
     /\ ChecklistItem.text item = Py.strip raw_t
     /\ Py.strip (ChecklistItem.text item) = ChecklistItem.text item
     /\ ChecklistItem.original_spec item
        = Some (Py.strip (or_empty (lookup "original_spec" (form rq))))
     /\ get_checklist_item (ChecklistItem.id item)
          (tables (snd (serve (checklist rq) s))) = Some item)
  /\ (fits_int64 c = false -> serve (checklist rq) s = (Status 500, s)).
Proof.
  intros Hm Hc Hi Ht Hcat Hint Hne.
  rewrite (checklist_add_item_post rq s raw_c c raw_t Hm Hc Hi Ht Hcat Hint).
  assert (Htr : Py.truthy (Py.strip raw_t) = true)
    by (destruct (Py.strip raw_t); [contradiction | reflexivity]).
  rewrite Htr. split; [|intros ->; reflexivity]. intros ->.
  eexists. split; [reflexivity|].
  cbn [ChecklistItem.id ChecklistItem.category_id ChecklistItem.text
       ChecklistItem.original_spec].
  split; [apply next_id_not_in|]. split; [reflexivity|].
  split; [reflexivity|]. split; [apply strip_idem|]. split; [reflexivity|].
  cbn [snd tables with_flash with_tables with_checklist_items].
  unfold get_checklist_item, with_checklist_items. cbn [checklist_items].
  rewrite find_app_or.
  destruct (find _ (checklist_items (tables s))) as [x|] eqn:Hf.
  - apply find_some in Hf. destruct Hf as [Hx Hxi]. apply Z.eqb_eq in Hxi.
    exfalso. apply (next_id_not_in (map ChecklistItem.id
                                        (checklist_items (tables s)))).
    rewrite <- Hxi. apply in_map; exact Hx.
  - cbn [find ChecklistItem.id]. rewrite Z.eqb_refl. reflexivity.
Qed.

Lemma add_checklist_item_appends_witness :
  exists item,
    serve (checklist (post [("category_id", "1"); ("item_text", "  Floor dry ")]))
          (site_of safety_db)
    = (Redirect "/checklist",
       with_flash "Checklist item added"
         (with_tables
            (with_checklist_items (checklist_items safety_db ++ [item])%list
                                  safety_db) (site_of safety_db)))
    /\ ChecklistItem.text item = "Floor dry".
Proof.
  destruct (add_checklist_item_appends
              (post [("category_id", "1"); ("item_text", "  Floor dry ")])
              (site_of safety_db) "1" "  Floor dry " 1
              eq_refl eq_refl eq_refl eq_refl eq_refl eq_refl)
    as [Hfit _]; [discriminate|].
  destruct (Hfit eq_refl) as (item & Hrun & _ & _ & Htxt & _).
  exists item. split; [exact Hrun | exact Htxt].
Defined.

(** ** The photos and scores of a new audit *)

Lemma file_exists_put f g data fs :
  file_exists f (file_put g data fs) = file_exists f fs || String.eqb g f.
Proof.
  unfold file_exists. induction fs as [|[p d] r IH]; simpl.
  - apply orb_false_r.
  - destruct (String.eqb_spec p g) as [->|Hpg]; simpl.
    + destruct (String.eqb g f), (existsb _ r); reflexivity.
    + rewrite IH. apply orb_assoc.
Qed.

(** One pass of the loop removes no file, and when it raises nothing the
    photo of the item is in the upload folder. *)
Lemma store_item_files P rq aid item w :
  (forall f, file_exists f (uploads (site w)) = true ->
             file_exists f (uploads (site (snd (store_item P rq aid item w))))
             = true)
  /\ (forall u, fst (store_item P rq aid item w) = Return u ->
      forall f, submitted_photo P rq aid item = Some f ->
                file_exists f (uploads (site (snd (store_item P rq aid item w))))
                = true).
Proof.
  unfold store_item, submitted_photo, item_key, form_get.
  destruct (lookup ("photo_" ++ Py.str_of_int (ChecklistItem.id item)) (files rq))
    as [ph|]; [destruct (Py.truthy (filename ph))|].
  - unfold bind at 1 2 3 4. unfold photo_save.
    destruct (save_denied P _) eqn:Hd.
    + split; [intros f Hf; exact Hf | intros u Hu; discriminate Hu].
    + unfold ret at 1 2.
      destruct (lookup ("score_" ++ Py.str_of_int (ChecklistItem.id item)) (form rq))
        as [sc|];
        [destruct (Py.truthy sc); [destruct (Py.int sc) eqn:Hint|]|];
        unfold bind, py_int, of_option, ret, raise, add_audit_item,
          session_update; rewrite ?Hint; simpl;
        (split;
         [ intros f Hf; rewrite file_exists_put, Hf; reflexivity
         | intros u Hu f Hf; try discriminate Hu; inversion Hf; subst;
           rewrite file_exists_put, String.eqb_refl; apply orb_true_r ]).
  - unfold bind at 1 2. unfold ret at 1 2.
    destruct (lookup ("score_" ++ Py.str_of_int (ChecklistItem.id item)) (form rq))
        as [sc|];
      [destruct (Py.truthy sc); [destruct (Py.int sc) eqn:Hint|]|];
      unfold bind, py_int, of_option, ret, raise, add_audit_item,
        session_update; rewrite ?Hint; simpl;
      (split; [intros f Hf; exact Hf | intros u Hu f Hf; discriminate Hf]).
  - unfold bind at 1 2. unfold ret at 1 2.
    destruct (lookup ("score_" ++ Py.str_of_int (ChecklistItem.id item)) (form rq))
        as [sc|];
      [destruct (Py.truthy sc); [destruct (Py.int sc) eqn:Hint|]|];
      unfold bind, py_int, of_option, ret, raise, add_audit_item,
        session_update; rewrite ?Hint; simpl;
      (split; [intros f Hf; exact Hf | intros u Hu f Hf; discriminate Hf]).
Qed.

Lemma record_item_files P rq aid item w :
  (forall f, file_exists f (uploads (site w)) = true ->
             file_exists f (uploads (site (snd (record_item P rq aid item w))))
             = true)
  /\ (forall u, fst (record_item P rq aid item w) = Return u ->
      forall f, submitted_photo P rq aid item = Some f ->
                file_exists f (uploads (site (snd (record_item P rq aid item w))))
                = true).
Proof.
  unfold record_item, bind, flush.
  destruct (bindable w); [apply store_item_files|].
  split; [intros f Hf; exact Hf | intros u Hu; discriminate Hu].
Qed.

Lemma record_loop_files P rq aid items : forall w w' u,
  for_each items (record_item P rq aid) w = (Return u, w') ->
  (forall f, file_exists f (uploads (site w)) = true ->
             file_exists f (uploads (site w')) = true)
  /\ (forall item f, In item items -> submitted_photo P rq aid item = Some f ->
                     file_exists f (uploads (site w')) = true).
Proof.
  induction items as [|item r IH]; intros w w' u H.
  - simpl in H. unfold ret in H. injection H as _ <-.
    split; [auto | intros item f []].
  - cbn [for_each] in H. unfold bind in H.
    destruct (record_item_files P rq aid item w) as [Hmono Hphoto].
    destruct (record_item P rq aid item w) as [[u1|e] w1] eqn:Hrun;
      [|discriminate].
    cbn [fst snd] in Hmono, Hphoto.
    destruct (IH w1 w' u H) as [Hm2 Hp2]. split.
    + intros f Hf. apply Hm2, Hmono, Hf.
    + intros it f [<-|Hin] Hf.
      * apply Hm2. apply (Hphoto u1 eq_refl f Hf).
      * apply (Hp2 it f Hin Hf).
Qed.

(** A complete posted audit, up to the loop over the checklist. *)
Lemma new_audit_post_loop P rq s vendor raw_date dt area :
  method rq = POST ->
  lookup "vendor" (form rq) = Some vendor ->
  lookup "audit_date" (form rq) = Some raw_date ->
  fromisoformat P raw_date = Some dt ->
  lookup "audit_area" (form rq) = Some area ->
  serve (new_audit P rq) s
  = match for_each (checklist_items_by_id (tables s))
            (record_item P rq
               (Audit.id (new_audit_row P (tables s) vendor dt area)))
            {| site :=
                 with_tables
                   (with_audits
                      (audits (tables s)
                       ++ [new_audit_row P (tables s) vendor dt area])%list
                      (tables s)) s;
               session :=
                 with_audits
                   (audits (tables s)
                    ++ [new_audit_row P (tables s) vendor dt area])%list
                   (tables s) |} with
    | (Return _, w') =>
        if bindable w'
        then (Redirect "/audits",
              {| tables := session w';
                 uploads := uploads (site w');
                 flashes := (flashes (site w')
                             ++ ["Audit created successfully!"])%list |})
        else (Status 500, site w')
    | (Raise e, w') => (Status (status_of e), site w')
    end.
Proof.
  intros Hm Hv Hd Hp Ha.
  unfold serve, new_audit.
  unfold bind at 1. unfold query at 1. unfold bind at 1. unfold query at 1.
  simpl session. rewrite Hm.
  unfold form_item. rewrite Hv. cbn [of_option]. rewrite bind_ret_l.
  rewrite Hd. cbn [of_option]. rewrite bind_ret_l.
  rewrite Hp. cbn [of_option]. rewrite bind_ret_l.
  rewrite Ha. cbn [of_option]. rewrite bind_ret_l.
  unfold bind at 1. unfold add_audit.
  unfold bind at 1. unfold query at 1. simpl session.
  unfold bind at 1. unfold session_update at 1. simpl session.
  unfold ret at 1.
  unfold bind at 1.
  rewrite commit_run by (apply bindable_no_new; apply Nat.le_refl).
  cbn [session site uploads flashes].
  unfold bind at 1.
  unfold with_tables, with_audits, new_audit_row. simpl.
  destruct (for_each _ _ _) as [[u|e] w']; [|reflexivity].
  unfold bind at 1. unfold commit.
  destruct (bindable w'); reflexivity.
Qed.

(** The header fields of a request to [new_audit] that redirects. *)
Lemma new_audit_success_fields P rq s :
  fst (serve (new_audit P rq) s) = Redirect "/audits" ->
  exists v rd dt ar,
    method rq = POST
    /\ lookup "vendor" (form rq) = Some v
    /\ lookup "audit_date" (form rq) = Some rd
    /\ fromisoformat P rd = Some dt
    /\ lookup "audit_area" (form rq) = Some ar.
Proof.
  destruct (method rq) eqn:Hm.
  { intro H. exfalso. revert H.
    unfold serve, new_audit. rewrite Hm.
    unfold bind at 1. unfold query at 1. unfold bind at 1. unfold query at 1.
    unfold bind at 1.
    rewrite (pure_run (for_map _ _) _).
    - destruct (fst (for_map _ _ _)); simpl; discriminate.
    - apply pure_for_map. intro i.
      apply pure_bind; [apply pure_item_category_name|]; intro c.
      apply pure_ret. }
  destruct (lookup "vendor" (form rq)) as [v|] eqn:Hv.
  2:{ destruct (new_audit_post_rejected P rq s Hm (or_introl Hv))
        as (code & ->). discriminate. }
  destruct (lookup "audit_date" (form rq)) as [rd|] eqn:Hd.
  2:{ destruct (new_audit_post_rejected P rq s Hm
                  (or_intror (or_introl Hd))) as (code & ->). discriminate. }
  destruct (fromisoformat P rd) as [dt|] eqn:Hp.
  2:{ destruct (new_audit_post_rejected P rq s Hm
                  (or_intror (or_intror (or_introl
                     (ex_intro _ rd (conj Hd Hp)))))) as (code & ->).
      discriminate. }
  destruct (lookup "audit_area" (form rq)) as [ar|] eqn:Ha.
  2:{ destruct (new_audit_post_rejected P rq s Hm
                  (or_intror (or_intror (or_intror Ha)))) as (code & ->).
      discriminate. }
  intros _. exists v, rd, dt, ar. repeat split; assumption.
Qed.

(** X18: after a successful [createAudit], every file that was in the upload
    folder is still there, and for every checklist item submitted with a
    photo whose file name is not empty, a file exists under the stored name
    derived from the new audit's identifier, the item's identifier and the
    original name, and the item's new row records that stored name. *)
Theorem new_audit_stores_photos (P : Platform) (rq : Request) (s : Site) :
  fst (serve (new_audit P rq) s) = Redirect "/audits" ->
  let s' := snd (serve (new_audit P rq) s) in
  let aid := next_id (map Audit.id (audits (tables s))) in
  (forall f, file_exists f (uploads s) = true ->
             file_exists f (uploads s') = true)
  /\ forall item ph,
       In item (checklist_items (tables s)) ->
       lookup ("photo_" ++ Py.str_of_int (ChecklistItem.id item)) (files rq)
       = Some ph ->
       filename ph <> "" ->
       file_exists (stored_photo_name P aid (ChecklistItem.id item) (filename ph))
                   (uploads s') = true
       /\ exists row,
            In row (audit_items (tables s'))
            /\ AuditItem.audit_id row = aid
            /\ AuditItem.checklist_item_id row = ChecklistItem.id item
            /\ AuditItem.photo_filename row
               = Some (stored_photo_name P aid (ChecklistItem.id item)
                                         (filename ph)).
Proof.
  intros Hok s' aid.
  destruct (new_audit_success_fields P rq s Hok)
    as (v & rd & dt & ar & Hm & Hv & Hd & Hp & Ha).
  destruct (new_audit_success P rq s Hok) as (v' & dt' & ar' & fs & Hrun & _).
  pose proof (new_audit_post_loop P rq s v rd dt ar Hm Hv Hd Hp Ha) as Hloop.
  change (Audit.id (new_audit_row P (tables s) v dt ar)) with aid in Hloop.
  destruct (for_each _ _ _) as [[u|e] w'] eqn:Hfor.
  2:{ rewrite Hloop in Hok. discriminate. }
  destruct (bindable w') eqn:Hbw.
  2:{ rewrite Hloop in Hok. discriminate. }
  destruct (record_loop_files P rq aid _ _ _ _ Hfor) as [Hmono Hphoto].
  assert (Hup : uploads s' = uploads (site w'))
    by (subst s'; rewrite Hloop; reflexivity).
  assert (Hsub : forall item ph,
            lookup ("photo_" ++ Py.str_of_int (ChecklistItem.id item)) (files rq)
            = Some ph -> filename ph <> "" ->
            submitted_photo P rq aid item
            = Some (stored_photo_name P aid (ChecklistItem.id item)
                                      (filename ph))).
  { intros item ph Hl Hne. unfold submitted_photo, item_key. rewrite Hl.
    destruct (filename ph); [contradiction | reflexivity]. }
  split.
  - intros f Hf. rewrite Hup. apply Hmono. exact Hf.
  - intros item ph Hin Hl Hne. split.
    + rewrite Hup. apply (Hphoto item).
      * unfold checklist_items_by_id. apply order_by_In. exact Hin.
      * apply Hsub; assumption.
    + subst s'. rewrite Hrun. cbn [snd tables with_audit_items audit_items].
      change (Audit.id (new_audit_row P (tables s) v' dt' ar')) with aid.
      pose proof (new_rows_fields P rq aid (checklist_items_by_id (tables s))
                    (audit_items (tables s))) as HF.
      assert (Hin' : In item (checklist_items_by_id (tables s)))
        by (unfold checklist_items_by_id; apply order_by_In; exact Hin).
      destruct (Forall2_In_l _ _ _ _ HF Hin')
        as (row & Hrow & H1 & H2 & _ & _ & H5).
      exists row. split; [apply in_or_app; right; exact Hrow|].
      split; [exact H1|]. split; [exact H2|].
      rewrite H5. apply Hsub; assumption.
Qed.

Lemma new_audit_stores_photos_witness :
  file_exists "1_2_my_photo.jpg"
    (uploads (snd (serve (new_audit sample_platform photo_request)
                     (site_of safety_db)))) = true
  /\ exists row,
       In row (audit_items
                 (tables (snd (serve (new_audit sample_platform photo_request)
                                 (site_of safety_db)))))
       /\ AuditItem.audit_id row = 1
       /\ AuditItem.checklist_item_id row = 2
       /\ AuditItem.photo_filename row = Some "1_2_my_photo.jpg".
Proof.
  pose proof (new_audit_stores_photos sample_platform photo_request
                (site_of safety_db) eq_refl) as H.
  cbv zeta in H. destruct H as [_ H].
  apply (H {| ChecklistItem.id := 2; ChecklistItem.category_id := 1;
              ChecklistItem.text := "Extinguishers checked";
              ChecklistItem.original_spec := Some "" |}
           {| filename := "my photo.jpg"; content := "JPEG" |}).
  - right. left. reflexivity.
  - reflexivity.
  - discriminate.
Defined.

(** X19: [createAudit] stores a submitted score as the integer it denotes,
    whatever its value: when the score field of a checklist item holds the
    decimal text of an integer [n] and the request succeeds, the row of
    that item in the new audit has score [n]; the handler enforces no range
    of its own. *)
Theorem new_audit_stores_any_integer (P : Platform) (rq : Request) (s : Site)
  (item : ChecklistItem.t) (n : Z) :
  fst (serve (new_audit P rq) s) = Redirect "/audits" ->
  In item (checklist_items (tables s)) ->
  lookup ("score_" ++ Py.str_of_int (ChecklistItem.id item)) (form rq)
  = Some (Py.str_of_int n) ->
  exists row,
    In row (audit_items (tables (snd (serve (new_audit P rq) s))))
    /\ AuditItem.audit_id row = next_id (map Audit.id (audits (tables s)))
    /\ AuditItem.checklist_item_id row = ChecklistItem.id item
    /\ AuditItem.score row = Some n.
Proof.
  intros Hok Hin Hl.
  destruct (new_audit_success P rq s Hok) as (v & dt & ar & fs & -> & Hacc).
  cbn [snd tables with_audit_items audit_items].
  pose proof (new_rows_fields P rq
                (Audit.id (new_audit_row P (tables s) v dt ar))
                (checklist_items_by_id (tables s))
                (audit_items (tables s))) as HF.
  assert (Hin' : In item (checklist_items_by_id (tables s)))
    by (unfold checklist_items_by_id; apply order_by_In; exact Hin).
  destruct (Forall2_In_l _ _ _ _ HF Hin') as (row & Hrow & H1 & H2 & H3 & _).
  exists row. split; [apply in_or_app; right; exact Hrow|].
  split; [exact H1|]. split; [exact H2|].
  rewrite H3.
  rewrite forallb_forall in Hacc. specialize (Hacc item Hin').
  unfold item_accepted, item_read in Hacc.
  apply andb_prop in Hacc. destruct Hacc as [Hread _].
  apply andb_prop in Hread. destruct Hread as [Hparse _].
  revert Hparse.
  unfold score_parses, submitted_score, form_get, item_key. rewrite Hl.
  pose proof (str_of_int_nonempty n) as Hne.
  destruct (Py.str_of_int n) eqn:E; [contradiction|].
  cbn [Py.truthy]. rewrite <- E.
  destruct (Py.int (Py.str_of_int n)) as [m|] eqn:Hint; [|discriminate].
  intros _. f_equal. apply int_str_of_int_inv. exact Hint.
Qed.

Lemma new_audit_stores_any_integer_witness :
  exists row,
    In row (audit_items
              (tables (snd (serve (new_audit sample_platform photo_request)
                              (site_of safety_db)))))
    /\ AuditItem.audit_id row = 1
    /\ AuditItem.checklist_item_id row = 1
    /\ AuditItem.score row = Some 7.
Proof.
  exact (new_audit_stores_any_integer sample_platform photo_request
           (site_of safety_db)
           {| ChecklistItem.id := 1; ChecklistItem.category_id := 1;
              ChecklistItem.text := "Exits are clear";
              ChecklistItem.original_spec := Some "" |} 7
           eq_refl (or_introl eq_refl) eq_refl).
Defined.

(** ** Percentages stay between 0 and 100 *)

Lemma score_sum_bounds l :
  Forall score_in_range l ->
  0 <= score_sum l <= 3 * Z.of_nat (length l).
Proof.
  unfold score_sum. induction 1 as [|o r Ho _ IH]; [simpl; lia|].
  cbn [fold_right length]. rewrite Nat2Z.inj_succ.
  destruct o as [v|]; cbn [score_or_zero score_in_range] in Ho |- *; lia.
Qed.

Lemma percentage_bounds sm n :
  0 <= n -> 0 <= sm <= 3 * n ->
  (0 <= percent sm n)%Q /\ (percent sm n <= 100)%Q.
Proof.
  intros Hn Hs. unfold percent.
  destruct (Z.eqb_spec n 0) as [->|Hne].
  - split; [apply Qle_refl | discriminate].
  - unfold Qle, Qdiv, Qmult, Qinv, inject_Z. cbn [Qnum Qden].
    destruct (n * 3) as [|p|p] eqn:Hp; try lia.
    cbn [Qnum Qden]. split; nia.
Qed.

(** X20: when every stored score is absent or one of 0, 1, 2, 3, every
    percentage on the audits page, per category and in total, lies between
    0 and 100. *)
Theorem audits_list_percentages_bounded (s s' : Site) (msgs : list string)
  (entries : list audit_entry) :
  serve audits_list s = (Html msgs (AuditsPage entries), s') ->
  (forall ai, In ai (audit_items (tables s)) ->
              score_in_range (AuditItem.score ai)) ->
  forall e, In e entries ->
    (0 <= entry_total e)%Q /\ (entry_total e <= 100)%Q
    /\ forall cat pct, In (cat, pct) (entry_categories e) ->
         (0 <= pct)%Q /\ (pct <= 100)%Q.
Proof.
  intros H Hrange e Hin.
  destruct (audits_list_entry s s' msgs entries e H Hin)
    as (_ & st & (Hnd & Hget & Hsum & Hcnt) & Hcats & Htot).
  set (items := audit_items_of (Audit.id (entry_audit e)) (tables s)) in *.
  assert (Hitems : forall ai, In ai items -> score_in_range (AuditItem.score ai)).
  { intros ai Hai. apply Hrange. unfold items, audit_items_of in Hai.
    apply filter_In in Hai. tauto. }
  assert (Hall : forall l : list AuditItem.t,
             (forall ai, In ai l -> In ai items) ->
             Forall score_in_range (map AuditItem.score l)).
  { intros l Hl. apply Forall_forall. intros o Ho.
    apply in_map_iff in Ho. destruct Ho as (ai & <- & Hai).
    apply Hitems, Hl, Hai. }
  assert (Htotal : (0 <= entry_total e)%Q /\ (entry_total e <= 100)%Q).
  { rewrite Htot, Hsum, Hcnt. rewrite <- (length_map AuditItem.score).
    apply percentage_bounds; [lia|].
    apply score_sum_bounds. apply Hall. auto. }
  split; [apply Htotal|]. split; [apply Htotal|].
  intros cat pct Hp. rewrite Hcats in Hp.
  apply in_map_iff in Hp. destruct Hp as ([k t] & Heq & Hkt).
  simpl in Heq. injection Heq as <- <-.
  pose proof (dict_get_In k t _ Hnd Hkt) as Hg. rewrite Hget in Hg.
  assert (Hb : 0 <= score_sum (scores_in (tables s) k items)
               <= 3 * Z.of_nat (length (scores_in (tables s) k items))).
  { apply score_sum_bounds. unfold scores_in.
    apply Hall. intros ai Hai. apply filter_In in Hai. tauto. }
  destruct (scores_in (tables s) k items) as [|x r]; [discriminate|].
  unfold tally_of in Hg. injection Hg as <-. cbn [sum count].
  exact (percentage_bounds (score_sum (x :: r))
           (Z.of_nat (length (x :: r))) (Nat2Z.is_nonneg _) Hb).
Qed.

Lemma audits_list_percentages_bounded_witness :
  (0 <= 500 # 6)%Q /\ (500 # 6 <= 100)%Q.
Proof.
  destruct (audits_list_percentages_bounded
              (site_of (audited_db (Some 2) (Some 3)))
              (site_of (audited_db (Some 2) (Some 3))) []
              [ {| entry_audit := sample_audit;
                   entry_categories := [("Safety", (500 # 6)%Q)];
                   entry_total := (500 # 6)%Q |} ]
              eq_refl) with
    (e := {| entry_audit := sample_audit;
             entry_categories := [("Safety", (500 # 6)%Q)];
             entry_total := (500 # 6)%Q |}) as (H0 & H100 & _).
  - intros ai [<-|[<-|[]]]; simpl; lia.
  - left. reflexivity.
  - split; [exact H0 | exact H100].
Defined.

(** ** Exporting a new audit *)

Lemma find_by_key_In (l : list ChecklistItem.t) x :
  NoDup (map ChecklistItem.id l) -> In x l ->
  find (fun c => ChecklistItem.id c =? ChecklistItem.id x) l = Some x.
Proof.
  induction l as [|a r IH]; simpl; intros Hnd Hin; [contradiction|].
  inversion Hnd as [|k ks Hn Hr]; subst.
  destruct Hin as [->|Hin]; [rewrite Z.eqb_refl; reflexivity|].
  destruct (Z.eqb_spec (ChecklistItem.id a) (ChecklistItem.id x)) as [e|_].
  - exfalso. apply Hn. rewrite e. apply in_map; exact Hin.
  - apply IH; assumption.
Qed.

(** X21: over tables that satisfy the invariants and whose checklist items
    all have a stored category, an audit that was created successfully can
    be exported at once: the file has one row per checklist item, in the
    order of the item identifiers and numbered from 1, and each row carries
    the text of its checklist item and the score and record submitted for
    it. *)
Theorem created_audit_exports (P P' : Platform) (rq : Request) (s : Site) :
  db_inv (tables s) ->
  (forall it, In it (checklist_items (tables s)) ->
              get_category (ChecklistItem.category_id it) (tables s) <> None) ->
  fst (serve (new_audit P rq) s) = Redirect "/audits" ->
  let s1 := snd (serve (new_audit P rq) s) in
  let aid := next_id (map Audit.id (audits (tables s))) in
  exists rows,
    serve (export_audit P' aid) s1
    = (SendAuditFile
         ("audit_" ++ Py.str_of_int aid ++ "_" ++ utcnow P' ++ ".xlsx") rows, s1)
    /\ length rows = length (checklist_items (tables s))
    /\ forall k item,
         nth_error (checklist_items_by_id (tables s)) k = Some item ->
         exists row,
           nth_error rows k = Some row
           /\ AuditRow.No row = 1 + Z.of_nat k
           /\ AuditRow.Checking_Item row = ChecklistItem.text item
           /\ AuditRow.Score row = submitted_score rq item
           /\ AuditRow.Record_ row
              = or_empty (form_get rq ("record_" ++ item_key item)).
Proof.
  intros ((Kc & Ki & Ka & Kai) & N & R) Hcat Hok s1 aid.
  destruct (new_audit_success P rq s Hok) as (v & dt & ar & fs & Hrun & _).
  set (a := new_audit_row P (tables s) v dt ar) in *.
  change (Audit.id a) with aid in Hrun.
  set (items := checklist_items_by_id (tables s)) in *.
  set (new := new_rows P rq aid items (audit_items (tables s))) in *.
  assert (Hs1 : tables s1
                = with_audit_items (audit_items (tables s) ++ new)%list
                    (with_audits (audits (tables s) ++ [a])%list (tables s)))
    by (subst s1; rewrite Hrun; reflexivity).
  assert (Hget : get_audit aid (tables s1) = Some a).
  { rewrite Hs1. unfold get_audit. simpl. rewrite find_app_or.
    destruct (find _ (audits (tables s))) as [b|] eqn:Hf.
    - apply find_some in Hf. destruct Hf as [Hb Hbi]. apply Z.eqb_eq in Hbi.
      exfalso. apply (next_id_not_in (map Audit.id (audits (tables s)))).
      fold aid. rewrite <- Hbi. apply in_map; exact Hb.
    - simpl. unfold aid. rewrite Z.eqb_refl. reflexivity. }
  assert (Howned : audit_items_of aid (tables s1) = new).
  { rewrite Hs1. unfold audit_items_of. simpl. rewrite filter_app.
    rewrite filter_none, filter_all; [reflexivity| |].
    - intros x Hx. apply Z.eqb_eq. apply (new_rows_refs _ _ _ _ _ _ Hx).
    - intros x Hx. apply Z.eqb_neq. intro He. destruct (R x Hx) as [H1 _].
      unfold get_audit in H1. apply find_id_not_None in H1.
      rewrite He in H1. exact (next_id_not_in _ H1). }
  pose proof (new_rows_fields P rq aid items (audit_items (tables s))) as HF.
  fold new in HF.
  assert (Hitem : forall item, In item items ->
                               In item (checklist_items (tables s)))
    by (intros item Hi; unfold items, checklist_items_by_id in Hi;
        apply order_by_In in Hi; exact Hi).
  assert (Hfind : forall item r,
            In item items ->
            AuditItem.checklist_item_id r = ChecklistItem.id item ->
            get_checklist_item (AuditItem.checklist_item_id r) (tables s1)
            = Some item).
  { intros item r Hi He. rewrite Hs1, He. unfold get_checklist_item. simpl.
    apply find_by_key_In; [exact Ki | apply Hitem; exact Hi]. }
  assert (Hrow : forall item r,
            In item items ->
            AuditItem.checklist_item_id r = ChecklistItem.id item ->
            exists cat,
              category_name_in (tables s1) r = Some cat
              /\ item_text_in (tables s1) r = Some (ChecklistItem.text item)).
  { intros item r Hi He. unfold category_name_in, item_text_in.
    rewrite (Hfind item r Hi He).
    pose proof (Hcat item (Hitem item Hi)) as Hc.
    assert (Hcs : get_category (ChecklistItem.category_id item) (tables s1)
                  = get_category (ChecklistItem.category_id item) (tables s))
      by (rewrite Hs1; reflexivity).
    rewrite Hcs.
    destruct (get_category _ (tables s)) as [c|]; [|contradiction].
    eexists. split; reflexivity. }
  rewrite export_audit_run, Hget.
  change (Audit.id a) with aid. rewrite Howned.
  destruct (map_option_total (audit_row_in (tables s1) a) (enumerate 1 new))
    as (rows & Hrows).
  { intros [idx r] Hin. apply enumerate_In in Hin.
    destruct (Forall2_In_r _ _ _ _ HF Hin) as (item & Hi & _ & H2 & _).
    destruct (Hrow item r Hi H2) as (cat & Hc & Ht).
    unfold audit_row_in. cbn [snd]. rewrite Hc, Ht. discriminate. }
  rewrite Hrows. exists rows. split; [reflexivity|].
  pose proof (map_option_Forall2 _ _ _ Hrows) as HR.
  split.
  - rewrite <- (Forall2_length_eq _ _ _ HR), enumerate_length.
    rewrite <- (Forall2_length_eq _ _ _ HF).
    unfold items, checklist_items_by_id. apply order_by_length.
  - intros k item Hk.
    destruct (Forall2_nth_error _ _ _ HF k item Hk)
      as (r & Hr & _ & H2 & H3 & H4 & _).
    pose proof (enumerate_nth_error _ 1 k r Hr) as He.
    destruct (Forall2_nth_error _ _ _ HR k _ He) as (row & Hrk & Hrow').
    exists row. split; [exact Hrk|].
    destruct (Hrow item r (nth_error_In _ _ Hk) H2) as (cat & Hc & Ht).
    unfold audit_row_in in Hrow'. cbn [fst snd] in Hrow'.
    rewrite Hc, Ht in Hrow'. injection Hrow' as <-. cbn.
    rewrite H3, H4. repeat split.
Qed.

Lemma created_audit_exports_witness :
  exists rows,
    serve (export_audit sample_platform 1)
          (snd (serve (new_audit sample_platform partial_score_request)
                  (site_of safety_db)))
    = (SendAuditFile "audit_1_20240102030405.xlsx" rows,
       snd (serve (new_audit sample_platform partial_score_request)
              (site_of safety_db)))
    /\ length rows = 2%nat.
Proof.
  destruct (created_audit_exports sample_platform sample_platform
              partial_score_request (site_of safety_db) safety_db_inv)
    as (rows & Hrun & Hlen & _).
  - intros it [<-|[<-|[]]]; discriminate.
  - reflexivity.
  - exists rows. split; [exact Hrun | exact Hlen].
Defined.

(** ** The form of a new audit *)

Lemma map_option_None {A B} (f : A -> option B) l x :
  In x l -> f x = None -> map_option f l = None.
Proof.
  induction l as [|a r IH]; simpl; intros Hin Hx; [contradiction|].
  destruct Hin as [->|Hin].
  - rewrite Hx. reflexivity.
  - rewrite (IH Hin Hx). destruct (f a); reflexivity.
Qed.

Lemma new_audit_form_run P rq s :
  method rq = GET ->
  serve (new_audit P rq) s
  = match map_option (form_row_in (tables s))
            (checklist_items_by_id (tables s)) with
    | Some rows => (Html (flashes s) (NewAuditPage rows), shown s)
    | None => (Status 500, s)
    end.
Proof.
  intro Hm. unfold serve, new_audit. rewrite Hm.
  unfold bind at 1. unfold query at 1.
  unfold bind at 1. unfold query at 1. cbn [session].
  unfold bind at 1.
  rewrite (for_map_option _ (form_row_in (tables s)) AttributeError).
  - destruct (map_option _ _); reflexivity.
  - intro i. unfold item_category_name, form_row_in, bind, query, attr, ret,
      raise. cbn [session].
    destruct (get_category _ (tables s)); reflexivity.
Qed.

(** X22: a GET of the new-audit form lists every checklist item once, in
    the order of the item identifiers, each with the name of its stored
    category, shows the pending messages and stores nothing; as soon as one
    checklist item has no stored category the form answers 500 instead. *)
Theorem new_audit_form_lists_items (P : Platform) (rq : Request) (s : Site) :
  method rq = GET ->
  ((forall it, In it (checklist_items (tables s)) ->
               get_category (ChecklistItem.category_id it) (tables s) <> None) ->
   exists rows,
     serve (new_audit P rq) s
     = (Html (flashes s) (NewAuditPage rows), shown s)
     /\ map fst rows = checklist_items_by_id (tables s)
     /\ forall i c, In (i, c) rows ->
          exists cat,
            get_category (ChecklistItem.category_id i) (tables s) = Some cat
            /\ c = Category.name cat)
  /\ (forall it, In it (checklist_items (tables s)) ->
                 get_category (ChecklistItem.category_id it) (tables s) = None ->
                 serve (new_audit P rq) s = (Status 500, s)).
Proof.
  intro Hm. rewrite (new_audit_form_run P rq s Hm). split.
  - intro Hall.
    destruct (map_option_total (form_row_in (tables s))
                (checklist_items_by_id (tables s))) as (rows & Hrows).
    { intros x Hx. apply order_by_In in Hx. unfold form_row_in.
      specialize (Hall x Hx).
      destruct (get_category _ (tables s)); [discriminate | contradiction]. }
    rewrite Hrows. exists rows. split; [reflexivity|].
    pose proof (map_option_Forall2 _ _ _ Hrows) as HF.
    split.
    + clear Hrows. induction HF as [|x y l l' Hxy _ IH]; [reflexivity|].
      simpl. rewrite IH. f_equal. unfold form_row_in in Hxy.
      destruct (get_category _ (tables s)); [|discriminate].
      injection Hxy as <-. reflexivity.
    + intros i c Hin.
      destruct (Forall2_In_r _ _ _ _ HF Hin) as (x & _ & Hx).
      unfold form_row_in in Hx.
      destruct (get_category (ChecklistItem.category_id x) (tables s))
        as [cat|] eqn:Hc; [|discriminate].
      simpl in Hx. injection Hx as -> <-. exists cat. split; [exact Hc | reflexivity].
  - intros it Hin Hnone.
    rewrite (map_option_None (form_row_in (tables s)) _ it);
      [reflexivity | apply order_by_In; exact Hin |].
    unfold form_row_in. rewrite Hnone. reflexivity.
Qed.

Lemma new_audit_form_lists_items_witness :
  exists rows,
    serve (new_audit sample_platform {| method := GET; form := []; files := [] |})
          (site_of safety_db)
    = (Html [] (NewAuditPage rows), shown (site_of safety_db))
    /\ map fst rows = checklist_items_by_id safety_db.
Proof.
  destruct (new_audit_form_lists_items sample_platform
              {| method := GET; form := []; files := [] |}
              (site_of safety_db) eq_refl) as [Hok _].
  destruct Hok as (rows & Hrun & Hfst & _).
  - intros it [<-|[<-|[]]]; discriminate.
  - exists rows. split; [exact Hrun | exact Hfst].
Defined.

(** X23: the checklist handler accepts a new item under a category
    identifier that no stored category has, as long as the identifier fits
    in a 64-bit integer; right after such a request the new-audit form
    answers 500, with nothing further changed. *)
Theorem unknown_category_breaks_form (P : Platform) (rq rq' : Request)
  (s : Site) (raw_c raw_t : string) (c : Z) :
  method rq = POST ->
  lookup "category_name" (form rq) = None ->
  lookup "item_id" (form rq) = None ->
  lookup "item_text" (form rq) = Some raw_t ->
  lookup "category_id" (form rq) = Some raw_c ->
  Py.int raw_c = Some c ->
  fits_int64 c = true ->
  Py.strip raw_t <> "" ->
  get_category c (tables s) = None ->
  method rq' = GET ->
  fst (serve (checklist rq) s) = Redirect "/checklist"
  /\ serve (new_audit P rq') (snd (serve (checklist rq) s))
     = (Status 500, snd (serve (checklist rq) s)).
Proof.
  intros Hm Hc Hi Ht Hcat Hint Hfit Hne Hnone Hm'.
  rewrite (checklist_add_item_post rq s raw_c c raw_t Hm Hc Hi Ht Hcat Hint).
  assert (Htr : Py.truthy (Py.strip raw_t) = true)
    by (destruct (Py.strip raw_t); [contradiction | reflexivity]).
  rewrite Htr, Hfit. split; [reflexivity|]. cbn [snd].
  rewrite (new_audit_form_run P rq' _ Hm').
  match goal with
  | |- match map_option ?f ?l with _ => _ end = _ =>
      rewrite (map_option_None f l
                 {| ChecklistItem.id :=
                      next_id (map ChecklistItem.id (checklist_items (tables s)));
                    ChecklistItem.category_id := c;
                    ChecklistItem.text := Py.strip raw_t;
                    ChecklistItem.original_spec :=
                      Some (Py.strip
                              (or_empty (lookup "original_spec" (form rq)))) |})
  end.
  - reflexivity.
  - apply order_by_In. cbn [tables with_flash with_tables with_checklist_items
                            checklist_items].
    apply in_or_app. right. left. reflexivity.
  - unfold form_row_in. cbn [ChecklistItem.category_id].
    change (get_category c (tables s) = None) in Hnone.
    cbn [tables with_flash with_tables]. unfold get_category in *.
    cbn [categories with_checklist_items]. rewrite Hnone. reflexivity.
Qed.

Lemma unknown_category_breaks_form_witness :
  fst (serve (checklist (post [("category_id", "7"); ("item_text", "Floor dry")]))
         (site_of safety_db)) = Redirect "/checklist"
  /\ serve (new_audit sample_platform {| method := GET; form := []; files := [] |})
       (snd (serve (checklist (post [("category_id", "7");
                                     ("item_text", "Floor dry")]))
               (site_of safety_db)))
     = (Status 500,
        snd (serve (checklist (post [("category_id", "7");
                                     ("item_text", "Floor dry")]))
               (site_of safety_db))).
Proof.
  apply (unknown_category_breaks_form sample_platform
           (post [("category_id", "7"); ("item_text", "Floor dry")])
           {| method := GET; form := []; files := [] |}
           (site_of safety_db) "7" "Floor dry" 7);
    try reflexivity.
  discriminate.
Defined.

(** ** The files that deleting an audit leaves alone *)

Lemma delete_body_keeps P ai w f :
  AuditItem.photo_filename ai <> Some f ->
  file_exists f
    (uploads (site (snd
       (((if Py.truthy (or_empty (AuditItem.photo_filename ai))
          then try_pass (os_remove P (or_empty (AuditItem.photo_filename ai)))
          else ret tt) ;; delete_audit_item ai) w))))
  = file_exists f (uploads (site w)).
Proof.
  intro Hne.
  unfold bind, try_pass, os_remove, delete_audit_item, session_update, ret.
  destruct (AuditItem.photo_filename ai) as [g|]; simpl; [|reflexivity].
  destruct g as [|c g']; simpl; [reflexivity|].
  set (g := String c g') in *.
  destruct (file_exists g (uploads (site w)) && negb (remove_denied P g));
    simpl; [|reflexivity].
  rewrite file_exists_delete.
  destruct (String.eqb_spec g f) as [e|_]; [|apply andb_true_r].
  exfalso. apply Hne. rewrite e. reflexivity.
Qed.

Lemma delete_loop_keeps P f items :
  (forall ai, In ai items -> AuditItem.photo_filename ai <> Some f) ->
  forall w,
    file_exists f
      (uploads (site (snd
         (for_each items
            (fun ai =>
               (if Py.truthy (or_empty (AuditItem.photo_filename ai))
                then try_pass
                       (os_remove P (or_empty (AuditItem.photo_filename ai)))
                else ret tt) ;; delete_audit_item ai) w))))
    = file_exists f (uploads (site w)).
Proof.
  induction items as [|ai r IH]; intros Hne w; [reflexivity|].
  cbn [for_each]. unfold bind at 1.
  pose proof (delete_body_keeps P ai w f (Hne ai (or_introl eq_refl))) as Hk.
  destruct (delete_body_run P ai w) as (fs1 & Hrun & _).
  rewrite Hrun in Hk. rewrite Hrun.
  rewrite IH; [exact Hk | intros x Hx; apply Hne; right; exact Hx].
Qed.

Lemma delete_audit_files_kept P i s a f :
  get_audit i (tables s) = Some a ->
  (forall ai, In ai (audit_items_of i (tables s)) ->
              AuditItem.photo_filename ai <> Some f) ->
  file_exists f (uploads (snd (serve (delete_audit P i) s)))
  = file_exists f (uploads s).
Proof.
  intros H Hne. pose proof (get_audit_id _ _ _ H) as Hid.
  pose proof (delete_loop_keeps P f (audit_items_of i (tables s)) Hne
                {| site := s; session := tables s |}) as Hk.
  unfold serve, delete_audit, get_or_404.
  unfold bind at 1 2. rewrite (query_get_found get_audit i _ a) by exact H.
  simpl.
  unfold bind at 1. unfold query at 1. simpl session.
  unfold bind at 1. rewrite Hid.
  destruct (delete_loop_run P (audit_items_of i (tables s))
              {| site := s; session := tables s |}) as (fs & Hrun & _).
  rewrite Hrun in Hk. rewrite Hrun. simpl in *.
  unfold bind, delete_audit_row, session_update, flash, ret. simpl.
  rewrite commit_run
    by (apply bindable_no_new; cbn;
        [apply Nat.le_refl | apply filter_length_le]).
  simpl. exact Hk.
Qed.

(** X24: deleting an audit touches no file but the photos of its own items:
    it creates no file, and a file that is not the photo of an item of the
    deleted audit is there afterwards exactly if it was there before. *)
Theorem delete_audit_keeps_other_files (P : Platform) (s : Site) (i : Z)
  (a : Audit.t) :
  get_audit i (tables s) = Some a ->
  let s' := snd (serve (delete_audit P i) s) in
  (forall f, file_exists f (uploads s') = true ->
             file_exists f (uploads s) = true)
  /\ (forall f,
        (forall ai, In ai (audit_items_of i (tables s)) ->
                    AuditItem.photo_filename ai <> Some f) ->
        file_exists f (uploads s') = file_exists f (uploads s)).
Proof.
  intros Ha s'. split.
  - destruct (delete_audit_found P i s a Ha) as (fs & Hrun & Hm & _).
    subst s'. rewrite Hrun. exact Hm.
  - intros f Hne. apply (delete_audit_files_kept P i s a f Ha Hne).
Qed.

Lemma delete_audit_keeps_other_files_witness :
  file_exists "logo.png"
    (uploads (snd (serve (delete_audit sample_platform 1) photo_site)))
  = file_exists "logo.png" (uploads photo_site).
Proof.
  apply (proj2 (delete_audit_keeps_other_files sample_platform photo_site 1
                  sample_audit eq_refl)).
  intros ai [<-|[<-|[]]]; discriminate.
Defined.

(** ** Photo names across audits *)

Lemma tagged_same_ref ai ai' f :
  photo_tagged ai -> photo_tagged ai' ->
  AuditItem.photo_filename ai = Some f ->
  AuditItem.photo_filename ai' = Some f ->
  item_ref ai = item_ref ai'.
Proof.
  intros T T' Hp Hp'.
  destruct (T f Hp) as (t & Hs & Ht). destruct (T' f Hp') as (t' & Hs' & Ht').
  rewrite Hs in Hs'.
  apply int_chars_until_underscore in Hs'; try apply str_of_int_chars.
  destruct Hs' as [Ha Hr].
  apply int_chars_until_headed in Hr; try apply str_of_int_chars;
    try assumption.
  apply str_of_int_inj in Ha. apply str_of_int_inj in Hr.
  unfold item_ref. rewrite Ha, Hr. reflexivity.
Qed.

Lemma NoDup_map_In_inj {A B} (f : A -> B) l x y :
  NoDup (map f l) -> In x l -> In y l -> f x = f y -> x = y.
Proof.
  induction l as [|a r IH]; simpl; intros Hnd Hx Hy He; [contradiction|].
  inversion Hnd as [|k ks Hn Hr]; subst.
  destruct Hx as [->|Hx], Hy as [->|Hy].
  - reflexivity.
  - exfalso. apply Hn. rewrite He. apply in_map; exact Hy.
  - exfalso. apply Hn. rewrite <- He. apply in_map; exact Hx.
  - exact (IH Hr Hx Hy He).
Qed.

Lemma NoDup_map_inj {A B} (f : A -> B) l :
  (forall x y, f x = f y -> x = y) -> NoDup l -> NoDup (map f l).
Proof.
  intros Hf. induction 1 as [|a r Hn _ IH]; simpl; constructor; [|exact IH].
  intro Hin. apply in_map_iff in Hin. destruct Hin as (b & Hb & Hbin).
  apply Hf in Hb. subst b. exact (Hn Hbin).
Qed.

Lemma checklist_audit_items rq s :
  audit_items (tables (snd (serve (checklist rq) s))) = audit_items (tables s).
Proof.
  rewrite checklist_run.
  unfold checklist_outcome, checklist_page_outcome, category_outcome,
    update_outcome, add_item_outcome.
  destruct (method rq); [reflexivity|].
  destruct (lookup "category_name" (form rq)) as [raw|].
  { destruct (Py.truthy (Py.strip raw)); [|reflexivity].
    destruct (category_by_name (Py.strip raw) (tables s)); reflexivity. }
  destruct (lookup "item_id" (form rq)) as [raw|].
  { destruct (Py.int raw); [|reflexivity].
    destruct (get_checklist_item _ _).
    - destruct (lookup "item_text" (form rq)); reflexivity.
    - destruct (fits_int64 _); [|reflexivity].
      destruct (lookup "item_text" (form rq)); reflexivity. }
  destruct (lookup "item_text" (form rq)) as [raw_t|]; [|reflexivity].
  destruct (lookup "category_id" (form rq)); [|reflexivity].
  destruct (Py.int _); [|reflexivity].
  destruct (Py.truthy _); [|reflexivity].
  destruct (fits_int64 _); reflexivity.
Qed.

Lemma photo_parts_same d d' :
  audit_items d' = audit_items d ->
  photos_tagged d /\ refs_distinct d ->
  photos_tagged d' /\ refs_distinct d'.
Proof. unfold photos_tagged, refs_distinct. intros ->. auto. Qed.

Lemma new_rows_item_refs P rq aid items : forall existing,
  map item_ref (new_rows P rq aid items existing)
  = map (fun it => (aid, ChecklistItem.id it)) items.
Proof.
  induction items as [|i r IH]; simpl; intro e; [reflexivity|].
  rewrite IH. reflexivity.
Qed.

Lemma new_rows_tagged P rq aid items :
  nfkd_keeps_ascii P ->
  forall existing row,
    In row (new_rows P rq aid items existing) -> photo_tagged row.
Proof.
  intros Hn existing row Hin.
  destruct (Forall2_In_r _ _ _ _ (new_rows_fields P rq aid items existing) Hin)
    as (item & _ & H1 & H2 & _ & _ & H5).
  intros f Hf. rewrite H1, H2. rewrite H5 in Hf. unfold submitted_photo in Hf.
  destruct (lookup _ (files rq)) as [ph|]; [|discriminate].
  destruct (Py.truthy (filename ph)); [|discriminate].
  injection Hf as <-. apply stored_photo_name_shape. exact Hn.
Qed.

Lemma photo_parts_rows P rq d aid :
  nfkd_keeps_ascii P ->
  keys_distinct d -> refs_stored d ->
  ~ In aid (map Audit.id (audits d)) ->
  photos_tagged d /\ refs_distinct d ->
  forall d',
    audit_items d'
    = (audit_items d
       ++ new_rows P rq aid (checklist_items_by_id d) (audit_items d))%list ->
    photos_tagged d' /\ refs_distinct d'.
Proof.
  intros Hn (_ & Ki & _ & _) R Hfresh [T D] d' Hd'.
  unfold photos_tagged, refs_distinct. rewrite Hd'. split.
  - intros ai Hin. apply in_app_or in Hin. destruct Hin as [Hin|Hin].
    + apply T; exact Hin.
    + apply (new_rows_tagged P rq aid _ Hn _ _ Hin).
  - rewrite map_app. apply NoDup_app.
    + exact D.
    + rewrite new_rows_item_refs.
      rewrite <- (map_map ChecklistItem.id (fun i => (aid, i))).
      apply NoDup_map_inj.
      * intros x y H. injection H as H. exact H.
      * eapply Permutation_NoDup; [|exact Ki].
        apply Permutation_map, Permutation_sym, order_by_perm.
    + intros x Hold Hnew. rewrite new_rows_item_refs in Hnew.
      apply in_map_iff in Hold. destruct Hold as (o & <- & Ho).
      apply in_map_iff in Hnew. destruct Hnew as (it & He & _).
      unfold item_ref in He. injection He as He _.
      apply Hfresh. rewrite He.
      destruct (R o Ho) as [H1 _]. unfold get_audit in H1.
      apply find_id_not_None in H1. exact H1.
Qed.

Lemma photo_parts_new_audit P rq s :
  nfkd_keeps_ascii P ->
  db_inv (tables s) ->
  photos_tagged (tables s) /\ refs_distinct (tables s) ->
  photos_tagged (tables (snd (serve (new_audit P rq) s)))
  /\ refs_distinct (tables (snd (serve (new_audit P rq) s))).
Proof.
  intros Hn (K & _ & R) H.
  destruct (new_audit_tables P rq s) as [->|(v & dt & ar & [->| ->])].
  - exact H.
  - apply (photo_parts_same (tables s)); [reflexivity | exact H].
  - apply (photo_parts_rows P rq (tables s)
             (Audit.id (new_audit_row P (tables s) v dt ar)) Hn K R);
      [apply next_id_not_in | exact H | reflexivity].
Qed.

Lemma photo_parts_delete_audit P i s :
  photos_tagged (tables s) /\ refs_distinct (tables s) ->
  photos_tagged (tables (snd (serve (delete_audit P i) s)))
  /\ refs_distinct (tables (snd (serve (delete_audit P i) s))).
Proof.
  intros [T D].
  destruct (get_audit i (tables s)) as [a|] eqn:Ha.
  2:{ rewrite (delete_audit_missing P i s Ha). split; assumption. }
  destruct (delete_audit_found P i s a Ha) as (fs & -> & _).
  unfold photos_tagged, refs_distinct, after_delete.
  cbn [snd tables audit_items]. split.
  - intros ai Hin. apply filter_In in Hin. apply T. exact (proj1 Hin).
  - apply NoDup_map_filter. exact D.
Qed.

Lemma photo_inv_handle P c s :
  nfkd_keeps_ascii P ->
  photo_inv (tables s) -> photo_inv (tables (snd (serve (handle P c) s))).
Proof.
  intros Hn (I & H). split; [apply inv_handle; exact I|].
  destruct c as [|rq| |rq|i|i|]; cbn [handle].
  - exact H.
  - apply (photo_parts_same (tables s));
      [apply checklist_audit_items | exact H].
  - rewrite audits_list_tables. exact H.
  - apply photo_parts_new_audit; assumption.
  - apply photo_parts_delete_audit; exact H.
  - rewrite export_audit_tables. exact H.
  - rewrite export_mil_tables. exact H.
Qed.

Lemma photo_inv_after_calls cs : forall s,
  ascii_kept cs ->
  photo_inv (tables s) -> photo_inv (tables (after_calls cs s)).
Proof.
  induction cs as [|[P c] r IH]; intros s Hk H; simpl; [exact H|].
  inversion Hk as [|x l Hx Hl]; subst.
  apply IH; [exact Hl|]. apply photo_inv_handle; [exact Hx | exact H].
Qed.

Lemma photo_inv_empty : photo_inv empty_db.
Proof.
  split; [exact inv_empty|]. split; [intros ai [] | constructor].
Qed.

Lemma two_audits_ascii_kept : ascii_kept two_audits.
Proof. repeat constructor; exact sample_nfkd_keeps_ascii. Qed.

(** X25: as long as every request was served on a platform whose
    normalisation leaves ASCII in place, no two stored audit items share a
    photo file: two different rows that both have a photo have photos of
    different names, whatever names the uploaded files had. *)
Theorem photo_names_identify_rows (cs : list (Platform * call))
  (ai ai' : AuditItem.t) (f f' : string) :
  ascii_kept cs ->
  In ai (audit_items (tables (after_calls cs (site_of empty_db)))) ->
  In ai' (audit_items (tables (after_calls cs (site_of empty_db)))) ->
  ai <> ai' ->
  AuditItem.photo_filename ai = Some f ->
  AuditItem.photo_filename ai' = Some f' ->
  f <> f'.
Proof.
  intros Hk Hin Hin' Hne Hp Hp' He. subst f'. apply Hne.
  destruct (photo_inv_after_calls cs (site_of empty_db) Hk photo_inv_empty)
    as (_ & T & D).
  apply (NoDup_map_In_inj item_ref _ ai ai' D Hin Hin').
  apply (tagged_same_ref ai ai' f (T ai Hin) (T ai' Hin') Hp Hp').
Qed.

Lemma photo_names_identify_rows_witness :
  "1_2_my_photo.jpg" <> "2_2_my_photo.jpg".
Proof.
  apply (photo_names_identify_rows two_audits
           {| AuditItem.id := 2; AuditItem.audit_id := 1;
              AuditItem.checklist_item_id := 2; AuditItem.score := None;
              AuditItem.record := None;
              AuditItem.photo_filename := Some "1_2_my_photo.jpg" |}
           {| AuditItem.id := 4; AuditItem.audit_id := 2;
              AuditItem.checklist_item_id := 2; AuditItem.score := None;
              AuditItem.record := None;
              AuditItem.photo_filename := Some "2_2_my_photo.jpg" |}).
  - exact two_audits_ascii_kept.
  - vm_compute. right. left. reflexivity.
  - vm_compute. do 3 right. left. reflexivity.
  - discriminate.
  - reflexivity.
  - reflexivity.
Defined.

(** X26: as long as every request was served on a platform whose
    normalisation leaves ASCII in place, deleting an audit leaves the photos
    of every other audit where they are: the photo file of an audit item of
    another audit is there afterwards exactly if it was there before. *)
Theorem delete_audit_keeps_other_photos (cs : list (Platform * call))
  (P : Platform) (i : Z) (ai : AuditItem.t) (f : string) :
  ascii_kept cs ->
  In ai (audit_items (tables (after_calls cs (site_of empty_db)))) ->
  AuditItem.audit_id ai <> i ->
  AuditItem.photo_filename ai = Some f ->
  file_exists f
    (uploads (snd (serve (delete_audit P i)
                     (after_calls cs (site_of empty_db)))))
  = file_exists f (uploads (after_calls cs (site_of empty_db))).
Proof.
  intros Hk Hin Hne Hp.
  destruct (photo_inv_after_calls cs (site_of empty_db) Hk photo_inv_empty)
    as (_ & T & _).
  set (s := after_calls cs (site_of empty_db)) in *.
  destruct (get_audit i (tables s)) as [a|] eqn:Ha.
  2:{ rewrite (delete_audit_missing P i s Ha). reflexivity. }
  apply (delete_audit_files_kept P i s a f Ha).
  intros ai' Hin' Hp'. apply Hne.
  unfold audit_items_of in Hin'. apply filter_In in Hin'.
  destruct Hin' as [Hin' Hid]. apply Z.eqb_eq in Hid.
  pose proof (tagged_same_ref ai ai' f (T ai Hin) (T ai' Hin') Hp Hp') as He.
  unfold item_ref in He. injection He as He _. rewrite He. exact Hid.
Qed.

Lemma delete_audit_keeps_other_photos_witness :
  file_exists "2_2_my_photo.jpg"
    (uploads (snd (serve (delete_audit sample_platform 1)
                     (after_calls two_audits (site_of empty_db)))))
  = file_exists "2_2_my_photo.jpg"
      (uploads (after_calls two_audits (site_of empty_db))).
Proof.
  apply (delete_audit_keeps_other_photos two_audits sample_platform 1
           {| AuditItem.id := 4; AuditItem.audit_id := 2;
              AuditItem.checklist_item_id := 2; AuditItem.score := None;
              AuditItem.record := None;
              AuditItem.photo_filename := Some "2_2_my_photo.jpg" |}).
  - exact two_audits_ascii_kept.
  - vm_compute. do 3 right. left. reflexivity.
  - discriminate.
  - reflexivity.
Defined.

(** ** A photo saved before the score is read *)

Lemma for_each_app {A} (l l' : list A) (body : A -> M unit) w :
  for_each (l ++ l') body w
  = match for_each l body w with
    | (Return _, w1) => for_each l' body w1
    | (Raise e, w1) => (Raise e, w1)
    end.
Proof.
  revert w. induction l as [|x r IH]; intro w; [reflexivity|].
  cbn [app for_each]. unfold bind.
  destruct (body x w) as [[u|e] w1]; [apply IH | reflexivity].
Qed.

Lemma record_item_bad_score P rq aid item w f :
  bindable w = true ->
  submitted_photo P rq aid item = Some f ->
  save_denied P f = false ->
  score_parses rq item = false ->
  exists fs,
    record_item P rq aid item w
    = (Raise ValueError, set_uploads fs w)
    /\ file_exists f fs = true.
Proof.
  intro Hb. unfold record_item. unfold bind at 1. rewrite (flush_run w Hb).
  unfold store_item, submitted_photo, score_parses, item_key, form_get.
  destruct (lookup ("photo_" ++ Py.str_of_int (ChecklistItem.id item)) (files rq))
    as [ph|]; [|discriminate].
  destruct (Py.truthy (filename ph)); [|discriminate].
  intros Hf Hd Hs. injection Hf as Hf. rewrite Hf.
  destruct (lookup ("score_" ++ Py.str_of_int (ChecklistItem.id item)) (form rq))
    as [sc|]; [|discriminate].
  destruct (Py.truthy sc); [|discriminate].
  destruct (Py.int sc) eqn:Hint; [discriminate|].
  exists (file_put f (content ph) (uploads (site w))).
  split.
  - unfold bind, photo_save, py_int, of_option, ret, raise.
    rewrite Hd, Hint. reflexivity.
  - rewrite file_exists_put, String.eqb_refl. apply orb_true_r.
Qed.

Lemma new_audit_bad_score P rq s v raw dt ar pre post item f :
  method rq = POST ->
  lookup "vendor" (form rq) = Some v ->
  lookup "audit_date" (form rq) = Some raw ->
  fromisoformat P raw = Some dt ->
  lookup "audit_area" (form rq) = Some ar ->
  checklist_items_by_id (tables s) = (pre ++ item :: post)%list ->
  forallb (item_accepted P rq (next_id (map Audit.id (audits (tables s))))) pre
  = true ->
  submitted_photo P rq (next_id (map Audit.id (audits (tables s)))) item
  = Some f ->
  save_denied P f = false ->
  score_parses rq item = false ->
  exists fs,
    serve (new_audit P rq) s
    = (Status 500,
       {| tables :=
            with_audits
              (audits (tables s) ++ [new_audit_row P (tables s) v dt ar])%list
              (tables s);
          uploads := fs;
          flashes := flashes s |})
    /\ file_exists f fs = true.
Proof.
  intros Hm Hv Hd Hp Ha Hitems Hpre Hf Hsd Hsc.
  rewrite (new_audit_post_loop P rq s v raw dt ar Hm Hv Hd Hp Ha).
  rewrite Hitems, for_each_app.
  change (Audit.id (new_audit_row P (tables s) v dt ar))
    with (next_id (map Audit.id (audits (tables s)))).
  set (aid := next_id (map Audit.id (audits (tables s)))) in *.
  destruct (accepted_read_fit P rq aid pre Hpre) as [_ Hfit].
  match goal with
  | |- context [for_each pre _ ?w0] =>
      assert (Hu : holds_unsent w0 [])
        by (split; cbn; [reflexivity | rewrite app_nil_r; reflexivity]);
      destruct (new_audit_loop P rq aid pre w0 [] Hu eq_refl Hpre)
        as (fs & Hrun);
      pose proof (new_audit_loop_unsent P rq aid pre w0 [] fs Hu) as Hu1
  end.
  rewrite Hrun. cbn [for_each]. unfold bind at 1.
  match goal with
  | |- context [record_item P rq aid item ?w1] =>
      destruct (record_item_bad_score P rq aid item w1 f) as (fs' & Hbad & Hex);
        [|exact Hf|exact Hsd|exact Hsc|]
  end.
  - rewrite (bindable_unsent _ _ Hu1). cbn [app].
    apply new_rows_fit. exact Hfit.
  - rewrite Hbad. exists fs'. split; [reflexivity | exact Hex].
Qed.

(** X27: [createAudit] saves the photo of a checklist item before it reads
    the item's score.  When the items before it pass (their scores are
    numbers that fit in 64 bits, their photos can be written) and an item
    comes with a photo that the file system accepts and with a score that is
    not a number, the request answers 500; the audit row is stored all the
    same, no audit item is, and the photo stays in the upload folder. *)
Theorem failed_audit_leaves_photo (P : Platform) (rq : Request) (s : Site)
  (v raw : string) (dt : date) (ar : string)
  (pre post : list ChecklistItem.t) (item : ChecklistItem.t) (f : string) :
  method rq = POST ->
  lookup "vendor" (form rq) = Some v ->
  lookup "audit_date" (form rq) = Some raw ->
  fromisoformat P raw = Some dt ->
  lookup "audit_area" (form rq) = Some ar ->
  checklist_items_by_id (tables s) = (pre ++ item :: post)%list ->
  forallb (item_accepted P rq (next_id (map Audit.id (audits (tables s))))) pre
  = true ->
  submitted_photo P rq (next_id (map Audit.id (audits (tables s)))) item
  = Some f ->
  save_denied P f = false ->
  score_parses rq item = false ->
  fst (serve (new_audit P rq) s) = Status 500
  /\ audits (tables (snd (serve (new_audit P rq) s)))
     = (audits (tables s) ++ [new_audit_row P (tables s) v dt ar])%list
  /\ audit_items (tables (snd (serve (new_audit P rq) s)))
     = audit_items (tables s)
  /\ file_exists f (uploads (snd (serve (new_audit P rq) s))) = true.
Proof.
  intros Hm Hv Hd Hp Ha Hitems Hpre Hf Hsd Hsc.
  destruct (new_audit_bad_score P rq s v raw dt ar pre post item f
              Hm Hv Hd Hp Ha Hitems Hpre Hf Hsd Hsc) as (fs & Hrun & Hex).
  rewrite Hrun. cbn. repeat split. exact Hex.
Qed.

Lemma failed_audit_leaves_photo_witness :
  fst (serve (new_audit sample_platform bad_score_photo_request)
         (site_of safety_db)) = Status 500
  /\ file_exists "1_1_floor.jpg"
       (uploads (snd (serve (new_audit sample_platform bad_score_photo_request)
                        (site_of safety_db)))) = true.
Proof.
  destruct (failed_audit_leaves_photo sample_platform bad_score_photo_request
              (site_of safety_db) "Acme" "2024-05-06"
              {| year := 2024; month := 5; day := 6 |} "Line 1"
              []
              [ {| ChecklistItem.id := 2; ChecklistItem.category_id := 1;
                   ChecklistItem.text := "Extinguishers checked";
                   ChecklistItem.original_spec := Some "" |} ]
              {| ChecklistItem.id := 1; ChecklistItem.category_id := 1;
                 ChecklistItem.text := "Exits are clear";
                 ChecklistItem.original_spec := Some "" |}
              "1_1_floor.jpg")
    as (H1 & _ & _ & H4); try reflexivity.
  split; [exact H1 | exact H4].
Defined.
